(** * Verification of the financial tracker (src/financial_tracker.py)

    The ledger of the program is the attribute [self.data] of class
    [FinancialTracker], a JSON document kept in memory and rewritten to the
    storage location after each successful mutation.  The development embeds
    the methods of the class and the two validation helpers as Rocq functions
    over a model of the Python values they handle, and proves the properties
    of the specification about them.

    Conventions of the embedding:
    - a Python [float] is an IEEE 754 binary64 number ([spec_float] of the
      standard library, with precision 53 and maximal exponent 1024);
    - a Python [str] is a [string] whose characters are read as the code
      points 0..255;
    - a Python [dict] is an association list in insertion order;
    - a method is a function from the tracker to an outcome (a value or a
      raised exception) and the tracker after the call;
    - the storage location is modelled by what reading it gives (nothing,
      an error, an empty file, or a text that [json.load] reads or refuses)
      and by what the next write to it does (it succeeds, it is refused, or
      it breaks off after the file was emptied). *)

From Stdlib Require Import ZArith List String Ascii Bool Lia.
From Stdlib Require Import Floats.SpecFloat.
Import ListNotations.

Local Open Scope string_scope.
Local Open Scope list_scope.
Local Open Scope Z_scope.

(* ===================================================================== *)
(** * Python floats: IEEE 754 binary64 *)
(* ===================================================================== *)

Module Float64.

Definition prec : Z := 53.
Definition emax : Z := 1024.

Definition float := spec_float.

Definition zero : float := S754_zero false.
Definition neg_zero : float := S754_zero true.
Definition inf : float := S754_infinity false.
Definition neg_inf : float := S754_infinity true.
Definition nan : float := S754_nan.

Definition add : float -> float -> float := SFadd prec emax.
Definition sub : float -> float -> float := SFsub prec emax.
Definition ltb : float -> float -> bool := SFltb.
Definition leb : float -> float -> bool := SFleb.
Definition eqb : float -> float -> bool := SFeqb.

(** [math.isfinite]: neither an infinity nor a NaN. *)
Definition is_finite (f : float) : bool :=
  match f with
  | S754_zero _ | S754_finite _ _ _ => true
  | S754_infinity _ | S754_nan => false
  end.

(** The binary64 number nearest to the integer [z] (ties to even);
    an infinity when [z] is beyond the range. *)
Definition of_Z (z : Z) : float := binary_normalize prec emax z 0 false.

(** The binary64 number nearest to [(-1)^s * n / d], for [n], [d] positive
    integers: the correctly rounded quotient of the library, applied to the
    two integers as mantissas of exponent 0. *)
Definition of_ratio (s : bool) (n d : positive) : float :=
  SFdiv prec emax (S754_finite s n 0) (S754_finite false d 0).

(** The binary64 number nearest to [(-1)^s * n * 10^e]. *)
Definition of_decimal (s : bool) (n : Z) (e : Z) : float :=
  match n with
  | Zpos p =>
      if 0 <=? e
      then binary_normalize prec emax
             (if s then - (n * 10 ^ e) else n * 10 ^ e) 0 s
      else of_ratio s p (Z.to_pos (10 ^ (- e)))
  | _ => S754_zero s
  end.

(** The integer a float is equal to, when it is one. *)
Definition to_Z_exact (f : float) : option Z :=
  match f with
  | S754_zero _ => Some 0
  | S754_finite s m e =>
      let v :=
        if 0 <=? e then Some (Zpos m * 2 ^ e)
        else if (Zpos m mod 2 ^ (- e)) =? 0
             then Some (Zpos m / 2 ^ (- e)) else None in
      option_map (fun z => if s then - z else z) v
  | _ => None
  end.

(** [m * 2^k] and the number of binary digits of [m], for the proofs
    about rounding. *)
Definition shl (m : positive) (k : nat) : positive := Nat.iter k xO m.

Definition digits (m : positive) : Z := Zpos (digits2_pos m).

End Float64.

(* ===================================================================== *)
(** * Python values, exceptions and outcomes *)
(* ===================================================================== *)

(** The exceptions the program can meet.  [JSONDecodeError],
    [UnicodeDecodeError] and [UnicodeEncodeError] are subclasses of
    [ValueError]; [OSError] is the class that [IOError] names. *)
Inductive exn : Type :=
| ValueError (msg : string)
| JSONDecodeError
| UnicodeDecodeError
| UnicodeEncodeError
| TypeError
| KeyError
| AttributeError
| OverflowError
| RecursionError
| OSError.

Definition is_ValueError (e : exn) : bool :=
  match e with
  | ValueError _ | JSONDecodeError | UnicodeDecodeError
  | UnicodeEncodeError => true
  | _ => false
  end.

Definition is_TypeError (e : exn) : bool :=
  match e with TypeError => true | _ => false end.

Definition is_JSONDecodeError (e : exn) : bool :=
  match e with JSONDecodeError => true | _ => false end.

Definition is_IOError (e : exn) : bool :=
  match e with OSError => true | _ => false end.

(** The outcome of evaluating an expression or of a call. *)
Inductive result (A : Type) : Type :=
| Returns (a : A)
| Raises (e : exn).

Arguments Returns {A} a.
Arguments Raises {A} e.

Definition rbind {A B : Type} (r : result A) (k : A -> result B) : result B :=
  match r with
  | Returns a => k a
  | Raises e => Raises e
  end.

Declare Scope py_scope.
Delimit Scope py_scope with py.

Notation "x <- c ;; k" := (rbind c (fun x => k))
  (at level 100, c at next level, right associativity) : py_scope.

(** The values of a JSON document as Python reads them: [None], [bool],
    [int], [float], [str], [list], and [dict] with [str] keys. *)
#[warnings="-register-all"]
Inductive pyval : Type :=
| PyNone
| PyBool (b : bool)
| PyInt (z : Z)
| PyFloat (f : Float64.float)
| PyStr (s : string)
| PyList (l : list pyval)
| PyDict (d : list (string * pyval)).

(* ===================================================================== *)
(** * Strings: [str.strip], comparison, [float(str)], [strptime] *)
(* ===================================================================== *)

Module PyStr.

Definition code (c : ascii) : N := N_of_ascii c.

(** [str.isspace] on the code points below 256. *)
Definition is_space (c : ascii) : bool :=
  let n := code c in
  ((9 <=? n) && (n <=? 13) || (28 <=? n) && (n <=? 32)
   || (n =? 133) || (n =? 160))%N.

(** The white space that [float] skips around a number: the C white space
    of an ASCII text and, in a text with other characters, the Unicode
    spaces above 127 (the control characters 28..31 are not skipped). *)
Definition is_float_space (c : ascii) : bool :=
  let n := code c in
  ((9 <=? n) && (n <=? 13) || (n =? 32) || (n =? 133) || (n =? 160))%N.

Definition is_digit (c : ascii) : bool :=
  let n := code c in ((48 <=? n) && (n <=? 57))%N.

Definition digit_val (c : ascii) : Z := Z.of_N (code c) - 48.

Fixpoint lstrip (sp : ascii -> bool) (l : list ascii) : list ascii :=
  match l with
  | c :: r => if sp c then lstrip sp r else l
  | [] => []
  end.

Definition strip_chars (sp : ascii -> bool) (l : list ascii) : list ascii :=
  rev (lstrip sp (rev (lstrip sp l))).

(** [not s]: the empty text is the one text that is false. *)
Definition is_empty (s : string) : bool :=
  match s with
  | EmptyString => true
  | String _ _ => false
  end.

(** [s.strip()] *)
Definition strip (s : string) : string :=
  string_of_list_ascii (strip_chars is_space (list_ascii_of_string s)).

(** [s1 < s2], [s1 <= s2], [s1 > s2] on [str]: the order of the code
    points, character by character. *)
Definition lt (s1 s2 : string) : bool :=
  match String.compare s1 s2 with Lt => true | _ => false end.
Definition le (s1 s2 : string) : bool :=
  match String.compare s1 s2 with Gt => false | _ => true end.
Definition gt (s1 s2 : string) : bool := lt s2 s1.

(** ** [float(s)] for a [str] *)

Definition lower (c : ascii) : ascii :=
  let n := code c in
  if ((65 <=? n) && (n <=? 90))%N then ascii_of_N (n + 32) else c.

(** Underscores are allowed between two digits only; they are removed. *)
Fixpoint drop_underscores (prev_digit : bool) (l : list ascii)
  : option (list ascii) :=
  match l with
  | [] => Some []
  | c :: r =>
      if Ascii.eqb c "_"
      then if prev_digit && match r with d :: _ => is_digit d | [] => false end
           then drop_underscores false r
           else None
      else option_map (cons c) (drop_underscores (is_digit c) r)
  end.

(** Reads a run of digits: the number read after [acc], how many digits
    were read, and the rest. *)
Fixpoint read_digits (acc : Z) (count : Z) (l : list ascii)
  : Z * Z * list ascii :=
  match l with
  | c :: r =>
      if is_digit c then read_digits (10 * acc + digit_val c) (count + 1) r
      else (acc, count, l)
  | [] => (acc, count, l)
  end.

Definition read_sign (l : list ascii) : bool * list ascii :=
  match l with
  | "-"%char :: r => (true, r)
  | "+"%char :: r => (false, r)
  | _ => (false, l)
  end.

(** The exponent part: [e] or [E], an optional sign and at least one
    digit, up to the end of the text. *)
Definition read_exponent (l : list ascii) : option Z :=
  match l with
  | [] => Some 0
  | c :: r =>
      if Ascii.eqb (lower c) "e"
      then let '(s, r1) := read_sign r in
           match read_digits 0 0 r1 with
           | (e, n, []) =>
               if 0 <? n then Some (if s then - e else e) else None
           | _ => None
           end
      else None
  end.

(** A decimal literal without sign: digits, an optional point and
    digits, with a digit on at least one side, and an optional exponent. *)
Definition read_decimal (s : bool) (l : list ascii) : option Float64.float :=
  let '(i, ni, r1) := read_digits 0 0 l in
  let '(m, nf, r2) :=
    match r1 with
    | "."%char :: r => let '(m, n, r') := read_digits i 0 r in (m, n, r')
    | _ => (i, 0, r1)
    end in
  if 0 <? ni + nf
  then match read_exponent r2 with
       | Some e => Some (Float64.of_decimal s m (e - nf))
       | None => None
       end
  else None.

Definition float_of_chars (l : list ascii) : option Float64.float :=
  match drop_underscores false (strip_chars is_float_space l) with
  | None => None
  | Some l1 =>
      let '(s, l2) := read_sign l1 in
      let name := string_of_list_ascii (map lower l2) in
      if String.eqb name "inf" || String.eqb name "infinity"
      then Some (S754_infinity s)
      else if String.eqb name "nan" then Some S754_nan
      else read_decimal s l2
  end.

(** [float(s)]: [None] stands for the [ValueError] it raises. *)
Definition float_of_string (s : string) : option Float64.float :=
  float_of_chars (list_ascii_of_string s).

(** ** [datetime.datetime.strptime(s, '%Y-%m-%d')] *)

Definition is_leap (y : Z) : bool :=
  ((y mod 4 =? 0) && negb (y mod 100 =? 0)) || (y mod 400 =? 0).

Definition days_in_month (y m : Z) : Z :=
  if m =? 2 then (if is_leap y then 29 else 28)
  else if (m =? 4) || (m =? 6) || (m =? 9) || (m =? 11) then 30
  else 31.

(** A date that [datetime] can hold: years 1 to 9999. *)
Definition valid_date (y m d : Z) : bool :=
  (1 <=? y) && (y <=? 9999) && (1 <=? m) && (m <=? 12)
  && (1 <=? d) && (d <=? days_in_month y m).

(** [%m]: [1[0-2]|0[1-9]|[1-9]], here followed by the hyphen of the
    format. *)
Definition read_month (l : list ascii) : option (Z * list ascii) :=
  let one_digit a b r :=
    if is_digit a && (1 <=? digit_val a) && Ascii.eqb b "-"
    then Some (digit_val a, r) else None in
  match l with
  | a :: b :: c :: r =>
      if is_digit a && is_digit b && Ascii.eqb c "-"
      then let m := 10 * digit_val a + digit_val b in
           if (1 <=? m) && (m <=? 12) then Some (m, r) else None
      else one_digit a b (c :: r)
  | [a; b] => one_digit a b []
  | _ => None
  end.

(** [%d]: [3[0-1]|[1-2]\d|0[1-9]|[1-9]| [1-9]], here up to the end of
    the text. *)
Definition read_day (l : list ascii) : option Z :=
  match l with
  | [a; b] =>
      if is_digit a && is_digit b
      then let d := 10 * digit_val a + digit_val b in
           if (1 <=? d) && (d <=? 31) then Some d else None
      else if Ascii.eqb a " " && is_digit b && (1 <=? digit_val b)
           then Some (digit_val b) else None
  | [a] => if is_digit a && (1 <=? digit_val a) then Some (digit_val a)
           else None
  | _ => None
  end.

(** The year, month and day that [strptime] reads; [None] stands for the
    [ValueError] it raises. *)
Definition strptime (s : string) : option (Z * Z * Z) :=
  match list_ascii_of_string s with
  | y1 :: y2 :: y3 :: y4 :: h :: r =>
      if is_digit y1 && is_digit y2 && is_digit y3 && is_digit y4
         && Ascii.eqb h "-"
      then let y := 1000 * digit_val y1 + 100 * digit_val y2
                    + 10 * digit_val y3 + digit_val y4 in
           match read_month r with
           | Some (m, r') =>
               match read_day r' with
               | Some d => if valid_date y m d then Some (y, m, d) else None
               | None => None
               end
           | None => None
           end
      else None
  | _ => None
  end.

(** The zero-padded form [YYYY-MM-DD]: ten characters, digits around two
    hyphens. *)
Definition is_iso_form (s : string) : bool :=
  match list_ascii_of_string s with
  | [y1; y2; y3; y4; h1; m1; m2; h2; d1; d2] =>
      is_digit y1 && is_digit y2 && is_digit y3 && is_digit y4
      && Ascii.eqb h1 "-" && is_digit m1 && is_digit m2
      && Ascii.eqb h2 "-" && is_digit d1 && is_digit d2
  | _ => false
  end.

End PyStr.

(* ===================================================================== *)
(** * Operations of Python on values *)
(* ===================================================================== *)

Module Py.

Local Open Scope py_scope.

(** [float(x)] *)
Definition float (x : pyval) : result Float64.float :=
  match x with
  | PyFloat f => Returns f
  | PyBool b => Returns (Float64.of_Z (if b then 1 else 0))
  | PyInt z =>
      let f := Float64.of_Z z in
      if Float64.is_finite f then Returns f else Raises OverflowError
  | PyStr s =>
      match PyStr.float_of_string s with
      | Some f => Returns f
      | None => Raises (ValueError "could not convert string to float")
      end
  | PyNone | PyList _ | PyDict _ => Raises TypeError
  end.

(** [x + y] *)
Definition add (x y : pyval) : result pyval :=
  match x, y with
  | PyInt a, PyInt b => Returns (PyInt (a + b))
  | PyInt a, PyBool b => Returns (PyInt (a + (if b then 1 else 0)))
  | PyBool a, PyInt b => Returns (PyInt ((if a then 1 else 0) + b))
  | PyBool a, PyBool b =>
      Returns (PyInt ((if a then 1 else 0) + (if b then 1 else 0)))
  | PyFloat a, PyFloat b => Returns (PyFloat (Float64.add a b))
  | PyFloat a, (PyInt _ | PyBool _) =>
      b <- float y ;; Returns (PyFloat (Float64.add a b))
  | (PyInt _ | PyBool _), PyFloat b =>
      a <- float x ;; Returns (PyFloat (Float64.add a b))
  | PyStr a, PyStr b => Returns (PyStr (a ++ b))
  | PyList a, PyList b => Returns (PyList (a ++ b))
  | _, _ => Raises TypeError
  end.

(** [x - y] *)
Definition sub (x y : pyval) : result pyval :=
  match x, y with
  | PyInt a, PyInt b => Returns (PyInt (a - b))
  | PyInt a, PyBool b => Returns (PyInt (a - (if b then 1 else 0)))
  | PyBool a, PyInt b => Returns (PyInt ((if a then 1 else 0) - b))
  | PyBool a, PyBool b =>
      Returns (PyInt ((if a then 1 else 0) - (if b then 1 else 0)))
  | PyFloat a, PyFloat b => Returns (PyFloat (Float64.sub a b))
  | PyFloat a, (PyInt _ | PyBool _) =>
      b <- float y ;; Returns (PyFloat (Float64.sub a b))
  | (PyInt _ | PyBool _), PyFloat b =>
      a <- float x ;; Returns (PyFloat (Float64.sub a b))
  | _, _ => Raises TypeError
  end.

(** ** [dict] with [str] keys, in insertion order *)

Fixpoint dict_get (k : string) (d : list (string * pyval)) : option pyval :=
  match d with
  | [] => None
  | (k', v) :: r => if String.eqb k k' then Some v else dict_get k r
  end.

(** [d[k] = v]: an existing key keeps its place, a new key goes last. *)
Fixpoint dict_set (k : string) (v : pyval) (d : list (string * pyval))
  : list (string * pyval) :=
  match d with
  | [] => [(k, v)]
  | (k', v') :: r =>
      if String.eqb k k' then (k, v) :: r else (k', v') :: dict_set k v r
  end.

(** [x[k]] for a [str] key [k] *)
Definition getitem (x : pyval) (k : string) : result pyval :=
  match x with
  | PyDict d =>
      match dict_get k d with
      | Some v => Returns v
      | None => Raises KeyError
      end
  | _ => Raises TypeError
  end.

(** [x[k] = v] for a [str] key [k] *)
Definition setitem (x : pyval) (k : string) (v : pyval) : result pyval :=
  match x with
  | PyDict d => Returns (PyDict (dict_set k v d))
  | _ => Raises TypeError
  end.

(** [x.append(v)] *)
Definition append (x : pyval) (v : pyval) : result pyval :=
  match x with
  | PyList l => Returns (PyList (l ++ [v]))
  | _ => Raises AttributeError
  end.

(** The items that [for e in x] visits. *)
Definition iter (x : pyval) : result (list pyval) :=
  match x with
  | PyList l => Returns l
  | PyDict d => Returns (map (fun kv => PyStr (fst kv)) d)
  | PyStr s =>
      Returns (map (fun c => PyStr (String c EmptyString))
                 (list_ascii_of_string s))
  | _ => Raises TypeError
  end.

(** [lo <= x <= hi] for two [str] bounds: both comparisons raise
    [TypeError] when [x] is not a [str]. *)
Definition str_between (lo : string) (x : pyval) (hi : string)
  : result bool :=
  match x with
  | PyStr s => Returns (PyStr.le lo s && PyStr.le s hi)
  | _ => Raises TypeError
  end.

(** ** Keys of the [dict] that [get_category_stats] builds

    Such a key is any hashable value.  Two keys are the same when they
    are equal: [str] with [str], [None] with [None], and numbers by their
    value ([1 == 1.0 == True]).  A NaN read from a JSON document is one
    object, found again by identity. *)

Definition as_int (x : pyval) : option Z :=
  match x with
  | PyInt z => Some z
  | PyBool b => Some (if b then 1 else 0)
  | PyFloat f => Float64.to_Z_exact f
  | _ => None
  end.

Definition key_eqb (x y : pyval) : bool :=
  match x, y with
  | PyNone, PyNone => true
  | PyStr a, PyStr b => String.eqb a b
  | PyFloat a, PyFloat b =>
      match a, b with
      | S754_nan, S754_nan => true
      | _, _ => Float64.eqb a b
      end
  | _, _ =>
      match as_int x, as_int y with
      | Some a, Some b => a =? b
      | _, _ => false
      end
  end.

Definition hashable (x : pyval) : bool :=
  match x with
  | PyList _ | PyDict _ => false
  | _ => true
  end.

Definition kdict := list (pyval * pyval).

Fixpoint kdict_get (k : pyval) (d : kdict) : option pyval :=
  match d with
  | [] => None
  | (k', v) :: r => if key_eqb k k' then Some v else kdict_get k r
  end.

(** An existing key keeps its place and its first key object. *)
Fixpoint kdict_set (k : pyval) (v : pyval) (d : kdict) : kdict :=
  match d with
  | [] => [(k, v)]
  | (k', v') :: r =>
      if key_eqb k k' then (k', v) :: r else (k', v') :: kdict_set k v r
  end.

(** [sum] of a list: the additions from left to right, starting from the
    [int] 0, as the language defines it.  (An interpreter that compensates
    the rounding errors of a sum of floats may return a nearer float.) *)
Fixpoint sum_from (acc : pyval) (l : list pyval) : result pyval :=
  match l with
  | [] => Returns acc
  | x :: r => acc' <- add acc x ;; sum_from acc' r
  end.

Definition sum (l : list pyval) : result pyval := sum_from (PyInt 0) l.

End Py.

(* ===================================================================== *)
(** * The storage location *)
(* ===================================================================== *)

(** ** Integers that are too long to write

    [int()] and [str()] convert at most [sys.int_max_str_digits] decimal
    digits, 4300 unless the interpreter is told otherwise.  [json.load]
    raises [ValueError] on an integer literal with more digits, and so does
    [json.dump] on an [int] that needs more. *)
Definition int_max_str_digits : Z := 4300.

Definition long_int (z : Z) : bool := 10 ^ int_max_str_digits <=? Z.abs z.

Fixpoint has_long_int (v : pyval) : bool :=
  match v with
  | PyInt z => long_int z
  | PyList l => existsb has_long_int l
  | PyDict d => existsb (fun kv => has_long_int (snd kv)) d
  | PyNone | PyBool _ | PyFloat _ | PyStr _ => false
  end.

Definition ExceedsLimit : exn :=
  ValueError "Exceeds the limit (4300 digits) for integer string conversion".

(** ** Reading *)

(** What the text of a file is to [json.load]. *)
Inductive content : Type :=
| NotUnicode            (* bytes that are not UTF-8: [UnicodeDecodeError] *)
| NotJson               (* a text that is no JSON document: [JSONDecodeError] *)
| DeepNesting           (* a JSON text nested deeper than the recursion limit
                           of the interpreter allows: [RecursionError] *)
| Json (doc : pyval).   (* the text of the document [doc], nested no deeper
                           than the interpreter allows *)

(** What reading the location named by [data_file] gives. *)
Inductive file : Type :=
| Absent                (* [os.path.exists] is false *)
| Unreadable            (* exists, and [open(..., 'r')] raises [OSError] *)
| Empty                 (* a file of size 0 *)
| Holds (c : content).  (* a file of positive size *)

Definition exists_ (f : file) : bool :=
  match f with Absent => false | _ => true end.

Definition size_positive (f : file) : bool :=
  match f with Empty => false | _ => true end.

(** [json.load(open(f, 'r', encoding='utf-8'))] *)
Definition json_load (f : file) : result pyval :=
  match f with
  | Absent | Unreadable => Raises OSError
  | Empty => Raises JSONDecodeError
  | Holds NotUnicode => Raises UnicodeDecodeError
  | Holds NotJson => Raises JSONDecodeError
  | Holds DeepNesting => Raises RecursionError
  | Holds (Json doc) =>
      if has_long_int doc then Raises ExceedsLimit else Returns doc
  end.

(** ** Writing *)

(** What the next write to the location does.  This is decided by the
    location (its permissions, its folder, the device) and by what of the
    document the model does not show: a [str] with a lone surrogate cannot
    be encoded as UTF-8, and a document nested too deep exhausts the
    recursion limit. *)
Inductive medium : Type :=
| Writable              (* the file is opened and the text is written *)
| Refuses               (* [open(..., 'w')] raises [OSError]: nothing is
                           written and the file stays as it is *)
| Breaks (e : exn) (rest : file).
                        (* the file is opened, which empties it, and then
                           the write raises [e]: [OSError] from the device,
                           [UnicodeEncodeError], [RecursionError]; [rest]
                           is what reading the location gives afterwards *)

(** A storage location: what reading it gives and what the next write to
    it does. *)
Record location : Type := {
  holds : file;
  next_write : medium
}.

(** A location that takes the write. *)
Definition writable (f : file) : location :=
  {| holds := f; next_write := Writable |}.

(** Reading a location after a write left [f] in it: a file that cannot be
    read is not made readable by writing to it. *)
Definition read_after (l : location) (f : file) : file :=
  match holds l with
  | Unreadable => Unreadable
  | _ => f
  end.

(** What is left of a write that stops at the first integer that is too
    long: the text before it, which is no JSON document, or nothing when
    this integer comes first. *)
Definition cut_short (doc : pyval) : file :=
  match doc with
  | PyInt _ => Empty
  | PyList (PyInt z :: _) => if long_int z then Empty else Holds NotJson
  | _ => Holds NotJson
  end.

(** [with open(l, 'w', encoding='utf-8') as file:
       json.dump(doc, file, ensure_ascii=False, indent=2)]:
    the outcome and the location afterwards. *)
Definition json_dump (doc : pyval) (l : location) : result unit * location :=
  match next_write l with
  | Refuses => (Raises OSError, l)
  | Breaks e rest => (Raises e, {| holds := rest; next_write := next_write l |})
  | Writable =>
      if has_long_int doc
      then (Raises ExceedsLimit,
            {| holds := read_after l (cut_short doc); next_write := next_write l |})
      else (Returns tt,
            {| holds := read_after l (Holds (Json doc)); next_write := next_write l |})
  end.

(** The location once the write of [doc] succeeded. *)
Definition wrote (l : location) (doc : pyval) : location :=
  {| holds := read_after l (Holds (Json doc)); next_write := next_write l |}.

(* ===================================================================== *)
(** * Methods: calls that read and change the tracker *)
(* ===================================================================== *)

(** An instance of the class: the storage location named by [data_file]
    and the document [data]. *)
Record tracker : Type := {
  data_file : location;
  data : pyval
}.

(** The tracker when the environment changed what the next write does. *)
Definition at_medium (m : medium) (self : tracker) : tracker :=
  {| data_file := {| holds := holds (data_file self); next_write := m |};
     data := data self |}.

(** A method body: from the instance before the call to the outcome and
    the instance after it.  An exception does not undo what the body did
    before raising it. *)
Definition method (A : Type) : Type := tracker -> result A * tracker.

Definition ret {A : Type} (a : A) : method A := fun self => (Returns a, self).

Definition raise {A : Type} (e : exn) : method A :=
  fun self => (Raises e, self).

Definition mbind {A B : Type} (m : method A) (k : A -> method B) : method B :=
  fun self =>
    match m self with
    | (Returns a, self') => k a self'
    | (Raises e, self') => (Raises e, self')
    end.

(** An expression without effect on the instance. *)
Definition lift {A : Type} (r : result A) : method A := fun self => (r, self).

(** [try: body  except (classes): handler] *)
Definition try_except {A : Type} (body : method A) (classes : exn -> bool)
  (handler : method A) : method A :=
  fun self =>
    match body self with
    | (Raises e, self') =>
        if classes e then handler self' else (Raises e, self')
    | done => done
    end.

(** [if cond: raise e] *)
Definition raise_if (cond : bool) (e : exn) : method unit :=
  if cond then raise e else ret tt.

Declare Scope method_scope.
Delimit Scope method_scope with method.

Notation "x <- c ;; k" := (mbind c (fun x => k))
  (at level 100, c at next level, right associativity) : method_scope.
Notation "c ;; k" := (mbind c (fun _ => k))
  (at level 100, right associativity) : method_scope.

(** [try: e  except (classes): handler] for an expression. *)
Definition rtry {A : Type} (r : result A) (classes : exn -> bool)
  (handler : result A) : result A :=
  match r with
  | Raises e => if classes e then handler else Raises e
  | done => done
  end.

(** [strptime] as a call: the parsed date, or [ValueError]. *)
Definition strptime (s : string) : result (Z * Z * Z) :=
  match PyStr.strptime s with
  | Some d => Returns d
  | None => Raises (ValueError "time data does not match format")
  end.

Module FinancialTracker.

Local Open Scope method_scope.

(** [{"budget": 0.0, "expenses": []}] *)
Definition default_data : pyval :=
  PyDict [("budget", PyFloat Float64.zero); ("expenses", PyList [])].

(** [self.data = v] *)
Definition set_data (v : pyval) : method unit :=
  fun self => (Returns tt, {| data_file := data_file self; data := v |}).

(** [self.data[k]] *)
Definition data_getitem (k : string) : method pyval :=
  fun self => (Py.getitem (data self) k, self).

(** [self.data[k] = v] *)
Definition data_setitem (k : string) (v : pyval) : method unit :=
  fun self =>
    match Py.setitem (data self) k v with
    | Returns d => set_data d self
    | Raises e => (Raises e, self)
    end.

(** [self.data[k].append(v)]: the list held under [k] is changed in
    place, so it stays where it is in the document. *)
Definition data_item_append (k : string) (v : pyval) : method unit :=
  fun self =>
    match rbind (Py.getitem (data self) k) (fun l => Py.append l v) with
    | Returns l' => data_setitem k l' self
    | Raises e => (Raises e, self)
    end.

(** [_load_data] *)
Definition _load_data : method unit :=
  try_except
    (fun self =>
       if exists_ (holds (data_file self))
          && size_positive (holds (data_file self))
       then (loaded_data <- lift (json_load (holds (data_file self))) ;;
             set_data loaded_data) self
       else ret tt self)
    (fun e => is_JSONDecodeError e || is_IOError e)
    (set_data default_data).

(** [__init__] *)
Definition __init__ (location : location) : result unit * tracker :=
  _load_data {| data_file := location; data := default_data |}.

(** [FinancialTracker(data_file)]: the new instance, or the exception
    that left [__init__]. *)
Definition new (location : location) : result tracker :=
  match __init__ location with
  | (Returns _, self) => Returns self
  | (Raises e, _) => Raises e
  end.

(** [_save_data]: the write may fail, and what it did to the location
    stays done. *)
Definition _save_data : method unit :=
  fun self =>
    let (written, l) := json_dump (data self) (data_file self) in
    (written, {| data_file := l; data := data self |}).

(** [set_budget] *)
Definition set_budget (budget : pyval) : method pyval :=
  try_except
    (budget_float <- lift (Py.float budget) ;;
     raise_if (Float64.ltb budget_float Float64.zero)
       (ValueError "Budget cannot be negative") ;;
     data_setitem "budget" (PyFloat budget_float) ;;
     _save_data ;;
     ret (PyBool true))
    (fun e => is_ValueError e || is_TypeError e)
    (raise (ValueError "Invalid budget value")).

(** [add_expense]; [today] is [datetime.date.today().isoformat()]. *)
Definition add_expense (amount : pyval) (category : string)
  (date : option string) (today : string) : method pyval :=
  try_except
    (amount_float <- lift (Py.float amount) ;;
     raise_if (Float64.leb amount_float Float64.zero)
       (ValueError "Amount must be positive") ;;
     raise_if (PyStr.is_empty category
               || PyStr.is_empty (PyStr.strip category))
       (ValueError "Category cannot be empty") ;;
     expense_date <-
       match date with
       | None => ret today
       | Some d => lift (strptime d) ;; ret d
       end ;;
     let expense :=
       PyDict [("amount", PyFloat amount_float);
               ("category", PyStr (PyStr.strip category));
               ("date", PyStr expense_date)] in
     data_item_append "expenses" expense ;;
     _save_data ;;
     ret (PyBool true))
    is_ValueError
    (raise (ValueError "Invalid expense data")).

(** [sum(expense["amount"] for expense in items)]: each amount is read
    when the sum reaches it. *)
Fixpoint sum_amounts (acc : pyval) (items : list pyval) : result pyval :=
  match items with
  | [] => Returns acc
  | expense :: rest =>
      rbind (Py.getitem expense "amount") (fun amount =>
      rbind (Py.add acc amount) (fun acc' =>
      sum_amounts acc' rest))
  end.

(** [get_total_spent] *)
Definition get_total_spent : method pyval :=
  expenses <- data_getitem "expenses" ;;
  items <- lift (Py.iter expenses) ;;
  lift (sum_amounts (PyInt 0) items).

(** The loop of [get_category_stats]. *)
Fixpoint category_loop (categories : Py.kdict) (items : list pyval)
  : result Py.kdict :=
  match items with
  | [] => Returns categories
  | expense :: rest =>
      rbind (Py.getitem expense "category") (fun category =>
      rbind (if Py.hashable category
             then Returns match Py.kdict_get category categories with
                          | Some v => v
                          | None => PyInt 0
                          end
             else Raises TypeError) (fun so_far =>
      rbind (Py.getitem expense "amount") (fun amount =>
      rbind (Py.add so_far amount) (fun total =>
      category_loop (Py.kdict_set category total categories) rest))))
  end.

(** [get_category_stats] *)
Definition get_category_stats : method Py.kdict :=
  expenses <- data_getitem "expenses" ;;
  items <- lift (Py.iter expenses) ;;
  lift (category_loop [] items).

(** [[expense for expense in items
      if start_date <= expense["date"] <= end_date]] *)
Fixpoint period_filter (start_date end_date : string) (items : list pyval)
  : result (list pyval) :=
  match items with
  | [] => Returns []
  | expense :: rest =>
      rbind (Py.getitem expense "date") (fun d =>
      rbind (Py.str_between start_date d end_date) (fun keep =>
      rbind (period_filter start_date end_date rest) (fun kept =>
      Returns (if keep then expense :: kept else kept))))
  end.

(** [get_period_stats] *)
Definition get_period_stats (start_date end_date : string) : method pyval :=
  try_except
    (lift (strptime start_date) ;;
     lift (strptime end_date) ;;
     raise_if (PyStr.gt start_date end_date)
       (ValueError "Start date cannot be after end date") ;;
     expenses <- data_getitem "expenses" ;;
     items <- lift (Py.iter expenses) ;;
     period_expenses <- lift (period_filter start_date end_date items) ;;
     total_period <- lift (sum_amounts (PyInt 0) period_expenses) ;;
     ret (PyDict [("total_spent", total_period);
                  ("expense_count",
                   PyInt (Z.of_nat (List.length period_expenses)))]))
    is_ValueError
    (raise (ValueError "Invalid date format")).

(** [get_financial_summary] *)
Definition get_financial_summary : method pyval :=
  total_spent <- get_total_spent ;;
  budget <- data_getitem "budget" ;;
  remaining <- lift (Py.sub budget total_spent) ;;
  budget' <- data_getitem "budget" ;;
  ret (PyDict [("budget", budget'); ("total_spent", total_spent);
               ("remaining", remaining)]).

End FinancialTracker.

(** [validate_amount]: the pair it returns. *)
Definition validate_amount (amount_str : string) : result (bool * pyval) :=
  rtry
    (rbind (Py.float (PyStr amount_str)) (fun amount =>
     Returns (if Float64.leb Float64.zero amount
              then (true, PyFloat amount)
              else (false, PyInt 0))))
    is_ValueError
    (Returns (false, PyInt 0)).

(** [validate_date] *)
Definition validate_date (date_str : string) : result bool :=
  rtry
    (rbind (strptime date_str) (fun _ => Returns true))
    is_ValueError
    (Returns false).

(* ===================================================================== *)
(** * Vocabulary of the specification *)
(* ===================================================================== *)

(** The two failures of the mutating calls, as the program raises them. *)
Definition InvalidBudget : exn := ValueError "Invalid budget value".
Definition InvalidExpense : exn := ValueError "Invalid expense data".
Definition InvalidDateRange : exn := ValueError "Invalid date format".

(** The outcome of a mutating call once it has changed the document in
    memory: that of the write.  What the write raises leaves the call as
    it is, or as the failure of the call when it is of the classes that the
    call catches. *)
Definition after_write (classes : exn -> bool) (failure : exn)
  (written : result unit) : result pyval :=
  match written with
  | Returns _ => Returns (PyBool true)
  | Raises e => if classes e then Raises failure else Raises e
  end.

(** The classes that [set_budget] catches. *)
Definition ValueError_or_TypeError (e : exn) : bool :=
  is_ValueError e || is_TypeError e.

(** The tracker with another document, at the same location. *)
Definition with_data (doc : pyval) (self : tracker) : tracker :=
  {| data_file := data_file self; data := doc |}.

(** A valid finite number: an [int], a finite [float], or a [str] that
    reads as a finite number. *)
Definition is_finite_number (v : pyval) : bool :=
  match v with
  | PyInt _ => true
  | PyFloat f => Float64.is_finite f
  | PyStr s =>
      match PyStr.float_of_string s with
      | Some f => Float64.is_finite f
      | None => false
      end
  | _ => false
  end.




(** An [int] within the range of the floats, or a value of another type:
    [float(v)] does not raise [OverflowError]. *)
Definition within_float_range (v : pyval) : bool :=
  match v with
  | PyInt z => Float64.is_finite (Float64.of_Z z)
  | _ => true
  end.

(** A [float], a [bool], a text, or an [int] within the range of the
    floats: [float(v)] returns a number or raises [ValueError]. *)
Definition number_or_text (v : pyval) : bool :=
  match v with
  | PyFloat _ | PyBool _ | PyStr _ => true
  | PyInt z => Float64.is_finite (Float64.of_Z z)
  | PyNone | PyList _ | PyDict _ => false
  end.

(** [float(v)] fails, or gives a number below zero.  Neither a NaN nor the
    positive infinity is below zero. *)
Definition invalid_budget (v : pyval) : bool :=
  match Py.float v with
  | Returns f => Float64.ltb f Float64.zero
  | Raises _ => true
  end.

(** Nothing is left of the category once it is trimmed. *)
Definition blank (category : string) : bool :=
  PyStr.is_empty (PyStr.strip category).

(** A date is given and [strptime] does not read it. *)
Definition date_rejected (date : option string) : bool :=
  match date with
  | Some d => match PyStr.strptime d with Some _ => false | None => true end
  | None => false
  end.

(** The year, month and day written in a text of the form [YYYY-MM-DD]. *)
Definition iso_fields (s : string) : Z * Z * Z :=
  match map PyStr.digit_val (list_ascii_of_string s) with
  | [y1; y2; y3; y4; _; m1; m2; _; d1; d2] =>
      (1000 * y1 + 100 * y2 + 10 * y3 + y4, 10 * m1 + m2, 10 * d1 + d2)
  | _ => (0, 0, 0)
  end.

Definition real_date (ymd : Z * Z * Z) : bool :=
  let '(y, m, d) := ymd in PyStr.valid_date y m d.

(** The order of the calendar: a date is the same day as another or an
    earlier one. *)
Definition date_le (a b : Z * Z * Z) : bool :=
  let '(y, m, d) := a in
  let '(y', m', d') := b in
  (y <? y') || ((y =? y') && ((m <? m') || ((m =? m') && (d <=? d')))).

(** The eight digits of a date, as one number. *)
Definition date_key (a : Z * Z * Z) : Z :=
  let '(y, m, d) := a in 10000 * y + 100 * m + d.

(** The validation of [add_expense] fails: [float(amount)] raises
    [ValueError]; or it gives a number, and the number is zero or below, or
    the category is blank, or the date is rejected. *)
Definition expense_rejected (amount : pyval) (category : string)
  (date : option string) : bool :=
  match Py.float amount with
  | Returns f =>
      Float64.leb f Float64.zero || blank category || date_rejected date
  | Raises e => is_ValueError e
  end.

(** No date is given, or one of the form [YYYY-MM-DD]. *)
Definition iso_or_omitted (date : option string) : bool :=
  match date with
  | Some d => PyStr.is_iso_form d
  | None => true
  end.

(** A date is given and its fields are no date of the calendar. *)
Definition names_no_date (date : option string) : bool :=
  match date with
  | Some d => negb (real_date (iso_fields d))
  | None => false
  end.

(** [float(amount)] fails, or gives a number that is zero or below, or the
    category is blank, or the date names no date of the calendar.  Neither
    a NaN nor the positive infinity is zero or below. *)
Definition invalid_expense (amount : pyval) (category : string)
  (date : option string) : bool :=
  match Py.float amount with
  | Returns f =>
      Float64.leb f Float64.zero || blank category || names_no_date date
  | Raises _ => true
  end.

(** The entry that a successful [add_expense] appends. *)
Definition new_entry (f : Float64.float) (category : string)
  (date : option string) (today : string) : pyval :=
  PyDict [("amount", PyFloat f);
          ("category", PyStr (PyStr.strip category));
          ("date", PyStr match date with Some d => d | None => today end)].

(** The budget of a document is a [float] that is not below zero. *)
Definition budget_not_negative (doc : pyval) : Prop :=
  exists d f, doc = PyDict d
              /\ Py.dict_get "budget" d = Some (PyFloat f)
              /\ Float64.ltb f Float64.zero = false.

(** The states of the ledger that the calls of the program lead to, from
    a construction that found no document or a document whose budget is
    not below zero. *)
Inductive reachable : tracker -> Prop :=
| reach_default (location : location) (self : tracker) :
    (forall doc, holds location <> Holds (Json doc)) ->
    FinancialTracker.new location = Returns self ->
    reachable self
| reach_loaded (doc : pyval) (location : location) (self : tracker) :
    budget_not_negative doc ->
    holds location = Holds (Json doc) ->
    FinancialTracker.new location = Returns self ->
    reachable self
| reach_medium (m : medium) (self : tracker) :
    reachable self ->
    reachable (at_medium m self)
| reach_set_budget (budget : pyval) (self : tracker) :
    reachable self ->
    reachable (snd (FinancialTracker.set_budget budget self))
| reach_add_expense (amount : pyval) (category : string)
    (date : option string) (today : string) (self : tracker) :
    reachable self ->
    reachable (snd (FinancialTracker.add_expense amount category date today
                      self)).

(* ===================================================================== *)
(** * The ledger that the program builds, in typed form *)
(* ===================================================================== *)

(** Every expense that [add_expense] records has a [float] amount, a [str]
    category and a [str] date, and the budget that [set_budget] records is
    a [float].  The documents of this shape are the images of the typed
    ledgers below. *)
Module Ledger.

Record expense : Type := {
  amount : Float64.float;
  category : string;
  date : string
}.

Definition expense_doc (e : expense) : pyval :=
  PyDict [("amount", PyFloat (amount e));
          ("category", PyStr (category e));
          ("date", PyStr (date e))].

Definition doc (budget : Float64.float) (expenses : list expense) : pyval :=
  PyDict [("budget", PyFloat budget);
          ("expenses", PyList (map expense_doc expenses))].

Definition tracker_of (location : location) (budget : Float64.float)
  (expenses : list expense) : tracker :=
  {| data_file := location; data := doc budget expenses |}.

(** The additions of [sum], from left to right, on floats. *)
Definition float_sum (l : list Float64.float) : Float64.float :=
  fold_left Float64.add l Float64.zero.

(** What [sum] returns on a list of floats: the [int] 0 it starts from
    when the list is empty. *)
Definition sum_value (l : list Float64.float) : pyval :=
  match l with
  | [] => PyInt 0
  | _ => PyFloat (float_sum l)
  end.

(** The amounts of the expenses of a category, in the order of the
    sequence. *)
Definition amounts_of (c : string) (expenses : list expense)
  : list Float64.float :=
  map amount (filter (fun e => String.eqb (category e) c) expenses).

(** The distinct categories, each at the place of its first occurrence. *)
Fixpoint first_seen (l : list string) : list string :=
  match l with
  | [] => []
  | c :: r => c :: filter (fun x => negb (String.eqb x c)) (first_seen r)
  end.

(** The mapping of the specification: one entry per distinct category, in
    first-seen order, with the sum of the amounts of the category. *)
Definition category_totals (expenses : list expense) : Py.kdict :=
  map (fun c => (PyStr c, PyFloat (float_sum (amounts_of c expenses))))
    (first_seen (map category expenses)).

(** The expenses whose day lies between the days of the two bounds,
    inclusive, for dates written in the form [YYYY-MM-DD]. *)
Definition in_period (start_date end_date : string)
  (expenses : list expense) : list expense :=
  filter (fun e => date_le (iso_fields start_date) (iso_fields (date e))
                   && date_le (iso_fields (date e)) (iso_fields end_date))
    expenses.

(** The loop of [get_category_stats] on typed entries. *)
Definition entries : Type := list (string * Float64.float).

Definition mem (c : string) (l : list string) : bool :=
  existsb (String.eqb c) l.

Fixpoint tget (c : string) (acc : entries) : option Float64.float :=
  match acc with
  | [] => None
  | (c', v) :: r => if String.eqb c c' then Some v else tget c r
  end.

Fixpoint tset (c : string) (v : Float64.float) (acc : entries)
  : entries :=
  match acc with
  | [] => [(c, v)]
  | (c', v') :: r =>
      if String.eqb c c' then (c', v) :: r else (c', v') :: tset c v r
  end.

Fixpoint totals_loop (acc : entries) (expenses : list expense)
  : entries :=
  match expenses with
  | [] => acc
  | e :: r =>
      let so_far := match tget (category e) acc with
                    | Some v => v
                    | None => Float64.zero
                    end in
      totals_loop (tset (category e) (Float64.add so_far (amount e)) acc) r
  end.

Definition kdict_of (acc : entries) : Py.kdict :=
  map (fun cv => (PyStr (fst cv), PyFloat (snd cv))) acc.

(** The sum of integers, for the amounts that are whole numbers. *)
Definition zsum (l : list Z) : Z := fold_right Z.add 0 l.

(** The whole amounts of the expenses of a category. *)
Definition whole_of (w : expense -> Z) (c : string)
  (expenses : list expense) : Z :=
  zsum (map w (filter (fun e => String.eqb (category e) c) expenses)).

End Ledger.

(** The ledgers that the program builds: constructed on a location without
    a document, then changed by its own calls. *)
Inductive built : tracker -> Prop :=
| built_new (location : location) (self : tracker) :
    (forall doc, holds location <> Holds (Json doc)) ->
    FinancialTracker.new location = Returns self ->
    built self
| built_medium (m : medium) (self : tracker) :
    built self ->
    built (at_medium m self)
| built_set_budget (budget : pyval) (self : tracker) :
    built self ->
    built (snd (FinancialTracker.set_budget budget self))
| built_add_expense (amount : pyval) (category : string)
    (date : option string) (today : string) (self : tracker) :
    built self ->
    built (snd (FinancialTracker.add_expense amount category date today
                  self)).

(* ===================================================================== *)
(** * Vocabulary for the properties beyond the specification *)
(* ===================================================================== *)

(** The ledgers of a session in which no write fails: constructed on a
    location that can be read, then changed by calls of [set_budget] and
    [add_expense] that return or that change nothing, while the
    environment decides anew before each call what the next write does. *)
Inductive session : tracker -> Prop :=
| session_new (location : location) (self : tracker) :
    holds location <> Unreadable ->
    FinancialTracker.new location = Returns self ->
    session self
| session_medium (m : medium) (self : tracker) :
    session self ->
    session (at_medium m self)
| session_set_budget (budget : pyval) (self : tracker) :
    session self ->
    fst (FinancialTracker.set_budget budget self) = Returns (PyBool true)
    \/ snd (FinancialTracker.set_budget budget self) = self ->
    session (snd (FinancialTracker.set_budget budget self))
| session_add_expense (amount : pyval) (category : string)
    (date : option string) (today : string) (self : tracker) :
    session self ->
    fst (FinancialTracker.add_expense amount category date today self)
    = Returns (PyBool true)
    \/ snd (FinancialTracker.add_expense amount category date today self)
       = self ->
    session (snd (FinancialTracker.add_expense amount category date today
                    self)).

(** A ledger and a later one: any number of calls of [set_budget] and
    [add_expense] lie between the two, with whatever the writes do. *)
Inductive later : tracker -> tracker -> Prop :=
| later_now (self : tracker) : later self self
| later_medium (m : medium) (self self' : tracker) :
    later self self' ->
    later self (at_medium m self')
| later_set_budget (budget : pyval) (self self' : tracker) :
    later self self' ->
    later self (snd (FinancialTracker.set_budget budget self'))
| later_add_expense (amount : pyval) (category : string)
    (date : option string) (today : string) (self self' : tracker) :
    later self self' ->
    later self (snd (FinancialTracker.add_expense amount category date today
                       self')).

(** A float that is a zero, and one that is a NaN. *)
Definition is_zero (f : Float64.float) : bool :=
  match f with S754_zero _ => true | _ => false end.

Definition is_nan (f : Float64.float) : bool :=
  match f with S754_nan => true | _ => false end.

(** The summary that [get_financial_summary] returns on a typed ledger. *)
Definition summary_of (budget : Float64.float)
  (expenses : list Ledger.expense) : pyval :=
  let amounts := map Ledger.amount expenses in
  PyDict [("budget", PyFloat budget);
          ("total_spent", Ledger.sum_value amounts);
          ("remaining",
           PyFloat (Float64.sub budget (Ledger.float_sum amounts)))].

(** The expenses recorded with exactly this date text. *)
Definition on_date (d : string) (expenses : list Ledger.expense)
  : list Ledger.expense :=
  filter (fun e => String.eqb (Ledger.date e) d) expenses.

(** What a period returns for the expenses it keeps. *)
Definition period_value (kept : list Ledger.expense) : pyval :=
  PyDict [("total_spent", Ledger.sum_value (map Ledger.amount kept));
          ("expense_count", PyInt (Z.of_nat (List.length kept)))].

(** An expense as [add_expense] records it: an amount that is not zero or
    below, and a category that is trimmed and not empty. *)
Definition well_formed (e : Ledger.expense) : Prop :=
  Float64.leb (Ledger.amount e) Float64.zero = false
  /\ PyStr.strip (Ledger.category e) = Ledger.category e
  /\ Ledger.category e <> EmptyString.

(** The text reads as a NaN, and as a zero. *)
Definition reads_nan (s : string) : bool :=
  match PyStr.float_of_string s with
  | Some f => is_nan f
  | None => false
  end.

Definition reads_zero (s : string) : bool :=
  match PyStr.float_of_string s with
  | Some f => is_zero f
  | None => false
  end.

(* ===================================================================== *)
(** * The menu: [main] and [show_statistics] *)
(* ===================================================================== *)

(** The menu talks to the user through [input] and [print].  Its world is
    the tracker it works on, the lines that the user will still type, and
    what it has written so far.  A formatted text is kept as its parts: the
    literal texts and the values placed between them. *)
Inductive piece : Type :=
| Text (s : string)
| Shown (v : pyval)
| Shown_exn (e : exn).

Inductive output : Type :=
| Line (parts : list piece)
| Prompt (text : string).

Record world : Type := {
  ledger : tracker;
  stdin : list string;
  stdout : list output
}.

(** How a part of the menu ends: with a value, with an exception of the
    classes above, or with the [EOFError] that [input] raises when no line
    is left, which is of none of these classes and which the program
    catches nowhere. *)
Inductive outcome (A : Type) : Type :=
| Done (a : A)
| Failed (e : exn)
| EOFError.

Arguments Done {A} a.
Arguments Failed {A} e.
Arguments EOFError {A}.

Definition program (A : Type) : Type := world -> outcome A * world.

Definition pret {A : Type} (a : A) : program A := fun w => (Done a, w).

Definition pbind {A B : Type} (m : program A) (k : A -> program B)
  : program B :=
  fun w =>
    match m w with
    | (Done a, w') => k a w'
    | (Failed e, w') => (Failed e, w')
    | (EOFError, w') => (EOFError, w')
    end.

Declare Scope program_scope.
Delimit Scope program_scope with program.

Notation "x <- c ;; k" := (pbind c (fun x => k))
  (at level 100, c at next level, right associativity) : program_scope.
Notation "c ;; k" := (pbind c (fun _ => k))
  (at level 100, right associativity) : program_scope.

(** A call of a method of the tracker. *)
Definition call {A : Type} (m : method A) : program A :=
  fun w =>
    let w' self := {| ledger := self; stdin := stdin w; stdout := stdout w |} in
    match m (ledger w) with
    | (Returns a, self) => (Done a, w' self)
    | (Raises e, self) => (Failed e, w' self)
    end.

(** An expression without effect on the world. *)
Definition eval {A : Type} (r : result A) : program A :=
  fun w =>
    match r with
    | Returns a => (Done a, w)
    | Raises e => (Failed e, w)
    end.

(** [print(f"...")] *)
Definition print (parts : list piece) : program unit :=
  fun w =>
    (Done tt,
     {| ledger := ledger w; stdin := stdin w;
        stdout := stdout w ++ [Line parts] |}).

(** [input(text)]: the prompt is written, then the next line is read. *)
Definition input (text : string) : program string :=
  fun w =>
    let asked := stdout w ++ [Prompt text] in
    match stdin w with
    | [] => (EOFError, {| ledger := ledger w; stdin := []; stdout := asked |})
    | line :: rest =>
        (Done line, {| ledger := ledger w; stdin := rest; stdout := asked |})
    end.

(** [try: body  except classes as e: handler] *)
Definition try_except_as {A : Type} (body : program A)
  (classes : exn -> bool) (handler : exn -> program A) : program A :=
  fun w =>
    match body w with
    | (Failed e, w') => if classes e then handler e w' else (Failed e, w')
    | done => done
    end.

(** The line feed that starts some of the texts. *)
Definition nl : string := String (ascii_of_nat 10) EmptyString.

(** [x <= 0] *)
Definition le_zero (x : pyval) : result bool :=
  match x with
  | PyFloat f => Returns (Float64.leb f Float64.zero)
  | PyInt z => Returns (z <=? 0)
  | PyBool b => Returns (negb b)
  | PyNone | PyStr _ | PyList _ | PyDict _ => Raises TypeError
  end.

Local Open Scope program_scope.

(** [for category, amount in categories.items(): print(...)] *)
Fixpoint print_categories (items : Py.kdict) : program unit :=
  match items with
  | [] => pret tt
  | (category, amount) :: rest =>
      print [Shown category; Text ": "; Shown amount] ;;
      print_categories rest
  end.

(** [show_statistics]; [today] is [datetime.date.today().isoformat()]. *)
Definition show_statistics (today : string) : program unit :=
  summary <- call FinancialTracker.get_financial_summary ;;
  categories <- call FinancialTracker.get_category_stats ;;
  print [Text (nl ++ "=== Financial Summary ===")] ;;
  budget <- eval (Py.getitem summary "budget") ;;
  print [Text "Budget: "; Shown budget] ;;
  total_spent <- eval (Py.getitem summary "total_spent") ;;
  print [Text "Total Spent: "; Shown total_spent] ;;
  remaining <- eval (Py.getitem summary "remaining") ;;
  print [Text "Remaining: "; Shown remaining] ;;
  print [Text (nl ++ "=== Spending by Category ===")] ;;
  match categories with
  | _ :: _ => print_categories categories
  | [] => print [Text "No expenses recorded."]
  end ;;
  print [Text (nl ++ "=== Period Statistics ===")] ;;
  start_line <-
    input "Enter start date (YYYY-MM-DD) or press Enter to skip: " ;;
  let start_date := PyStr.strip start_line in
  if PyStr.is_empty start_date then pret tt else
  start_valid <- eval (validate_date start_date) ;;
  if start_valid then
    end_line <-
      input "Enter end date (YYYY-MM-DD) or press Enter for today: " ;;
    let end_date :=
      if PyStr.is_empty (PyStr.strip end_line) then today
      else PyStr.strip end_line in
    end_valid <- eval (validate_date end_date) ;;
    if end_valid then
      try_except_as
        (period_stats <-
           call (FinancialTracker.get_period_stats start_date end_date) ;;
         print [Text (nl ++ "From "); Shown (PyStr start_date); Text " to ";
                Shown (PyStr end_date); Text ":"] ;;
         total <- eval (Py.getitem period_stats "total_spent") ;;
         print [Text "Total spent: "; Shown total] ;;
         count <- eval (Py.getitem period_stats "expense_count") ;;
         print [Text "Number of expenses: "; Shown count])
        is_ValueError
        (fun e => print [Text "Error: "; Shown_exn e])
    else print [Text "Invalid end date format!"]
  else print [Text "Invalid start date format!"].

(** One turn of the loop of [main]: the menu, the choice and what the
    choice does.  The value is [false] when the turn leaves the loop. *)
Definition main_turn (today : string) : program bool :=
  print [Text (nl ++ "=== Main Menu ===")] ;;
  print [Text "1. Set Budget"] ;;
  print [Text "2. Add Expense"] ;;
  print [Text "3. View Statistics"] ;;
  print [Text "4. Exit"] ;;
  choice_line <- input "Choose an option (1-4): " ;;
  let choice := PyStr.strip choice_line in
  if String.eqb choice "1" then
    amount_line <- input "Enter your budget: " ;;
    let amount_str := PyStr.strip amount_line in
    checked <- eval (validate_amount amount_str) ;;
    let (is_valid, amount) := checked : bool * pyval in
    if is_valid then
      call (FinancialTracker.set_budget amount) ;;
      print [Text "Budget set to: "; Shown amount] ;;
      pret true
    else
      print [Text "Invalid amount! Please enter a positive number."] ;;
      pret true
  else if String.eqb choice "2" then
    amount_line <- input "Enter amount spent: " ;;
    let amount_str := PyStr.strip amount_line in
    checked <- eval (validate_amount amount_str) ;;
    let (is_valid, amount) := checked : bool * pyval in
    refused <- eval (if is_valid then le_zero amount else Returns true) ;;
    if refused then
      print [Text "Invalid amount! Please enter a positive number."] ;;
      pret true
    else
      category_line <- input "Enter category: " ;;
      let category := PyStr.strip category_line in
      if PyStr.is_empty category then
        print [Text "Category cannot be empty!"] ;;
        pret true
      else
        date_line <-
          input "Enter date (YYYY-MM-DD) or press Enter for today: " ;;
        let date_str := PyStr.strip date_line in
        date <-
          (if PyStr.is_empty date_str then pret None
           else
             date_valid <- eval (validate_date date_str) ;;
             if date_valid then pret (Some date_str)
             else
               print [Text "Invalid date format! Using today's date."] ;;
               pret None) ;;
        call (FinancialTracker.add_expense amount category date today) ;;
        print [Text "Expense added successfully!"] ;;
        pret true
  else if String.eqb choice "3" then
    show_statistics today ;;
    pret true
  else if String.eqb choice "4" then
    print [Text "Goodbye!"] ;;
    pret false
  else
    print [Text "Invalid choice! Please try again."] ;;
    pret true.

Local Close Scope program_scope.

(** The loop of [main]: the worlds that the turns lead to, one after the
    other, as long as no turn leaves the loop.  The date of the day is read
    anew in each turn, and the environment decides anew what the next
    write does. *)
Inductive turns : world -> world -> Prop :=
| turns_none (w : world) : turns w w
| turns_medium (m : medium) (w w' : world) :
    turns w w' ->
    turns w {| ledger := at_medium m (ledger w'); stdin := stdin w';
               stdout := stdout w' |}
| turns_more (today : string) (w w' w'' : world) :
    turns w w' ->
    main_turn today w' = (Done true, w'') ->
    turns w w''.

(** The locations that can be read and that hold what the program wrote,
    or nothing that it reads as a document. *)
Definition own_location (location : location) : Prop :=
  holds location = Absent \/ holds location = Empty
  \/ holds location = Holds NotJson
  \/ exists budget expenses,
       holds location = Holds (Json (Ledger.doc budget expenses)).

(** What a turn of the menu makes of a typed ledger when the write
    succeeds: the same ledger, or one with another budget, or one with one
    more expense; the new document is then written to the location. *)
Inductive changed (location : location) (budget : Float64.float)
  (es : list Ledger.expense) : tracker -> Prop :=
| changed_nothing :
    changed location budget es (Ledger.tracker_of location budget es)
| changed_budget (f : Float64.float) :
    Float64.ltb f Float64.zero = false ->
    changed location budget es
      (Ledger.tracker_of (wrote location (Ledger.doc f es)) f es)
| changed_expenses (e : Ledger.expense) :
    well_formed e ->
    changed location budget es
      (Ledger.tracker_of (wrote location (Ledger.doc budget (es ++ [e])))
         budget (es ++ [e])).

(** The lines that [show_statistics] ends with for a period of two dates
    that [validate_date] accepts. *)
Definition period_lines (start_date end_date : string)
  (expenses : list Ledger.expense) : list output :=
  if PyStr.gt start_date end_date
  then [Line [Text "Error: "; Shown_exn InvalidDateRange]]
  else
    let kept :=
      filter (fun e => PyStr.le start_date (Ledger.date e)
                       && PyStr.le (Ledger.date e) end_date) expenses in
    [Line [Text (nl ++ "From "); Shown (PyStr start_date); Text " to ";
           Shown (PyStr end_date); Text ":"];
     Line [Text "Total spent: ";
           Shown (Ledger.sum_value (map Ledger.amount kept))];
     Line [Text "Number of expenses: ";
           Shown (PyInt (Z.of_nat (List.length kept)))]].

(** What [show_statistics] writes on a typed ledger before it reads the
    start of the period. *)
Definition report_lines (budget : Float64.float)
  (expenses : list Ledger.expense) : list output :=
  let amounts := map Ledger.amount expenses in
  [Line [Text (nl ++ "=== Financial Summary ===")];
   Line [Text "Budget: "; Shown (PyFloat budget)];
   Line [Text "Total Spent: "; Shown (Ledger.sum_value amounts)];
   Line [Text "Remaining: ";
         Shown (PyFloat (Float64.sub budget (Ledger.float_sum amounts)))];
   Line [Text (nl ++ "=== Spending by Category ===")]]
  ++ match Ledger.category_totals expenses with
     | [] => [Line [Text "No expenses recorded."]]
     | items =>
         map (fun item : pyval * pyval =>
                Line [Shown (fst item); Text ": "; Shown (snd item)]) items
     end
  ++ [Line [Text (nl ++ "=== Period Statistics ===")];
      Prompt "Enter start date (YYYY-MM-DD) or press Enter to skip: "].

(** What each turn of the menu writes first. *)
Definition menu_lines : list output :=
  [Line [Text (nl ++ "=== Main Menu ===")];
   Line [Text "1. Set Budget"];
   Line [Text "2. Add Expense"];
   Line [Text "3. View Statistics"];
   Line [Text "4. Exit"];
   Prompt "Choose an option (1-4): "].

(** A turn does not end with an exception. *)
Definition no_exception {A : Type} (o : outcome A) : Prop :=
  match o with
  | Failed _ => False
  | Done _ | EOFError => True
  end.

(** A typed ledger at a location that can be read and that holds its
    document, or nothing that the program reads as one while the ledger is
    the default one. *)
Definition in_step (self : tracker) : Prop :=
  (exists budget es,
     self = Ledger.tracker_of (data_file self) budget es)
  /\ FinancialTracker.new (data_file self) = Returns self
  /\ holds (data_file self) <> Unreadable.

(** Parts of the menu that leave the tracker as it is, that leave it as it
    is when they end at the end of the input, and that never end there. *)
Definition keeps_ledger {A : Type} (m : program A) : Prop :=
  forall w, ledger (snd (m w)) = ledger w.

Definition keeps_ledger_at_eof {A : Type} (m : program A) : Prop :=
  forall w, fst (m w) = EOFError -> ledger (snd (m w)) = ledger w.

Definition never_eof {A : Type} (m : program A) : Prop :=
  forall w, fst (m w) <> EOFError.

(* ===================================================================== *)
(** * Properties *)
(* ===================================================================== *)

Import FinancialTracker.

(** ** Dictionaries *)

Lemma dict_get_set_same (k : string) (v : pyval) (d : list (string * pyval)) :
  Py.dict_get k (Py.dict_set k v d) = Some v.
Proof.
  induction d as [|[k' v'] d IH]; simpl.
  - now rewrite String.eqb_refl.
  - destruct (String.eqb k k') eqn:E; simpl.
    + now rewrite String.eqb_refl.
    + now rewrite E.
Qed.

Lemma dict_get_set_other (k k' : string) (v : pyval)
  (d : list (string * pyval)) :
  k <> k' -> Py.dict_get k' (Py.dict_set k v d) = Py.dict_get k' d.
Proof.
  intros Hne. induction d as [|[k0 v0] d IH]; simpl.
  - destruct (String.eqb k' k) eqn:E; [|reflexivity].
    apply String.eqb_eq in E. congruence.
  - destruct (String.eqb k k0) eqn:E; simpl.
    + apply String.eqb_eq in E. subst k0.
      destruct (String.eqb k' k) eqn:E'; [|reflexivity].
      apply String.eqb_eq in E'. congruence.
    + now rewrite IH.
Qed.

(** ** Outcomes of the two mutating calls, step by step *)

(** ** The write *)

Lemma save_data_run (self : tracker) :
  _save_data self
  = (fst (json_dump (data self) (data_file self)),
     {| data_file := snd (json_dump (data self) (data_file self));
        data := data self |}).
Proof.
  unfold _save_data. now destruct (json_dump (data self) (data_file self)).
Qed.

Lemma save_data_keeps_data (self : tracker) :
  data (snd (_save_data self)) = data self.
Proof. now rewrite save_data_run. Qed.

(** A write succeeds only where the medium takes it and no integer of the
    document is too long, and then the location holds the document. *)
Lemma json_dump_returns (doc : pyval) (l : location) (u : unit) :
  fst (json_dump doc l) = Returns u ->
  next_write l = Writable
  /\ has_long_int doc = false
  /\ json_dump doc l = (Returns tt, wrote l doc).
Proof.
  unfold json_dump, wrote.
  destruct (next_write l) as [| |e rest]; try discriminate.
  destruct (has_long_int doc); [discriminate|]. now repeat split.
Qed.

Lemma json_dump_writable (doc : pyval) (l : location) :
  next_write l = Writable ->
  has_long_int doc = false ->
  json_dump doc l = (Returns tt, wrote l doc).
Proof. intros Hw Hl. unfold json_dump, wrote. now rewrite Hw, Hl. Qed.

Lemma save_data_returns (self : tracker) (u : unit) :
  fst (_save_data self) = Returns u ->
  next_write (data_file self) = Writable
  /\ has_long_int (data self) = false
  /\ _save_data self
     = (Returns tt,
        {| data_file := wrote (data_file self) (data self);
           data := data self |}).
Proof.
  rewrite save_data_run. cbn [fst]. intros H.
  destruct (json_dump_returns _ _ _ H) as (Hw & Hl & ->). now repeat split.
Qed.

Lemma after_write_returns (classes : exn -> bool) (failure : exn)
  (written : result unit) (r : pyval) :
  after_write classes failure written = Returns r ->
  written = Returns tt /\ r = PyBool true.
Proof.
  destruct written as [[]|e]; cbn [after_write].
  - intros E. inversion E. now split.
  - destruct (classes e); discriminate.
Qed.





(** [set_budget], step by step: the conversion, the test, the change of
    the document, and the write, which decides the outcome. *)
Lemma set_budget_run (budget : pyval) (self : tracker) :
  set_budget budget self =
  match Py.float budget with
  | Raises e =>
      if is_ValueError e || is_TypeError e
      then (Raises InvalidBudget, self) else (Raises e, self)
  | Returns f =>
      if Float64.ltb f Float64.zero then (Raises InvalidBudget, self)
      else match data self with
           | PyDict d =>
               let changed :=
                 with_data (PyDict (Py.dict_set "budget" (PyFloat f) d))
                   self in
               (after_write ValueError_or_TypeError InvalidBudget
                  (fst (_save_data changed)),
                snd (_save_data changed))
           | _ => (Raises InvalidBudget, self)
           end
  end.
Proof.
  unfold set_budget, try_except, mbind, lift.
  destruct (Py.float budget) as [f|e]; [|reflexivity].
  destruct (Float64.ltb f Float64.zero); simpl; [reflexivity|].
  unfold data_setitem.
  destruct (data self) as [| | | | | |d]; try reflexivity.
  cbn [Py.setitem set_data]. unfold with_data. cbn [data_file data].
  destruct (_save_data _) as [[[]|e] self']; [reflexivity|].
  cbn [fst snd after_write]. unfold ValueError_or_TypeError.
  now destruct (is_ValueError e || is_TypeError e).
Qed.

Lemma blank_test (category : string) :
  PyStr.is_empty category || PyStr.is_empty (PyStr.strip category)
  = blank category.
Proof. unfold blank. destruct category; reflexivity. Qed.

(** [add_expense], step by step: the checks, the entry appended to the
    list in memory, and the write, which decides the outcome. *)
Lemma add_expense_run (amount : pyval) (category : string)
  (date : option string) (today : string) (self : tracker) :
  add_expense amount category date today self =
  match Py.float amount with
  | Raises e =>
      if is_ValueError e then (Raises InvalidExpense, self)
      else (Raises e, self)
  | Returns f =>
      if Float64.leb f Float64.zero || blank category || date_rejected date
      then (Raises InvalidExpense, self)
      else
        match rbind (Py.getitem (data self) "expenses")
                (fun l => Py.append l (new_entry f category date today)) with
        | Raises e => (Raises e, self)
        | Returns l' =>
            match data self with
            | PyDict d =>
                let changed :=
                  with_data (PyDict (Py.dict_set "expenses" l' d)) self in
                (after_write is_ValueError InvalidExpense
                   (fst (_save_data changed)),
                 snd (_save_data changed))
            | _ => (Raises TypeError, self)
            end
        end
  end.
Proof.
  unfold add_expense, try_except, mbind, lift.
  destruct (Py.float amount) as [f|e]; [|reflexivity].
  destruct (Float64.leb f Float64.zero); simpl; [reflexivity|].
  rewrite blank_test.
  destruct (blank category); simpl; [reflexivity|].
  unfold date_rejected, strptime, new_entry.
  assert (Happ : forall entry,
    try_except
      (mbind (data_item_append "expenses" entry) (fun _ =>
       mbind _save_data (fun _ => ret (PyBool true))))
      is_ValueError (raise InvalidExpense) self =
    match rbind (Py.getitem (data self) "expenses")
            (fun l => Py.append l entry) with
    | Raises e => (Raises e, self)
    | Returns l' =>
        match data self with
        | PyDict d =>
            let changed :=
              with_data (PyDict (Py.dict_set "expenses" l' d)) self in
            (after_write is_ValueError InvalidExpense
               (fst (_save_data changed)),
             snd (_save_data changed))
        | _ => (Raises TypeError, self)
        end
    end).
  { intros entry. unfold try_except, mbind, data_item_append, data_setitem.
    destruct (data self) as [| | | | | |d0] eqn:Hd; try reflexivity.
    simpl. destruct (Py.dict_get "expenses" d0) as [l|]; [|reflexivity].
    destruct l; try reflexivity.
    cbn [rbind Py.append]. rewrite ?Hd. cbn [Py.setitem set_data].
    unfold with_data. cbn [data_file data].
    destruct (_save_data _) as [[[]|e] self']; [reflexivity|].
    cbn [fst snd after_write]. now destruct (is_ValueError e). }
  destruct date as [d|]; simpl.
  - destruct (PyStr.strptime d) as [ymd|]; simpl; [|reflexivity].
    apply Happ.
  - apply Happ.
Qed.

Lemma not_ValueError_neq (e : exn) (msg : string) :
  is_ValueError e = false -> Raises (A:=pyval) e <> Raises (ValueError msg).
Proof. intros H E. inversion E. subst. discriminate. Qed.

(* ===================================================================== *)
(** ** C1: [set_budget] *)
(* ===================================================================== *)

(** C1, as stated, fails: the positive infinity is not a finite number,
    and [set_budget] accepts it, stores it as the budget and persists it.
    (The same holds of a NaN.) *)
Lemma set_budget_accepts_infinity :
  let fresh := {| data_file := writable Absent; data := default_data |} in
  let doc :=
    PyDict [("budget", PyFloat Float64.inf); ("expenses", PyList [])] in
  is_finite_number (PyFloat Float64.inf) = false
  /\ set_budget (PyFloat Float64.inf) fresh
     = (Returns (PyBool true),
        {| data_file := writable (Holds (Json doc)); data := doc |}).
Proof. split; reflexivity. Qed.

(** It fails as well where the write fails: on a location that refuses
    the write, such as a directory, [set_budget(100)] raises the [OSError]
    of the write when the budget in memory is 100.0 already. *)
Lemma set_budget_fails_after_the_change :
  let directory := {| holds := Unreadable; next_write := Refuses |} in
  let doc :=
    PyDict [("budget", PyFloat (Float64.of_Z 100)); ("expenses", PyList [])] in
  invalid_budget (PyInt 100) = false
  /\ set_budget (PyInt 100) {| data_file := directory; data := default_data |}
     = (Raises OSError, {| data_file := directory; data := doc |}).
Proof. split; reflexivity. Qed.

Lemma float_exn (v : pyval) (e : exn) :
  Py.float v = Raises e ->
  e = TypeError \/ e = OverflowError \/ exists msg, e = ValueError msg.
Proof.
  destruct v as [| |z| |s| |]; simpl; try discriminate;
    try (intros H; inversion H; auto; fail).
  - destruct (Float64.is_finite (Float64.of_Z z)); intros H; inversion H; auto.
  - destruct (PyStr.float_of_string s); intros H; inversion H; eauto.
Qed.

Lemma float_within_range (v : pyval) :
  within_float_range v = true -> Py.float v <> Raises OverflowError.
Proof.
  destruct v as [| |z| |s| |]; simpl; try discriminate.
  - intros ->. discriminate.
  - intros _. destruct (PyStr.float_of_string s); discriminate.
Qed.

Lemma float_number_or_text (v : pyval) (e : exn) :
  number_or_text v = true -> Py.float v = Raises e -> is_ValueError e = true.
Proof.
  destruct v as [| |z| |s| |]; simpl; try discriminate.
  - intros ->. discriminate.
  - intros _. destruct (PyStr.float_of_string s); intros E; inversion E.
    reflexivity.
Qed.

(** C1 (amended).  On a ledger whose document is a [dict], and for every
    value [v] that is not an [int] beyond the range of the floats:
    when [float(v)] fails or gives a number below zero, [set_budget(v)]
    fails with [InvalidBudget] and leaves the tracker as it was.  When
    [float(v)] gives a number [f] that is not below zero, the budget in
    memory becomes [f], every other entry of the document (the expenses
    among them) stays, and the changed document is written: the outcome of
    the call is that of the write.  If the write succeeds, the call returns
    [True] and the location holds the new document; if it fails, the
    change in memory stays and the call fails, with [InvalidBudget] when
    the write raised a [ValueError] or a [TypeError] and with the exception
    of the write otherwise.  So [set_budget(v)] fails with [InvalidBudget]
    exactly when [v] is invalid in this sense or the write fails in this
    way. *)
Theorem set_budget_spec (budget : pyval) (self : tracker)
  (d : list (string * pyval)) :
  data self = PyDict d ->
  within_float_range budget = true ->
  let r := fst (set_budget budget self) in
  let self' := snd (set_budget budget self) in
  let changed f :=
    with_data (PyDict (Py.dict_set "budget" (PyFloat f) d)) self in
  (invalid_budget budget = true -> r = Raises InvalidBudget /\ self' = self)
  /\ (forall f, Py.float budget = Returns f ->
        Float64.ltb f Float64.zero = false ->
        self' = snd (_save_data (changed f))
        /\ data self' = PyDict (Py.dict_set "budget" (PyFloat f) d)
        /\ Py.getitem (data self') "budget" = Returns (PyFloat f)
        /\ (forall k, k <> "budget" ->
              Py.getitem (data self') k = Py.getitem (data self) k)
        /\ (fst (_save_data (changed f)) = Returns tt ->
            r = Returns (PyBool true)
            /\ holds (data_file self')
               = read_after (data_file self) (Holds (Json (data self'))))
        /\ (forall e, fst (_save_data (changed f)) = Raises e ->
              r = Raises (if is_ValueError e || is_TypeError e
                          then InvalidBudget else e)))
  /\ (r = Raises InvalidBudget
      <-> invalid_budget budget = true
          \/ exists f e,
               Py.float budget = Returns f
               /\ fst (_save_data (changed f)) = Raises e
               /\ (is_ValueError e || is_TypeError e) = true).
Proof.
  intros Hd Hrange r self' changed. subst r self'.
  rewrite set_budget_run, Hd.
  apply float_within_range in Hrange.
  unfold invalid_budget.
  destruct (Py.float budget) as [f|e] eqn:Hf.
  - destruct (Float64.ltb f Float64.zero) eqn:Hlt; cbn [fst snd].
    + split; [tauto|]. split; [intros f' Hf' Hlt'; congruence|].
      split; [now left | reflexivity].
    + split; [discriminate|]. split.
      * intros f' Hf' _. inversion Hf'; subst f'.
        fold (changed f). split; [reflexivity|].
        rewrite save_data_keeps_data. unfold changed, with_data.
        cbn [data Py.getitem].
        split; [reflexivity|]. split; [now rewrite dict_get_set_same|].
        split; [intros k Hk; rewrite ?Hd; cbn [Py.getitem];
                now rewrite dict_get_set_other by congruence|].
        rewrite save_data_run. cbn [fst snd data data_file].
        unfold json_dump.
        destruct (next_write (data_file self)) as [| |e rest];
          [destruct (has_long_int _)| |]; cbn [fst snd holds after_write];
          (split; [intros E; try discriminate; now split
                  |intros e0 E; inversion E; subst;
                   unfold ValueError_or_TypeError;
                   match goal with
                   | |- context [is_ValueError ?x] =>
                       now destruct (is_ValueError x || is_TypeError x)
                   end]).
      * fold (changed f).
        destruct (fst (_save_data (changed f))) as [[]|e] eqn:Hw;
          cbn [after_write]; unfold ValueError_or_TypeError.
        -- split; [discriminate|].
           intros [H|(f' & e & Hf' & H & _)]; [discriminate|].
           inversion Hf'; subst f'. rewrite Hw in H. discriminate.
        -- destruct (is_ValueError e || is_TypeError e) eqn:Hc.
           ++ split; [|reflexivity]. intros _. right. now exists f, e.
           ++ split.
              ** intros E. inversion E. subst e. discriminate.
              ** intros [H|(f' & e' & Hf' & H & Hc')]; [discriminate|].
                 inversion Hf'; subst f'. rewrite Hw in H.
                 inversion H; subst e'. congruence.
  - assert (Hc : is_ValueError e || is_TypeError e = true).
    { destruct (float_exn budget e Hf) as [->|[->|[msg ->]]];
        [reflexivity | congruence | reflexivity]. }
    rewrite Hc. cbn [fst snd].
    split; [tauto|]. split; [intros f' Hf'; discriminate|].
    split; [now left | reflexivity].
Qed.

Lemma set_budget_spec_witness :
  let fresh := {| data_file := writable Absent; data := default_data |} in
  data fresh
  = PyDict [("budget", PyFloat Float64.zero); ("expenses", PyList [])]
  /\ within_float_range (PyInt (-1)) = true
  /\ invalid_budget (PyInt (-1)) = true
  /\ fst (set_budget (PyInt (-1)) fresh) = Raises InvalidBudget
  /\ snd (set_budget (PyInt (-1)) fresh) = fresh.
Proof.
  intros fresh. split; [reflexivity|]. split; [reflexivity|].
  split; [reflexivity|].
  destruct (set_budget_spec (PyInt (-1)) fresh _ eq_refl eq_refl)
    as [Hinvalid _].
  exact (Hinvalid eq_refl).
Defined.

(* ===================================================================== *)
(** ** C2: construction *)
(* ===================================================================== *)




(** The construction itself fails on the contents on which [json.load]
    fails otherwise than with a [JSONDecodeError]: bytes that are not
    UTF-8, an integer of more digits than the interpreter converts, a text
    nested too deep.  None of these exceptions is a [JSONDecodeError] or an
    [IOError]. *)
Lemma new_on_undecodable_bytes (m : medium) :
  new {| holds := Holds NotUnicode; next_write := m |}
  = Raises UnicodeDecodeError
  /\ new {| holds := Holds DeepNesting; next_write := m |}
     = Raises RecursionError
  /\ (forall doc,
        has_long_int doc = true ->
        new {| holds := Holds (Json doc); next_write := m |}
        = Raises ExceedsLimit).
Proof.
  split; [reflexivity|]. split; [reflexivity|].
  intros doc Hlong.
  unfold new, __init__, _load_data, try_except, mbind, lift, set_data.
  cbn [data_file holds exists_ size_positive andb json_load].
  now rewrite Hlong.
Qed.

(* ===================================================================== *)
(** ** C3: failures of [add_expense] *)
(* ===================================================================== *)

(** C3, as stated, fails: the positive infinity is not a finite number,
    and [add_expense] accepts it as an amount and records the expense. *)
Lemma add_expense_accepts_infinity :
  let fresh := {| data_file := writable Absent; data := default_data |} in
  let doc :=
    PyDict [("budget", PyFloat Float64.zero);
            ("expenses",
             PyList [PyDict [("amount", PyFloat Float64.inf);
                             ("category", PyStr "Food");
                             ("date", PyStr "2024-01-15")]])] in
  is_finite_number (PyFloat Float64.inf) = false
  /\ add_expense (PyFloat Float64.inf) "Food" (Some "2024-01-15") "2024-06-01"
       fresh
     = (Returns (PyBool true),
        {| data_file := writable (Holds (Json doc)); data := doc |}).
Proof. split; reflexivity. Qed.

(** It fails as well where the write fails: the expense is in the list in
    memory when the write raises.  A write that breaks off with a
    [UnicodeEncodeError], which is a [ValueError], makes the call fail with
    [InvalidExpense] although its arguments are valid, and leaves a part of
    the text at the location. *)
Lemma add_expense_fails_after_the_change :
  let breaking :=
    {| holds := Absent;
       next_write := Breaks UnicodeEncodeError (Holds NotJson) |} in
  let doc :=
    PyDict [("budget", PyFloat Float64.zero);
            ("expenses",
             PyList [PyDict [("amount", PyFloat (Float64.of_Z 50));
                             ("category", PyStr "Food");
                             ("date", PyStr "2024-06-01")]])] in
  expense_rejected (PyInt 50) "Food" None = false
  /\ add_expense (PyInt 50) "Food" None "2024-06-01"
       {| data_file := breaking; data := default_data |}
     = (Raises InvalidExpense,
        {| data_file :=
             {| holds := Holds NotJson;
                next_write := Breaks UnicodeEncodeError (Holds NotJson) |};
           data := doc |}).
Proof. split; reflexivity. Qed.

(** What [strptime] reads is a date of the calendar. *)
Lemma strptime_real_date (s : string) (ymd : Z * Z * Z) :
  PyStr.strptime s = Some ymd -> real_date ymd = true.
Proof.
  unfold PyStr.strptime.
  destruct (list_ascii_of_string s) as [|y1 [|y2 [|y3 [|y4 [|h r]]]]];
    try discriminate.
  destruct (PyStr.is_digit y1 && PyStr.is_digit y2 && PyStr.is_digit y3
            && PyStr.is_digit y4 && Ascii.eqb h "-"); [|discriminate].
  destruct (PyStr.read_month r) as [[m r']|]; [|discriminate].
  destruct (PyStr.read_day r') as [d|]; [|discriminate].
  match goal with
  | |- (if PyStr.valid_date ?y _ _ then _ else _) = _ -> _ =>
      destruct (PyStr.valid_date y m d) eqn:Hv; [|discriminate]
  end.
  intros E. inversion E. subst ymd. exact Hv.
Qed.

Lemma days_in_month_le_31 (y m : Z) : PyStr.days_in_month y m <= 31.
Proof.
  unfold PyStr.days_in_month.
  destruct (m =? 2); [destruct (PyStr.is_leap y); lia|].
  destruct ((m =? 4) || (m =? 6) || (m =? 9) || (m =? 11)); lia.
Qed.

(** On a text of the form [YYYY-MM-DD], [strptime] reads the three fields
    when they are a date of the calendar, and fails otherwise. *)
Lemma strptime_iso_form (s : string) :
  PyStr.is_iso_form s = true ->
  PyStr.strptime s
  = if real_date (iso_fields s) then Some (iso_fields s) else None.
Proof.
  unfold PyStr.is_iso_form, PyStr.strptime, iso_fields, real_date.
  destruct (list_ascii_of_string s)
    as [|y1 [|y2 [|y3 [|y4 [|h1 [|m1 [|m2 [|h2 [|d1 [|d2 [|x l]]]]]]]]]]];
    try discriminate.
  intros H.
  repeat match type of H with
         | (_ && _ = true) => apply andb_prop in H; destruct H as [H ?]
         end.
  cbn [map]. unfold PyStr.read_month, PyStr.read_day.
  set (y := 1000 * PyStr.digit_val y1 + 100 * PyStr.digit_val y2
            + 10 * PyStr.digit_val y3 + PyStr.digit_val y4).
  set (m := 10 * PyStr.digit_val m1 + PyStr.digit_val m2).
  repeat (match goal with E : _ = true |- _ => rewrite E end; cbn [andb]).
  unfold PyStr.valid_date.
  pose proof (days_in_month_le_31 y m) as Hdim.
  destruct (1 <=? m) eqn:Hm1; destruct (m <=? 12) eqn:Hm2;
    cbn [andb]; rewrite ?andb_false_r; cbn [andb]; try reflexivity.
  repeat (match goal with E : _ = true |- _ => rewrite E end; cbn [andb]).
  set (d := 10 * PyStr.digit_val d1 + PyStr.digit_val d2).
  destruct (1 <=? d) eqn:Hd1; destruct (d <=? 31) eqn:Hd2;
    cbn [andb]; rewrite ?Hd1, ?andb_false_r, ?andb_true_r; cbn [andb];
    try reflexivity.
  assert (Hd3 : (d <=? PyStr.days_in_month y m) = false)
    by (apply Z.leb_gt; apply Z.leb_gt in Hd2; lia).
  rewrite Hd3, ?andb_false_r. reflexivity.
Qed.

(** C3 (amended).  [add_expense] checks its arguments before it changes
    anything.  When the check fails (the amount does not read as a number,
    or is zero or below, or the category is blank once trimmed, or
    [strptime] does not read the date), the call fails with
    [InvalidExpense] and leaves the tracker as it was; for an amount that
    is a number or a text and a date that is omitted or of the form
    YYYY-MM-DD, the check fails exactly when the amount does not read as a
    number, or is zero or below, or the category is blank, or the date
    names no date of the calendar, and what [strptime] reads is a date of
    the calendar.  When the check passes on a ledger that holds a list of
    expenses, the entry is appended in memory and the changed document is
    written: the outcome of the call is that of the write, a [ValueError]
    of the write leaving as [InvalidExpense].  So the call fails with
    [InvalidExpense] exactly when the check fails or the write raises a
    [ValueError], and every failure that is not a failure of the write
    leaves the tracker as it was. *)
Theorem add_expense_failure_spec (amount : pyval) (category : string)
  (date : option string) (today : string) (self : tracker) :
  let r := fst (add_expense amount category date today self) in
  let self' := snd (add_expense amount category date today self) in
  let changed f d l :=
    with_data
      (PyDict (Py.dict_set "expenses"
                 (PyList (l ++ [new_entry f category date today])) d))
      self in
  let appended f d l :=
    Py.float amount = Returns f
    /\ expense_rejected amount category date = false
    /\ data self = PyDict d
    /\ Py.dict_get "expenses" d = Some (PyList l) in
  (expense_rejected amount category date = true ->
   r = Raises InvalidExpense /\ self' = self)
  /\ (number_or_text amount = true -> iso_or_omitted date = true ->
      (expense_rejected amount category date = true
       <-> invalid_expense amount category date = true))
  /\ (number_or_text amount = true -> date_rejected date = true ->
      expense_rejected amount category date = true)
  /\ (forall d ymd, PyStr.strptime d = Some ymd -> real_date ymd = true)
  /\ (forall f d l, appended f d l ->
        self' = snd (_save_data (changed f d l))
        /\ r = after_write is_ValueError InvalidExpense
                 (fst (_save_data (changed f d l))))
  /\ (r = Raises InvalidExpense
      <-> expense_rejected amount category date = true
          \/ exists f d l e,
               appended f d l
               /\ fst (_save_data (changed f d l)) = Raises e
               /\ is_ValueError e = true)
  /\ (forall e, r = Raises e ->
        self' = self
        \/ exists f d l e',
             appended f d l
             /\ fst (_save_data (changed f d l)) = Raises e'
             /\ self' = snd (_save_data (changed f d l))).
Proof.
  intros r self' changed appended. subst r self' appended.
  rewrite add_expense_run. unfold expense_rejected.
  split; [|split; [|split; [|split; [|split; [|split]]]]].
  - destruct (Py.float amount) as [f|e].
    + intros ->. now split.
    + intros ->. now split.
  - intros Hnum Hiso. unfold invalid_expense.
    assert (Hdate : date_rejected date = names_no_date date).
    { destruct date as [d|]; [|reflexivity]. simpl in Hiso.
      unfold date_rejected, names_no_date.
      rewrite (strptime_iso_form d Hiso).
      now destruct (real_date (iso_fields d)). }
    rewrite Hdate.
    destruct (Py.float amount) as [f|e] eqn:Hf; [tauto|].
    rewrite (float_number_or_text amount e Hnum Hf). tauto.
  - intros Hnum Hrej.
    destruct (Py.float amount) as [f|e] eqn:Hf.
    + now rewrite Hrej, !orb_true_r.
    + exact (float_number_or_text amount e Hnum Hf).
  - intros d ymd H. exact (strptime_real_date d ymd H).
  - intros f d l (Hf & Hrej & Hd & Hl). rewrite Hf in *. rewrite Hrej, Hd.
    cbn [Py.getitem]. rewrite Hl. cbn [rbind Py.append].
    fold (changed f d l). now split.
  - destruct (Py.float amount) as [f|e] eqn:Hf.
    + destruct (Float64.leb f Float64.zero || blank category
                || date_rejected date) eqn:Hrej; cbn [fst].
      { split; [now left | reflexivity]. }
      destruct (data self) as [| | | | | |d] eqn:Hd;
        try (cbn [Py.getitem rbind fst]; split;
             [discriminate
             |intros [H|(f' & d' & l' & e' & (_ & _ & H & _) & _)];
              discriminate]).
      cbn [Py.getitem].
      destruct (Py.dict_get "expenses" d) as [v|] eqn:Hl;
        [|cbn [rbind fst]; split;
          [discriminate
          |intros [H|(f' & d' & l' & e' & (_ & _ & H & H') & _)];
           [discriminate|]; inversion H; subst d'; congruence]].
      destruct v as [| | | | |l|];
        try (cbn [rbind Py.append fst]; split;
             [discriminate
             |intros [H|(f' & d' & l' & e' & (_ & _ & H & H') & _)];
              [discriminate|]; inversion H; subst d'; congruence]).
      cbn [rbind Py.append fst]. fold (changed f d l).
      destruct (fst (_save_data (changed f d l))) as [[]|e] eqn:Hw;
        cbn [after_write].
      * split; [discriminate|].
        intros [H|(f' & d' & l' & e' & (Hf' & _ & Hd' & Hl') & Hw' & _)];
          [discriminate|].
        inversion Hf'; inversion Hd'; subst f' d'. rewrite Hl in Hl'.
        inversion Hl'; subst l'. rewrite Hw in Hw'. discriminate.
      * destruct (is_ValueError e) eqn:Hc.
        -- split; [|reflexivity]. intros _. right. exists f, d, l, e.
           now repeat split.
        -- split.
           ++ intros E. inversion E. subst e. discriminate.
           ++ intros
                [H|(f' & d' & l' & e' & (Hf' & _ & Hd' & Hl') & Hw' & Hc')];
                [discriminate|].
              inversion Hf'; inversion Hd'; subst f' d'. rewrite Hl in Hl'.
              inversion Hl'; subst l'. rewrite Hw in Hw'.
              inversion Hw'; subst e'. congruence.
    + destruct (is_ValueError e) eqn:Hc; cbn [fst].
      * split; [now left | reflexivity].
      * split.
        -- intros E. inversion E. subst e. discriminate.
        -- intros [H|(f' & d' & l' & e' & (H & _) & _)]; discriminate.
  - intros e0.
    destruct (Py.float amount) as [f|e] eqn:Hf.
    + destruct (Float64.leb f Float64.zero || blank category
                || date_rejected date) eqn:Hrej; cbn [fst snd];
        [now left|].
      destruct (data self) as [| | | | | |d] eqn:Hd;
        try (cbn [Py.getitem rbind fst snd]; now left).
      cbn [Py.getitem].
      destruct (Py.dict_get "expenses" d) as [v|] eqn:Hl;
        [|cbn [rbind fst snd]; now left].
      destruct v as [| | | | |l|];
        try (cbn [rbind Py.append fst snd]; now left).
      cbn [rbind Py.append fst snd]. fold (changed f d l).
      destruct (fst (_save_data (changed f d l))) as [[]|e] eqn:Hw;
        cbn [after_write]; [discriminate|].
      intros _. right. exists f, d, l, e. now repeat split.
    + destruct (is_ValueError e); now left.
Qed.

Lemma add_expense_failure_spec_witness :
  let fresh := {| data_file := writable Absent; data := default_data |} in
  number_or_text (PyInt 50) = true
  /\ iso_or_omitted (Some "2024-02-30") = true
  /\ invalid_expense (PyInt 50) "Food" (Some "2024-02-30") = true
  /\ add_expense (PyInt 50) "Food" (Some "2024-02-30") "2024-06-01" fresh
     = (Raises InvalidExpense, fresh)
  /\ date_rejected (Some "invalid-date") = true
  /\ add_expense (PyInt 50) "Food" (Some "invalid-date") "2024-06-01" fresh
     = (Raises InvalidExpense, fresh).
Proof.
  intros fresh.
  destruct (add_expense_failure_spec (PyInt 50) "Food" (Some "2024-02-30")
              "2024-06-01" fresh) as (Hrej & Hiff & _).
  destruct (add_expense_failure_spec (PyInt 50) "Food" (Some "invalid-date")
              "2024-06-01" fresh) as (Hrej' & _ & Hdate & _).
  split; [reflexivity|]. split; [reflexivity|]. split; [reflexivity|].
  split.
  - destruct (Hrej (proj2 (Hiff eq_refl eq_refl) eq_refl)) as [Hr Hs].
    apply injective_projections; assumption.
  - split; [reflexivity|].
    destruct (Hrej' (Hdate eq_refl eq_refl)) as [Hr Hs].
    apply injective_projections; assumption.
Defined.

(* ===================================================================== *)
(** ** C4: the budget is never negative *)
(* ===================================================================== *)

(** C4, as stated, fails: a persisted document with the budget -5.0 is
    loaded as it is, and the budget of the constructed ledger is below
    zero. *)
Lemma new_loads_negative_budget :
  let minus_five := Float64.of_Z (-5) in
  let doc :=
    PyDict [("budget", PyFloat minus_five); ("expenses", PyList [])] in
  new (writable (Holds (Json doc)))
  = Returns {| data_file := writable (Holds (Json doc)); data := doc |}
  /\ Py.getitem doc "budget" = Returns (PyFloat minus_five)
  /\ Float64.leb Float64.zero minus_five = false
  /\ Float64.ltb minus_five Float64.zero = true.
Proof. repeat split. Qed.

Lemma new_default (location : location) (self : tracker) :
  (forall doc, holds location <> Holds (Json doc)) ->
  new location = Returns self ->
  self = {| data_file := location; data := default_data |}.
Proof.
  intros Hno Hnew. destruct location as [f m]. cbn [holds] in Hno.
  destruct f as [| | |[| | |doc]]; inversion Hnew; try reflexivity.
  now destruct (Hno doc).
Qed.

Lemma new_loaded (doc : pyval) (location : location) (self : tracker) :
  holds location = Holds (Json doc) ->
  new location = Returns self ->
  self = {| data_file := location; data := doc |}.
Proof.
  intros Hdoc Hnew. destruct location as [f m]. cbn [holds] in Hdoc.
  subst f. unfold new, __init__, _load_data, try_except, mbind, lift,
    set_data in Hnew.
  cbn [data_file holds exists_ size_positive andb json_load] in Hnew.
  destruct (has_long_int doc); inversion Hnew. reflexivity.
Qed.

Lemma set_budget_keeps_invariant (budget : pyval) (self : tracker) :
  budget_not_negative (data self) ->
  budget_not_negative (data (snd (set_budget budget self))).
Proof.
  intros Hinv. rewrite set_budget_run.
  destruct (Py.float budget) as [f|e].
  - destruct (Float64.ltb f Float64.zero) eqn:Hlt; [exact Hinv|].
    destruct Hinv as (d & f0 & Hd & _ & _). rewrite Hd. cbn [snd].
    rewrite save_data_keeps_data. cbn [with_data data].
    exists (Py.dict_set "budget" (PyFloat f) d), f.
    split; [reflexivity|]. split; [apply dict_get_set_same | exact Hlt].
  - destruct (is_ValueError e || is_TypeError e); exact Hinv.
Qed.

Lemma add_expense_keeps_invariant (amount : pyval) (category : string)
  (date : option string) (today : string) (self : tracker) :
  budget_not_negative (data self) ->
  budget_not_negative
    (data (snd (add_expense amount category date today self))).
Proof.
  intros Hinv. rewrite add_expense_run.
  destruct (Py.float amount) as [f|e].
  - destruct (Float64.leb f Float64.zero || blank category
              || date_rejected date); [exact Hinv|].
    destruct (rbind _ _) as [l'|e]; [|exact Hinv].
    destruct Hinv as (d & f0 & Hd & Hb & Hlt). rewrite Hd. cbn [snd].
    rewrite save_data_keeps_data. cbn [with_data data].
    exists (Py.dict_set "expenses" l' d), f0.
    split; [reflexivity|]. split; [|exact Hlt].
    rewrite dict_get_set_other by discriminate. exact Hb.
  - destruct (is_ValueError e); exact Hinv.
Qed.

(** C4 (amended).  In every state of the ledger reached by calls of
    [set_budget] and [add_expense], whatever their arguments and outcomes,
    from a ledger constructed on a location without a document, or with a
    document whose budget is a [float] not below zero, the budget is a
    [float] that is not below zero: it is zero or more, or a NaN. *)
Theorem budget_never_negative (self : tracker) :
  reachable self -> budget_not_negative (data self).
Proof.
  induction 1 as [location self Hno Hnew | doc location self Hdoc Hl Hnew
                 | m self _ IH
                 | budget self _ IH | amount category date today self _ IH].
  - rewrite (new_default location self Hno Hnew).
    exists [("budget", PyFloat Float64.zero); ("expenses", PyList [])],
      Float64.zero.
    repeat split.
  - now rewrite (new_loaded doc location self Hl Hnew).
  - exact IH.
  - now apply set_budget_keeps_invariant.
  - now apply add_expense_keeps_invariant.
Qed.

Lemma budget_never_negative_witness :
  let fresh := {| data_file := writable Absent; data := default_data |} in
  let self :=
    snd (add_expense (PyInt 50) "Food" None "2024-06-01"
           (snd (set_budget (PyStr "nan") fresh))) in
  reachable self /\ budget_not_negative (data self).
Proof.
  intros fresh self.
  assert (Hreach : reachable self).
  { apply reach_add_expense, reach_set_budget.
    apply (reach_default (writable Absent)); [discriminate | reflexivity]. }
  split; [exact Hreach | exact (budget_never_negative self Hreach)].
Defined.

(* ===================================================================== *)
(** ** [get_total_spent] on a typed ledger *)
(* ===================================================================== *)

Lemma save_data_typed (location : location) (budget : Float64.float)
  (es : list Ledger.expense) :
  _save_data (Ledger.tracker_of location budget es)
  = (fst (json_dump (Ledger.doc budget es) location),
     Ledger.tracker_of (snd (json_dump (Ledger.doc budget es) location))
       budget es).
Proof. now rewrite save_data_run. Qed.

(** The two mutating calls on a typed ledger: the ledger afterwards is
    typed, with the location as the write left it. *)
Lemma set_budget_typed_run (v : pyval) (location : location)
  (budget : Float64.float) (es : list Ledger.expense) :
  set_budget v (Ledger.tracker_of location budget es)
  = match Py.float v with
    | Raises e =>
        (Raises (if is_ValueError e || is_TypeError e
                 then InvalidBudget else e),
         Ledger.tracker_of location budget es)
    | Returns f =>
        if Float64.ltb f Float64.zero
        then (Raises InvalidBudget, Ledger.tracker_of location budget es)
        else
          let written := json_dump (Ledger.doc f es) location in
          (after_write ValueError_or_TypeError InvalidBudget (fst written),
           Ledger.tracker_of (snd written) f es)
    end.
Proof.
  rewrite set_budget_run.
  destruct (Py.float v) as [f|e];
    [|now destruct (is_ValueError e || is_TypeError e)].
  destruct (Float64.ltb f Float64.zero); [reflexivity|].
  cbn [Ledger.tracker_of data Ledger.doc Py.dict_set String.eqb Ascii.eqb
       Bool.eqb].
  change (with_data _ _) with (Ledger.tracker_of location f es).
  now rewrite save_data_typed.
Qed.

Lemma add_expense_typed_run (v : pyval) (category : string)
  (date : option string) (today : string) (location : location)
  (budget : Float64.float) (es : list Ledger.expense) :
  add_expense v category date today (Ledger.tracker_of location budget es)
  = match Py.float v with
    | Raises e =>
        (Raises (if is_ValueError e then InvalidExpense else e),
         Ledger.tracker_of location budget es)
    | Returns f =>
        if Float64.leb f Float64.zero || blank category || date_rejected date
        then (Raises InvalidExpense, Ledger.tracker_of location budget es)
        else
          let e := {| Ledger.amount := f;
                      Ledger.category := PyStr.strip category;
                      Ledger.date := match date with
                                     | Some d => d
                                     | None => today
                                     end |} in
          let written :=
            json_dump (Ledger.doc budget (es ++ [e])) location in
          (after_write is_ValueError InvalidExpense (fst written),
           Ledger.tracker_of (snd written) budget (es ++ [e]))
    end.
Proof.
  rewrite add_expense_run.
  destruct (Py.float v) as [f|e]; [|now destruct (is_ValueError e)].
  destruct (Float64.leb f Float64.zero || blank category
            || date_rejected date); [reflexivity|].
  cbn [Ledger.tracker_of data Ledger.doc Py.getitem Py.dict_get String.eqb
       Ascii.eqb Bool.eqb rbind Py.append Py.dict_set].
  cbv zeta.
  set (e := {| Ledger.amount := f;
               Ledger.category := PyStr.strip category;
               Ledger.date := match date with
                              | Some d => d
                              | None => today
                              end |}).
  replace (with_data _ _)
    with (Ledger.tracker_of location budget (es ++ [e])).
  - now rewrite save_data_typed.
  - unfold with_data, Ledger.tracker_of, Ledger.doc. cbn [data_file].
    now rewrite map_app.
Qed.

(** Every ledger that the program builds is a typed ledger. *)
Lemma built_typed (self : tracker) :
  built self ->
  exists location budget es, self = Ledger.tracker_of location budget es.
Proof.
  induction 1 as [location self Hno Hnew
                 | m self _ IH
                 | budget self _ IH | amount category date today self _ IH].
  - exists location, Float64.zero, [].
    exact (new_default location self Hno Hnew).
  - destruct IH as (location & b & es & ->).
    now exists {| holds := holds location; next_write := m |}, b, es.
  - destruct IH as (location & b & es & ->). rewrite set_budget_typed_run.
    destruct (Py.float budget) as [f|e]; [|now exists location, b, es].
    destruct (Float64.ltb f Float64.zero); [now exists location, b, es|].
    cbn [snd]. now eexists _, f, es.
  - destruct IH as (location & b & es & ->).
    rewrite add_expense_typed_run.
    destruct (Py.float amount) as [f|e]; [|now exists location, b, es].
    destruct (Float64.leb f Float64.zero || blank category
              || date_rejected date); [now exists location, b, es|].
    cbn [snd]. now eexists _, b, _.
Qed.

Lemma get_total_spent_run (self : tracker) :
  get_total_spent self
  = (rbind (Py.getitem (data self) "expenses") (fun expenses =>
     rbind (Py.iter expenses) (fun items => sum_amounts (PyInt 0) items)),
     self).
Proof.
  unfold get_total_spent, mbind, data_getitem, lift.
  destruct (Py.getitem (data self) "expenses") as [l|]; simpl; [|reflexivity].
  destruct (Py.iter l); reflexivity.
Qed.

Lemma sum_amounts_typed_from (es : list Ledger.expense) (v : Float64.float) :
  sum_amounts (PyFloat v) (map Ledger.expense_doc es)
  = Returns (PyFloat (fold_left Float64.add (map Ledger.amount es) v)).
Proof.
  revert v. induction es as [|e es IH]; intros v; [reflexivity|].
  cbn [map sum_amounts fold_left].
  change (Py.getitem (Ledger.expense_doc e) "amount")
    with (Returns (A:=pyval) (PyFloat (Ledger.amount e))).
  cbn [rbind Py.add]. apply IH.
Qed.

Lemma sum_amounts_typed (es : list Ledger.expense) :
  sum_amounts (PyInt 0) (map Ledger.expense_doc es)
  = Returns (Ledger.sum_value (map Ledger.amount es)).
Proof.
  destruct es as [|e es]; [reflexivity|].
  cbn [map sum_amounts].
  change (Py.getitem (Ledger.expense_doc e) "amount")
    with (Returns (A:=pyval) (PyFloat (Ledger.amount e))).
  cbn [rbind Py.add].
  change (Py.float (PyInt 0)) with (Returns Float64.zero).
  cbn [rbind]. apply sum_amounts_typed_from.
Qed.

Lemma get_total_spent_typed (location : location) (budget : Float64.float)
  (es : list Ledger.expense) :
  get_total_spent (Ledger.tracker_of location budget es)
  = (Returns (Ledger.sum_value (map Ledger.amount es)),
     Ledger.tracker_of location budget es).
Proof.
  rewrite get_total_spent_run.
  change (Py.getitem (data (Ledger.tracker_of location budget es)) "expenses")
    with (Returns (A:=pyval) (PyList (map Ledger.expense_doc es))).
  cbn [rbind Py.iter]. now rewrite sum_amounts_typed.
Qed.

(* ===================================================================== *)
(** ** C5: [get_period_stats] *)
(* ===================================================================== *)

(** No [ValueError] comes out of the additions, the look-ups and the
    comparisons of the queries. *)
Lemma add_not_ValueError (x y : pyval) (e : exn) :
  Py.add x y = Raises e -> is_ValueError e = false.
Proof.
  destruct x as [| | z | | | |], y as [| | z' | | | |]; simpl;
    try (intros E; inversion E; reflexivity);
    try (destruct (Float64.is_finite (Float64.of_Z z)); simpl;
         intros E; inversion E; reflexivity);
    try (destruct (Float64.is_finite (Float64.of_Z z')); simpl;
         intros E; inversion E; reflexivity).
Qed.

Lemma getitem_not_ValueError (x : pyval) (k : string) (e : exn) :
  Py.getitem x k = Raises e -> is_ValueError e = false.
Proof.
  destruct x as [| | | | | |d]; simpl;
    try (intros E; inversion E; reflexivity).
  destruct (Py.dict_get k d); intros E; inversion E; reflexivity.
Qed.

Lemma sum_amounts_not_ValueError (items : list pyval) (acc : pyval)
  (e : exn) :
  sum_amounts acc items = Raises e -> is_ValueError e = false.
Proof.
  revert acc. induction items as [|x items IH]; intros acc; simpl.
  - discriminate.
  - destruct (Py.getitem x "amount") as [a|e0] eqn:Ha; simpl.
    + destruct (Py.add acc a) as [acc'|e1] eqn:Hadd; simpl.
      * apply IH.
      * intros E. inversion E. subst. exact (add_not_ValueError _ _ _ Hadd).
    + intros E. inversion E. subst. exact (getitem_not_ValueError _ _ _ Ha).
Qed.

Lemma period_filter_not_ValueError (a b : string) (items : list pyval)
  (e : exn) :
  period_filter a b items = Raises e -> is_ValueError e = false.
Proof.
  induction items as [|x items IH]; simpl.
  - discriminate.
  - destruct (Py.getitem x "date") as [d|e0] eqn:Hd; simpl.
    + destruct d; simpl; try (intros E; inversion E; reflexivity).
      destruct (period_filter a b items); simpl; [discriminate|].
      intros E. inversion E. subst. now apply IH.
    + intros E. inversion E. subst. exact (getitem_not_ValueError _ _ _ Hd).
Qed.

Lemma iter_not_ValueError (x : pyval) (e : exn) :
  Py.iter x = Raises e -> is_ValueError e = false.
Proof. destruct x; simpl; intros E; inversion E; reflexivity. Qed.

(** [get_period_stats], step by step. *)
Lemma get_period_stats_run (start_date end_date : string) (self : tracker) :
  get_period_stats start_date end_date self =
  (if date_rejected (Some start_date) || date_rejected (Some end_date)
      || PyStr.gt start_date end_date
   then Raises InvalidDateRange
   else
     rbind (Py.getitem (data self) "expenses") (fun expenses =>
     rbind (Py.iter expenses) (fun items =>
     rbind (period_filter start_date end_date items) (fun period_expenses =>
     rbind (sum_amounts (PyInt 0) period_expenses) (fun total_period =>
     Returns (PyDict [("total_spent", total_period);
                      ("expense_count",
                       PyInt (Z.of_nat (List.length period_expenses)))]))))),
   self).
Proof.
  unfold get_period_stats, try_except, mbind, lift, strptime, date_rejected.
  destruct (PyStr.strptime start_date); simpl; [|reflexivity].
  destruct (PyStr.strptime end_date); simpl; [|reflexivity].
  destruct (PyStr.gt start_date end_date); simpl; [reflexivity|].
  unfold data_getitem.
  destruct (Py.getitem (data self) "expenses") as [l|e] eqn:Hl; simpl.
  - destruct (Py.iter l) as [items|e] eqn:Hi; simpl.
    + destruct (period_filter start_date end_date items) as [kept|e] eqn:Hp;
        simpl.
      * destruct (sum_amounts (PyInt 0) kept) as [t|e] eqn:Hs; simpl.
        -- reflexivity.
        -- now rewrite (sum_amounts_not_ValueError _ _ _ Hs).
      * now rewrite (period_filter_not_ValueError _ _ _ _ Hp).
    + now rewrite (iter_not_ValueError _ _ Hi).
  - now rewrite (getitem_not_ValueError _ _ _ Hl).
Qed.

(** C5, at the failing input.  Both "2024-10-01" and "2024-9-01" pass the
    validation of dates, the first is a later day than the second, and
    [get_period_stats] does not fail with [InvalidDateRange], on any
    ledger: the texts compare the other way.  On a new ledger it returns
    the totals of an empty period. *)
Lemma get_period_stats_start_after_end :
  let fresh := {| data_file := writable Absent; data := default_data |} in
  validate_date "2024-10-01" = Returns true
  /\ validate_date "2024-9-01" = Returns true
  /\ strptime "2024-10-01" = Returns (2024, 10, 1)
  /\ strptime "2024-9-01" = Returns (2024, 9, 1)
  /\ PyStr.gt "2024-10-01" "2024-9-01" = false
  /\ get_period_stats "2024-10-01" "2024-9-01" fresh
     = (Returns (PyDict [("total_spent", PyInt 0);
                         ("expense_count", PyInt 0)]), fresh)
  /\ (forall self,
        fst (get_period_stats "2024-10-01" "2024-9-01" self)
        <> Raises InvalidDateRange).
Proof.
  cbv zeta. repeat split; try reflexivity.
  intros self. rewrite get_period_stats_run.
  change (date_rejected (Some "2024-10-01") || date_rejected (Some "2024-9-01")
          || PyStr.gt "2024-10-01" "2024-9-01") with false.
  cbn [fst]. intros E.
  destruct (Py.getitem (data self) "expenses") as [l|e] eqn:Hl; simpl in E.
  - destruct (Py.iter l) as [items|e] eqn:Hi; simpl in E.
    + destruct (period_filter _ _ items) as [kept|e] eqn:Hp; simpl in E.
      * destruct (sum_amounts (PyInt 0) kept) as [t|e] eqn:Hs; simpl in E.
        -- discriminate.
        -- inversion E. subst e.
           now pose proof (sum_amounts_not_ValueError _ _ _ Hs).
      * inversion E. subst e.
        now pose proof (period_filter_not_ValueError _ _ _ _ Hp).
    + inversion E. subst e. now pose proof (iter_not_ValueError _ _ Hi).
  - inversion E. subst e. now pose proof (getitem_not_ValueError _ _ _ Hl).
Qed.

(** The same defect in the filter: an expense recorded with the accepted
    date "2024-1-5" is left out of the period of January 2024. *)
Lemma get_period_stats_misses_expense :
  let fresh := {| data_file := writable Absent; data := default_data |} in
  let self := snd (add_expense (PyInt 50) "Food" (Some "2024-1-5")
                     "2024-06-01" fresh) in
  fst (add_expense (PyInt 50) "Food" (Some "2024-1-5") "2024-06-01" fresh)
  = Returns (PyBool true)
  /\ strptime "2024-1-5" = Returns (2024, 1, 5)
  /\ fst (get_period_stats "2024-01-01" "2024-01-31" self)
     = Returns (PyDict [("total_spent", PyInt 0);
                        ("expense_count", PyInt 0)]).
Proof. cbv zeta. repeat split; reflexivity. Qed.

(* ===================================================================== *)
(** ** Dates of the form YYYY-MM-DD: the order of the texts is the order
       of the calendar *)
(* ===================================================================== *)

Lemma lex_step (x x' r r' B : Z) :
  0 <= r < B -> 0 <= r' < B ->
  match x ?= x' with Eq => r ?= r' | Lt => Lt | Gt => Gt end
  = (x * B + r ?= x' * B + r').
Proof.
  intros Hr Hr'. destruct (Z.compare_spec x x') as [->|Hlt|Hgt].
  - now rewrite Z.add_compare_mono_l.
  - symmetry. apply Z.compare_lt_iff. nia.
  - symmetry. apply Z.compare_gt_iff. nia.
Qed.

Lemma digit_val_range (c : ascii) :
  PyStr.is_digit c = true -> 0 <= PyStr.digit_val c <= 9.
Proof.
  unfold PyStr.is_digit, PyStr.digit_val. intros H.
  apply andb_prop in H. destruct H as [H1 H2].
  apply N.leb_le in H1, H2. lia.
Qed.

Lemma ascii_compare_digit_val (c c' : ascii) :
  Ascii.compare c c' = (PyStr.digit_val c ?= PyStr.digit_val c').
Proof.
  unfold Ascii.compare, PyStr.digit_val, PyStr.code.
  rewrite <- N2Z.inj_compare.
  destruct (Z.compare_spec (Z.of_N (N_of_ascii c)) (Z.of_N (N_of_ascii c')))
    as [E|E|E]; symmetry.
  - apply Z.compare_eq_iff. lia.
  - apply Z.compare_lt_iff. lia.
  - apply Z.compare_gt_iff. lia.
Qed.

(** The eight digits of a date of the form YYYY-MM-DD, as one number. *)
Lemma iso_compare (a b : string) :
  PyStr.is_iso_form a = true -> PyStr.is_iso_form b = true ->
  String.compare a b = (date_key (iso_fields a) ?= date_key (iso_fields b)).
Proof.
  pose proof (string_of_list_ascii_of_string a) as Ea.
  pose proof (string_of_list_ascii_of_string b) as Eb.
  unfold PyStr.is_iso_form, iso_fields, date_key.
  destruct (list_ascii_of_string a)
    as [|a1 [|a2 [|a3 [|a4 [|a5 [|a6 [|a7 [|a8 [|a9 [|a10 [|? ?]]]]]]]]]]];
    try discriminate.
  destruct (list_ascii_of_string b)
    as [|b1 [|b2 [|b3 [|b4 [|b5 [|b6 [|b7 [|b8 [|b9 [|b10 [|? ?]]]]]]]]]]];
    try discriminate.
  intros Ha Hb.
  repeat match goal with
         | H : (_ && _ = true) |- _ => apply andb_prop in H; destruct H
         end.
  repeat match goal with
         | H : Ascii.eqb _ _ = true |- _ => apply Ascii.eqb_eq in H; subst
         end.
  repeat match goal with
         | H : PyStr.is_digit _ = true |- _ => apply digit_val_range in H
         end.
  cbn [string_of_list_ascii String.compare map].
  rewrite !ascii_compare_digit_val.
  change (PyStr.digit_val "-" ?= PyStr.digit_val "-") with Eq. cbv iota.
  set (A1 := PyStr.digit_val a1) in *. set (A2 := PyStr.digit_val a2) in *.
  set (A3 := PyStr.digit_val a3) in *. set (A4 := PyStr.digit_val a4) in *.
  set (A6 := PyStr.digit_val a6) in *. set (A7 := PyStr.digit_val a7) in *.
  set (A9 := PyStr.digit_val a9) in *. set (A10 := PyStr.digit_val a10) in *.
  set (B1 := PyStr.digit_val b1) in *. set (B2 := PyStr.digit_val b2) in *.
  set (B3 := PyStr.digit_val b3) in *. set (B4 := PyStr.digit_val b4) in *.
  set (B6 := PyStr.digit_val b6) in *. set (B7 := PyStr.digit_val b7) in *.
  set (B9 := PyStr.digit_val b9) in *. set (B10 := PyStr.digit_val b10) in *.
  rewrite <- (Z.add_0_r A10), <- (Z.add_0_r B10) at 1.
  replace (match A10 + 0 ?= B10 + 0 with Eq => Eq | Lt => Lt | Gt => Gt end)
    with (A10 ?= B10)
    by (rewrite !Z.add_0_r; now destruct (A10 ?= B10)).
  rewrite (lex_step A9 B9 A10 B10 10) by lia.
  rewrite (lex_step A7 B7 _ _ 100) by lia.
  rewrite (lex_step A6 B6 _ _ 1000) by lia.
  rewrite (lex_step A4 B4 _ _ 10000) by lia.
  rewrite (lex_step A3 B3 _ _ 100000) by lia.
  rewrite (lex_step A2 B2 _ _ 1000000) by lia.
  rewrite (lex_step A1 B1 _ _ 10000000) by lia.
  f_equal; lia.
Qed.

Lemma iso_fields_range (s : string) :
  PyStr.is_iso_form s = true ->
  exists y m d, iso_fields s = (y, m, d)
                /\ 0 <= y <= 9999 /\ 0 <= m <= 99 /\ 0 <= d <= 99.
Proof.
  unfold PyStr.is_iso_form, iso_fields.
  destruct (list_ascii_of_string s)
    as [|a1 [|a2 [|a3 [|a4 [|a5 [|a6 [|a7 [|a8 [|a9 [|a10 [|? ?]]]]]]]]]]];
    try discriminate.
  intros H.
  repeat match goal with
         | H : (_ && _ = true) |- _ => apply andb_prop in H; destruct H
         end.
  repeat match goal with
         | H : PyStr.is_digit _ = true |- _ => apply digit_val_range in H
         end.
  cbn [map]. eexists _, _, _. split; [reflexivity|]. lia.
Qed.

(** On dates of the form YYYY-MM-DD, the order of the texts is the order
    of the calendar. *)
Lemma iso_le (a b : string) :
  PyStr.is_iso_form a = true -> PyStr.is_iso_form b = true ->
  PyStr.le a b = date_le (iso_fields a) (iso_fields b).
Proof.
  intros Ha Hb. unfold PyStr.le. rewrite (iso_compare a b Ha Hb).
  destruct (iso_fields_range a Ha) as (y & m & d & -> & Hy & Hm & Hd).
  destruct (iso_fields_range b Hb) as (y' & m' & d' & -> & Hy' & Hm' & Hd').
  unfold date_key, date_le.
  change (match ?x ?= ?z with Gt => false | _ => true end) with (x <=? z).
  destruct (Z.leb_spec (10000 * y + 100 * m + d) (10000 * y' + 100 * m' + d'));
    destruct (Z.ltb_spec y y'); destruct (Z.eqb_spec y y');
    destruct (Z.ltb_spec m m'); destruct (Z.eqb_spec m m');
    destruct (Z.leb_spec d d'); cbn [orb andb]; try reflexivity; lia.
Qed.

Lemma gt_not_le (a b : string) : PyStr.gt a b = negb (PyStr.le a b).
Proof.
  unfold PyStr.gt, PyStr.lt, PyStr.le. rewrite (String.compare_antisym a b).
  destruct (String.compare b a); reflexivity.
Qed.

Lemma period_filter_typed (start_date end_date : string)
  (es : list Ledger.expense) :
  period_filter start_date end_date (map Ledger.expense_doc es)
  = Returns
      (map Ledger.expense_doc
         (filter (fun e => PyStr.le start_date (Ledger.date e)
                           && PyStr.le (Ledger.date e) end_date) es)).
Proof.
  induction es as [|e es IH]; [reflexivity|].
  cbn [map period_filter filter].
  change (Py.getitem (Ledger.expense_doc e) "date")
    with (Returns (A:=pyval) (PyStr (Ledger.date e))).
  cbn [rbind Py.str_between]. rewrite IH. cbn [rbind].
  destruct (PyStr.le start_date (Ledger.date e)
            && PyStr.le (Ledger.date e) end_date); reflexivity.
Qed.

(** On dates of the form YYYY-MM-DD, [get_period_stats] does what the
    specification says: it fails with [InvalidDateRange] when a bound is
    not a date of the calendar or the start is a later day than the end,
    and otherwise returns the sum and the number of the expenses whose day
    lies between the two, inclusive; the ledger is unchanged. *)
Lemma get_period_stats_iso_form (location : location) (budget : Float64.float)
  (es : list Ledger.expense) (start_date end_date : string) :
  PyStr.is_iso_form start_date = true ->
  PyStr.is_iso_form end_date = true ->
  (forall e, In e es -> PyStr.is_iso_form (Ledger.date e) = true) ->
  let self := Ledger.tracker_of location budget es in
  let chosen := Ledger.in_period start_date end_date es in
  get_period_stats start_date end_date self
  = (if real_date (iso_fields start_date) && real_date (iso_fields end_date)
        && date_le (iso_fields start_date) (iso_fields end_date)
     then Returns
            (PyDict [("total_spent",
                      Ledger.sum_value (map Ledger.amount chosen));
                     ("expense_count",
                      PyInt (Z.of_nat (List.length chosen)))])
     else Raises InvalidDateRange,
     self).
Proof.
  intros Hs He Hes self chosen. rewrite get_period_stats_run.
  unfold date_rejected.
  rewrite (strptime_iso_form _ Hs), (strptime_iso_form _ He).
  rewrite gt_not_le, (iso_le _ _ Hs He).
  destruct (real_date (iso_fields start_date)); cbn [orb andb negb];
    [|reflexivity].
  destruct (real_date (iso_fields end_date)); cbn [orb andb negb];
    [|reflexivity].
  destruct (date_le (iso_fields start_date) (iso_fields end_date));
    cbn [negb]; [|reflexivity].
  f_equal.
  change (Py.getitem (data self) "expenses")
    with (Returns (A:=pyval) (PyList (map Ledger.expense_doc es))).
  cbn [rbind Py.iter]. rewrite period_filter_typed. cbn [rbind].
  rewrite sum_amounts_typed. cbn [rbind].
  rewrite length_map.
  replace (filter _ es) with chosen; [reflexivity|].
  unfold chosen, Ledger.in_period. apply filter_ext_in.
  intros e Hin. specialize (Hes e Hin).
  now rewrite (iso_le _ _ Hs Hes), (iso_le _ _ Hes He).
Qed.

(* ===================================================================== *)
(** ** C6: a successful [add_expense] appends one entry *)
(* ===================================================================== *)


(** What a call of [add_expense] that returns has done. *)
Lemma add_expense_success (amount : pyval) (category : string)
  (date : option string) (today : string) (self : tracker) (r : pyval) :
  fst (add_expense amount category date today self) = Returns r ->
  exists f d l,
    Py.float amount = Returns f
    /\ expense_rejected amount category date = false
    /\ data self = PyDict d
    /\ Py.dict_get "expenses" d = Some (PyList l)
    /\ r = PyBool true
    /\ next_write (data_file self) = Writable
    /\ has_long_int
         (PyDict (Py.dict_set "expenses"
                    (PyList (l ++ [new_entry f category date today])) d))
       = false
    /\ snd (add_expense amount category date today self)
       = let doc' :=
           PyDict (Py.dict_set "expenses"
                     (PyList (l ++ [new_entry f category date today])) d) in
         {| data_file := wrote (data_file self) doc'; data := doc' |}.
Proof.
  rewrite add_expense_run. unfold expense_rejected.
  destruct (Py.float amount) as [f|e].
  - destruct (Float64.leb f Float64.zero || blank category
              || date_rejected date); [discriminate|].
    destruct (data self) as [| | | | | |d]; try discriminate.
    simpl. destruct (Py.dict_get "expenses" d) as [v|] eqn:Hl; [|discriminate].
    destruct v; try discriminate. cbn [rbind Py.append fst snd].
    intros E. apply after_write_returns in E. destruct E as [Hw ->].
    destruct (save_data_returns _ _ Hw) as (Hm & Hlong & ->).
    exists f, d, l. now repeat split.
  - destruct (is_ValueError e); discriminate.
Qed.



(* ===================================================================== *)
(** ** The loop of [get_category_stats] on a typed ledger *)
(* ===================================================================== *)

Lemma filter_twice {A : Type} (f g : A -> bool) (l : list A) :
  filter f (filter g l) = filter (fun x => g x && f x) l.
Proof.
  induction l as [|x l IH]; simpl; [reflexivity|].
  destruct (g x); simpl; [destruct (f x)|]; now rewrite IH.
Qed.

Section CategoryLoop.

Import Ledger.

Lemma kdict_get_typed (c : string) (acc : entries) :
  Py.kdict_get (PyStr c) (kdict_of acc) = option_map PyFloat (tget c acc).
Proof.
  induction acc as [|[c' v] acc IH]; simpl; [reflexivity|].
  destruct (String.eqb c c'); [reflexivity | exact IH].
Qed.

Lemma kdict_set_typed (c : string) (v : Float64.float) (acc : entries) :
  Py.kdict_set (PyStr c) (PyFloat v) (kdict_of acc) = kdict_of (tset c v acc).
Proof.
  induction acc as [|[c' v'] acc IH]; simpl; [reflexivity|].
  destruct (String.eqb c c'); simpl; [reflexivity|].
  now rewrite <- IH.
Qed.

Lemma category_loop_typed (es : list expense) (acc : entries) :
  category_loop (kdict_of acc) (map expense_doc es)
  = Returns (kdict_of (totals_loop acc es)).
Proof.
  revert acc. induction es as [|e es IH]; intros acc; [reflexivity|].
  cbn [map category_loop totals_loop].
  change (Py.getitem (expense_doc e) "category")
    with (Returns (A:=pyval) (PyStr (category e))).
  change (Py.getitem (expense_doc e) "amount")
    with (Returns (A:=pyval) (PyFloat (amount e))).
  cbn [rbind Py.hashable]. rewrite kdict_get_typed.
  destruct (tget (category e) acc) as [v|]; cbn [option_map rbind Py.add].
  - rewrite kdict_set_typed. apply IH.
  - change (Py.float (PyInt 0)) with (Returns Float64.zero).
    cbn [rbind]. rewrite kdict_set_typed. apply IH.
Qed.

Lemma tget_tset (c c0 : string) (v : Float64.float) (acc : entries) :
  tget c (tset c0 v acc)
  = if String.eqb c c0 then Some v else tget c acc.
Proof.
  induction acc as [|[c' v'] acc IH]; simpl.
  - reflexivity.
  - destruct (String.eqb_spec c0 c') as [->|Hne0]; simpl.
    + destruct (String.eqb c c'); reflexivity.
    + rewrite IH.
      destruct (String.eqb_spec c c') as [->|Hne]; [|reflexivity].
      destruct (String.eqb_spec c' c0) as [->|]; [congruence | reflexivity].
Qed.

Lemma keys_tset (c0 : string) (v : Float64.float) (acc : entries) :
  map fst (tset c0 v acc)
  = if mem c0 (map fst acc) then map fst acc else map fst acc ++ [c0].
Proof.
  unfold mem. induction acc as [|[c' v'] acc IH]; simpl; [reflexivity|].
  destruct (String.eqb c0 c'); simpl; [reflexivity|].
  rewrite IH. destruct (existsb (String.eqb c0) (map fst acc)); reflexivity.
Qed.

Lemma tget_None_mem (c : string) (acc : entries) :
  tget c acc = None <-> mem c (map fst acc) = false.
Proof.
  unfold mem. induction acc as [|[c' v'] acc IH]; simpl; [tauto|].
  destruct (String.eqb c c'); simpl; [split; discriminate | exact IH].
Qed.

Lemma amounts_of_cons (c : string) (e : expense) (es : list expense) :
  amounts_of c (e :: es)
  = if String.eqb (category e) c then amount e :: amounts_of c es
    else amounts_of c es.
Proof.
  unfold amounts_of. simpl. destruct (String.eqb (category e) c); reflexivity.
Qed.

(** The value that the loop leaves under each key. *)
Lemma tget_totals_loop (c : string) (es : list expense) (acc : entries) :
  tget c (totals_loop acc es)
  = match tget c acc with
    | Some v => Some (fold_left Float64.add (amounts_of c es) v)
    | None => if mem c (map category es)
              then Some (float_sum (amounts_of c es)) else None
    end.
Proof.
  revert acc. induction es as [|e es IH]; intros acc.
  - simpl. destruct (tget c acc); reflexivity.
  - cbn [totals_loop]. rewrite IH, tget_tset, amounts_of_cons.
    unfold mem. cbn [map existsb]. rewrite (String.eqb_sym (category e) c).
    destruct (String.eqb_spec c (category e)) as [->|Hne].
    + destruct (tget (category e) acc); reflexivity.
    + cbn [orb]. reflexivity.
Qed.

(** The keys that the loop leaves, in order. *)
Lemma keys_totals_loop (es : list expense) (acc : entries) :
  map fst (totals_loop acc es)
  = map fst acc
    ++ filter (fun c => negb (mem c (map fst acc)))
         (first_seen (map category es)).
Proof.
  revert acc. induction es as [|e es IH]; intros acc.
  - simpl. now rewrite app_nil_r.
  - cbn [totals_loop map first_seen filter]. rewrite IH, keys_tset.
    destruct (mem (category e) (map fst acc)) eqn:Hmem; cbn [negb].
    + f_equal. rewrite filter_twice. apply filter_ext.
      intros c. destruct (String.eqb_spec c (category e)) as [->|];
        [now rewrite Hmem | reflexivity].
    + rewrite <- app_assoc. cbn [app]. f_equal. f_equal.
      rewrite filter_twice. apply filter_ext.
      intros c. unfold mem. rewrite existsb_app. cbn [existsb].
      rewrite orb_false_r, negb_orb. apply andb_comm.
Qed.

Lemma first_seen_In (c : string) (l : list string) :
  In c (first_seen l) <-> In c l.
Proof.
  induction l as [|x l IH]; simpl; [tauto|].
  rewrite filter_In, IH.
  destruct (String.eqb_spec c x) as [->|Hne]; simpl.
  - split; auto.
  - split; [intros [->|[H _]]; auto | intros [->|H]; [congruence | auto]].
Qed.

Lemma first_seen_NoDup (l : list string) : NoDup (first_seen l).
Proof.
  induction l as [|x l IH]; simpl; constructor.
  - rewrite filter_In. intros [_ H]. now rewrite String.eqb_refl in H.
  - now apply NoDup_filter.
Qed.

(** The keys of a sequence are those of its beginning, followed by the
    new ones of the rest. *)
Lemma first_seen_app (l1 l2 : list string) :
  first_seen (l1 ++ l2)
  = first_seen l1 ++ filter (fun c => negb (mem c l1)) (first_seen l2).
Proof.
  induction l1 as [|a l1 IH]; cbn [app first_seen].
  - now rewrite filter_true.
  - rewrite IH, filter_app, filter_twice. cbn [app]. do 2 f_equal.
    apply filter_ext. intros c. unfold mem. cbn [existsb].
    rewrite negb_orb. apply andb_comm.
Qed.

(** Entries with distinct keys are given by their keys and the values
    found under them. *)
Lemma entries_of_lookups (f : string -> Float64.float) (l : entries) :
  NoDup (map fst l) ->
  (forall c, In c (map fst l) -> tget c l = Some (f c)) ->
  l = map (fun c => (c, f c)) (map fst l).
Proof.
  induction l as [|[c v] l IH]; simpl; intros Hnd Hget; [reflexivity|].
  inversion Hnd as [|? ? Hnotin Hnd']; subst.
  pose proof (Hget c (or_introl eq_refl)) as Hc.
  rewrite String.eqb_refl in Hc. inversion Hc; subst v.
  f_equal. apply IH; [exact Hnd'|].
  intros k Hin. pose proof (Hget k (or_intror Hin)) as Hk.
  destruct (String.eqb_spec k c) as [->|]; [contradiction | exact Hk].
Qed.

Lemma mem_In (c : string) (l : list string) : mem c l = true <-> In c l.
Proof.
  unfold mem. rewrite existsb_exists. split.
  - intros [x [Hin Heq]]. apply String.eqb_eq in Heq. now subst.
  - intros Hin. exists c. split; [exact Hin | apply String.eqb_refl].
Qed.

Lemma totals_loop_from_empty (es : list expense) :
  totals_loop [] es
  = map (fun c => (c, float_sum (amounts_of c es)))
      (first_seen (map category es)).
Proof.
  pose proof (keys_totals_loop es []) as Hkeys. simpl in Hkeys.
  rewrite filter_true in Hkeys.
  rewrite <- Hkeys. apply entries_of_lookups.
  - rewrite Hkeys. apply first_seen_NoDup.
  - intros c Hin. rewrite Hkeys, first_seen_In in Hin.
    rewrite tget_totals_loop. simpl.
    apply mem_In in Hin. now rewrite Hin.
Qed.

(** [get_category_stats] on a typed ledger returns the mapping of the
    specification and changes nothing. *)
Lemma get_category_stats_typed (location : location) (budget : Float64.float)
  (es : list expense) :
  get_category_stats (tracker_of location budget es)
  = (Returns (category_totals es), tracker_of location budget es).
Proof.
  unfold get_category_stats, mbind, data_getitem, lift. cbn [fst snd].
  change (Py.getitem (data (tracker_of location budget es)) "expenses")
    with (Returns (A:=pyval) (PyList (map expense_doc es))).
  cbn [Py.iter]. change (@nil (pyval * pyval)) with (kdict_of []).
  rewrite category_loop_typed, totals_loop_from_empty.
  unfold category_totals, kdict_of. now rewrite map_map.
Qed.

End CategoryLoop.

(* ===================================================================== *)
(** ** Float additions that are exact: whole numbers below 2^53 *)
(* ===================================================================== *)

Section WholeNumbers.

Import Float64.

Lemma iter_pos_nat {A : Type} (f : A -> A) (p : positive) (x : A) :
  iter_pos f p x = Nat.iter (Pos.to_nat p) f x.
Proof.
  revert x. induction p as [p IH|p IH|]; intros x; cbn [iter_pos].
  - rewrite !IH, Pos2Nat.inj_xI.
    replace (S (2 * Pos.to_nat p)) with (Pos.to_nat p + S (Pos.to_nat p))%nat
      by lia.
    rewrite Nat.iter_add, Nat.iter_succ_r. reflexivity.
  - rewrite !IH, Pos2Nat.inj_xO.
    replace (2 * Pos.to_nat p)%nat with (Pos.to_nat p + Pos.to_nat p)%nat
      by lia.
    rewrite Nat.iter_add. reflexivity.
  - reflexivity.
Qed.

Lemma pos_iter_shl (m : positive) (d : positive) :
  Pos.iter xO m d = shl m (Pos.to_nat d).
Proof. apply Pos2Nat.inj_iter. Qed.

Lemma shl_shl (m : positive) (j k : nat) : shl (shl m k) j = shl m (j + k).
Proof. unfold shl. now rewrite Nat.iter_add. Qed.

Lemma digits_shl (m : positive) (k : nat) :
  digits (shl m k) = digits m + Z.of_nat k.
Proof.
  unfold digits. induction k as [|k IH].
  - simpl. lia.
  - change (shl m (S k)) with (xO (shl m k)). cbn [digits2_pos].
    rewrite Pos2Z.inj_succ, IH. lia.
Qed.

Lemma digits_ge_1 (m : positive) : 1 <= digits m.
Proof. unfold digits. lia. Qed.

Lemma shr_shl (m : positive) (j i : nat) :
  Nat.iter j shr_1
    {| shr_m := Zpos (shl m (j + i)); shr_r := false; shr_s := false |}
  = {| shr_m := Zpos (shl m i); shr_r := false; shr_s := false |}.
Proof.
  revert i. induction j as [|j IH]; intros i; [reflexivity|].
  rewrite Nat.iter_succ.
  replace (S j + i)%nat with (j + S i)%nat by lia.
  rewrite IH. reflexivity.
Qed.

Lemma shl_add (p q : positive) (k : nat) :
  (shl p k + shl q k)%positive = shl (p + q) k.
Proof.
  induction k as [|k IH]; [reflexivity|].
  change (shl ?m (S k)) with (xO (shl m k)). simpl. now rewrite IH.
Qed.

(** Rounding [m * 2^k * 2^(-k)], for [m] of at most 53 digits, gives the
    normal form of the integer [m], whatever [k]. *)
Lemma binary_round_whole (m : positive) (k : nat) :
  digits m <= prec ->
  binary_round prec emax false (shl m k) (- Z.of_nat k)
  = S754_finite false (shl m (Z.to_nat (prec - digits m))) (digits m - prec).
Proof.
  intros Hd. pose proof (digits_ge_1 m) as Hd1.
  unfold binary_round.
  change (Zpos (digits2_pos (shl m k))) with (digits (shl m k)).
  rewrite digits_shl.
  replace (digits m + Z.of_nat k + - Z.of_nat k) with (digits m) by lia.
  assert (Hfexp : fexp prec emax (digits m) = digits m - prec).
  { unfold fexp, emin, prec, emax in *. lia. }
  rewrite Hfexp.
  set (t := digits m - prec) in *.
  set (c := shl m (Z.to_nat (prec - digits m))).
  assert (Hdc : digits c = prec).
  { unfold c. rewrite digits_shl. lia. }
  (* the first shift *)
  assert (Haux : forall mz ez,
    digits mz + ez = digits m ->
    (shr {| shr_m := Zpos mz; shr_r := false; shr_s := false |} ez (t - ez))
    = ({| shr_m := Zpos c; shr_r := false; shr_s := false |}, t) ->
    binary_round_aux prec emax false (Zpos mz) ez loc_Exact
    = S754_finite false c t).
  { intros mz ez Hmz Hshr. unfold binary_round_aux, shr_fexp.
    change (Zdigits2 (Zpos mz)) with (digits mz). rewrite Hmz, Hfexp.
    cbn [shr_record_of_loc]. rewrite Hshr.
    cbn [shr_m loc_of_shr_record round_nearest_even].
    change (Zdigits2 (Zpos c)) with (digits c). rewrite Hdc.
    replace (prec + t) with (digits m) by (unfold t; lia).
    rewrite Hfexp. replace (t - t) with 0 by lia.
    cbn [shr shr_record_of_loc shr_m].
    replace (t <=? emax - prec) with true; [reflexivity|].
    symmetry. apply Z.leb_le. unfold t, emax, prec in *. lia. }
  unfold shl_align.
  destruct (t - - Z.of_nat k) as [|d|d] eqn:Hdiff.
  - (* no shift at all *)
    apply Haux; [rewrite digits_shl; lia|].
    replace (t - - Z.of_nat k) with 0 by lia. cbn [shr].
    f_equal; [|lia]. unfold c. do 3 f_equal. lia.
  - (* the mantissa is shifted to the right, exactly *)
    apply Haux; [rewrite digits_shl; lia|].
    rewrite Hdiff. cbn [shr]. rewrite iter_pos_nat.
    f_equal; [|lia].
    replace k with (Pos.to_nat d + Z.to_nat (prec - digits m))%nat at 1
      by (unfold t in Hdiff; lia).
    apply shr_shl.
  - (* the mantissa is shifted to the left *)
    rewrite pos_iter_shl, shl_shl.
    replace (Pos.to_nat d + k)%nat with (Z.to_nat (prec - digits m))
      by (unfold t in Hdiff; lia).
    fold c. apply Haux; [rewrite Hdc; unfold t; lia|].
    replace (t - t) with 0 by lia. reflexivity.
Qed.

Lemma of_Z_pos (m : positive) :
  digits m <= prec ->
  of_Z (Zpos m)
  = S754_finite false (shl m (Z.to_nat (prec - digits m))) (digits m - prec).
Proof. intros Hd. exact (binary_round_whole m 0 Hd). Qed.

Lemma digits_bound (m : positive) : Zpos m < 2 ^ prec -> digits m <= prec.
Proof.
  intros Hm. unfold digits.
  assert (Hsize : digits2_pos m = Pos.size m).
  { clear. induction m as [m IH|m IH|]; simpl; [now rewrite IH..|reflexivity]. }
  rewrite Hsize.
  destruct (Z.le_gt_cases (Zpos (Pos.size m)) prec) as [|Hgt];
    [assumption | exfalso].
  pose proof (Pos.size_le m) as Hle. apply Pos2Z.pos_le_pos in Hle.
  rewrite Pos2Z.inj_pow in Hle. change (Zpos m~0) with (2 * Zpos m) in Hle.
  assert (Hpow : 2 ^ (prec + 1) <= 2 ^ Zpos (Pos.size m))
    by (apply Z.pow_le_mono_r; unfold prec in *; lia).
  rewrite Z.pow_add_r in Hpow by (unfold prec; lia).
  change (2 ^ 1) with 2 in Hpow. lia.
Qed.

(** The sum of two whole numbers, when it is below 2^53, is exact. *)
Lemma add_of_Z (a b : Z) :
  0 <= a -> 0 <= b -> a + b < 2 ^ prec ->
  add (of_Z a) (of_Z b) = of_Z (a + b).
Proof.
  intros Ha Hb Hab.
  destruct a as [|p|p]; [|clear Ha|lia].
  { simpl (0 + b). destruct b as [|q|q]; [reflexivity| |lia].
    rewrite of_Z_pos by (apply digits_bound; lia). reflexivity. }
  destruct b as [|q|q]; [|clear Hb|lia].
  { rewrite Z.add_0_r. rewrite of_Z_pos by (apply digits_bound; lia).
    reflexivity. }
  assert (Hp : digits p <= prec) by (apply digits_bound; lia).
  assert (Hq : digits q <= prec) by (apply digits_bound; lia).
  assert (Hpq : digits (p + q) <= prec) by (apply digits_bound; lia).
  change (Zpos p + Zpos q) with (Zpos (p + q)).
  rewrite (of_Z_pos p Hp), (of_Z_pos q Hq), (of_Z_pos (p + q) Hpq).
  pose proof (digits_ge_1 p). pose proof (digits_ge_1 q).
  unfold add, SFadd. cbn [cond_Zopp].
  set (ez := Z.min (digits p - prec) (digits q - prec)).
  assert (Hshift : forall m, digits m <= prec -> digits m - prec >= ez ->
            fst (shl_align (shl m (Z.to_nat (prec - digits m)))
                   (digits m - prec) ez)
            = shl m (Z.to_nat (- ez))).
  { intros m Hm Hge. pose proof (digits_ge_1 m). unfold shl_align.
    destruct (ez - (digits m - prec)) as [|d|d] eqn:Hdiff; cbn [fst].
    - f_equal. lia.
    - lia.
    - rewrite pos_iter_shl, shl_shl. f_equal. lia. }
  rewrite (Hshift p Hp) by (unfold ez; lia).
  rewrite (Hshift q Hq) by (unfold ez; lia).
  change (Zpos ?x + Zpos ?y) with (Zpos (x + y)).
  rewrite shl_add. cbn [binary_normalize].
  replace ez with (- Z.of_nat (Z.to_nat (- ez))) at 2
    by (unfold ez; lia).
  apply binary_round_whole. exact Hpq.
Qed.

End WholeNumbers.

(* ===================================================================== *)
(** ** C7: the values of the categories and the total *)
(* ===================================================================== *)

Section CategorySums.

Import Ledger.

Lemma zsum_nonneg (l : list Z) : Forall (fun z => 0 <= z) l -> 0 <= zsum l.
Proof. induction 1; simpl; lia. Qed.

Lemma float_sum_whole_from (zs : list Z) (a : Z) :
  0 <= a -> Forall (fun z => 0 <= z) zs -> a + zsum zs < 2 ^ Float64.prec ->
  fold_left Float64.add (map Float64.of_Z zs) (Float64.of_Z a)
  = Float64.of_Z (a + zsum zs).
Proof.
  intros Ha Hzs. revert a Ha.
  induction Hzs as [|z zs Hz Hzs IH]; intros a Ha Hlt; cbn [map fold_left].
  - unfold zsum. simpl. now rewrite Z.add_0_r.
  - pose proof (zsum_nonneg zs Hzs).
    change (zsum (z :: zs)) with (z + zsum zs) in *.
    rewrite add_of_Z by lia. rewrite IH by lia. f_equal. lia.
Qed.

Lemma float_sum_whole (zs : list Z) :
  Forall (fun z => 0 <= z) zs -> zsum zs < 2 ^ Float64.prec ->
  float_sum (map Float64.of_Z zs) = Float64.of_Z (zsum zs).
Proof.
  intros Hzs Hlt. unfold float_sum.
  change Float64.zero with (Float64.of_Z 0).
  now rewrite float_sum_whole_from by (trivial; lia).
Qed.

Lemma sum_from_floats (l : list Float64.float) (v : Float64.float) :
  Py.sum_from (PyFloat v) (map PyFloat l)
  = Returns (PyFloat (fold_left Float64.add l v)).
Proof.
  revert v. induction l as [|x l IH]; intros v; [reflexivity|].
  cbn [map Py.sum_from Py.add rbind fold_left]. apply IH.
Qed.

Lemma sum_floats (l : list Float64.float) :
  Py.sum (map PyFloat l) = Returns (sum_value l).
Proof.
  destruct l as [|x l]; [reflexivity|].
  unfold Py.sum. cbn [map Py.sum_from Py.add].
  change (Py.float (PyInt 0)) with (Returns Float64.zero).
  cbn [rbind]. apply sum_from_floats.
Qed.

Lemma zsum_without (g : string -> Z) (c0 : string) (l : list string) :
  NoDup l ->
  zsum (map g l)
  = (if mem c0 l then g c0 else 0)
    + zsum (map g (filter (fun x => negb (String.eqb x c0)) l)).
Proof.
  unfold mem.
  induction 1 as [|c l Hnotin Hnd IH]; simpl; [reflexivity|].
  rewrite (String.eqb_sym c0 c).
  destruct (String.eqb_spec c c0) as [->|Hne]; simpl.
  - rewrite IH.
    replace (existsb (String.eqb c0) l) with false; [lia|].
    symmetry. apply not_true_is_false. intros Hex.
    apply Hnotin. now apply (proj1 (mem_In c0 l)).
  - rewrite IH. lia.
Qed.

Lemma whole_of_cons (w : expense -> Z) (c : string) (e : expense)
  (es : list expense) :
  whole_of w c (e :: es)
  = (if String.eqb (category e) c then w e else 0) + whole_of w c es.
Proof.
  unfold whole_of. simpl. destruct (String.eqb (category e) c); reflexivity.
Qed.

Lemma whole_of_absent (w : expense -> Z) (c : string) (es : list expense) :
  mem c (map category es) = false -> whole_of w c es = 0.
Proof.
  unfold mem. induction es as [|e es IH]; [reflexivity|].
  cbn [map existsb]. intros H. apply orb_false_iff in H. destruct H as [H1 H2].
  rewrite whole_of_cons, (String.eqb_sym (category e) c), H1, IH by exact H2.
  reflexivity.
Qed.

(** Grouping by category does not change the sum of the whole amounts. *)
Lemma zsum_by_category (w : expense -> Z) (es : list expense) :
  zsum (map (fun c => whole_of w c es) (first_seen (map category es)))
  = zsum (map w es).
Proof.
  induction es as [|e es IH]; [reflexivity|].
  cbn [map first_seen zsum fold_right]. fold (zsum (map w es)).
  rewrite whole_of_cons, String.eqb_refl.
  rewrite map_ext_in with
    (g := fun c => whole_of w c es)
    (l := filter _ _).
  2:{ intros c Hin. apply filter_In in Hin. destruct Hin as [_ Hne].
      rewrite whole_of_cons, (String.eqb_sym (category e) c).
      now destruct (String.eqb c (category e)). }
  fold (zsum (map (fun c => whole_of w c es)
                (filter (fun x => negb (String.eqb x (category e)))
                   (first_seen (map category es))))).
  rewrite <- IH.
  rewrite (zsum_without (fun c => whole_of w c es) (category e)
             (first_seen (map category es)) (first_seen_NoDup _)).
  destruct (mem (category e) (first_seen (map category es))) eqn:Hmem;
    [lia|].
  rewrite whole_of_absent; [lia|].
  apply not_true_is_false. intros Hin. apply mem_In in Hin.
  apply first_seen_In in Hin. apply mem_In in Hin. congruence.
Qed.

Lemma whole_of_bounds (w : expense -> Z) (c : string) (es : list expense) :
  (forall e, In e es -> 0 <= w e) ->
  0 <= whole_of w c es <= zsum (map w es).
Proof.
  induction es as [|e es IH]; intros Hw; [unfold whole_of; simpl; lia|].
  rewrite whole_of_cons. cbn [map zsum fold_right]. fold (zsum (map w es)).
  pose proof (Hw e (or_introl eq_refl)).
  specialize (IH (fun x Hx => Hw x (or_intror Hx))).
  destruct (String.eqb (category e) c); lia.
Qed.

Lemma amounts_of_whole (w : expense -> Z) (c : string) (es : list expense) :
  (forall e, In e es -> amount e = Float64.of_Z (w e)) ->
  amounts_of c es
  = map Float64.of_Z
      (map w (filter (fun e => String.eqb (category e) c) es)).
Proof.
  intros Hw. unfold amounts_of. rewrite map_map. apply map_ext_in.
  intros e Hin. apply filter_In in Hin. now apply Hw.
Qed.

Lemma sum_value_whole (zs : list Z) :
  Forall (fun z => 0 <= z) zs -> zsum zs < 2 ^ Float64.prec ->
  sum_value (map Float64.of_Z zs)
  = match zs with [] => PyInt 0 | _ => PyFloat (Float64.of_Z (zsum zs)) end.
Proof.
  intros Hzs Hlt. destruct zs as [|z zs]; [reflexivity|].
  unfold sum_value. cbn [map]. f_equal.
  exact (float_sum_whole (z :: zs) Hzs Hlt).
Qed.

End CategorySums.

(** C7, as stated, fails: after five expenses (1 for B, 10^16 for A, 1 for
    A twice, 1 for B), the values of the two categories are 2 and 10^16
    and sum to 10^16 + 2, while the total spent is 10^16: the float
    additions round differently in the two orders. *)
Lemma category_values_do_not_sum_to_total :
  let fresh := {| data_file := writable Absent; data := default_data |} in
  let add amount category self :=
    snd (add_expense (PyInt amount) category (Some "2024-01-15")
           "2024-06-01" self) in
  let self :=
    add 1 "B" (add 1 "A" (add 1 "A"
      (add 10000000000000000 "A" (add 1 "B" fresh)))) in
  fst (get_category_stats self)
  = Returns [(PyStr "B", PyFloat (Float64.of_Z 2));
             (PyStr "A", PyFloat (Float64.of_Z 10000000000000000))]
  /\ Py.sum [PyFloat (Float64.of_Z 2);
             PyFloat (Float64.of_Z 10000000000000000)]
     = Returns (PyFloat (Float64.of_Z 10000000000000002))
  /\ fst (get_total_spent self)
     = Returns (PyFloat (Float64.of_Z 10000000000000000))
  /\ Float64.of_Z 10000000000000002 <> Float64.of_Z 10000000000000000
  /\ Float64.eqb (Float64.of_Z 10000000000000002)
       (Float64.of_Z 10000000000000000) = false.
Proof.
  cbv zeta. split; [vm_compute; reflexivity|].
  split; [vm_compute; reflexivity|].
  split; [vm_compute; reflexivity|].
  split; [vm_compute; discriminate | vm_compute; reflexivity].
Qed.

Lemma category_totals_loop (es : list Ledger.expense) :
  Ledger.category_totals es = Ledger.kdict_of (Ledger.totals_loop [] es).
Proof.
  rewrite totals_loop_from_empty. unfold Ledger.category_totals,
    Ledger.kdict_of. now rewrite map_map.
Qed.

(** C7 (amended).  On every ledger that the program builds,
    [get_category_stats] returns one entry per category of the sequence,
    whose value is the float sum, from left to right, of the amounts of the
    expenses of that category, and no other entry.  When every amount is a
    whole number, zero or more, and the amounts add up to less than 2^53,
    the values of the mapping sum to what [get_total_spent] returns. *)
Theorem category_values_and_total (location : location) (budget : Float64.float)
  (es : list Ledger.expense) :
  let self := Ledger.tracker_of location budget es in
  get_category_stats self = (Returns (Ledger.category_totals es), self)
  /\ (forall c, In c (map Ledger.category es) ->
        Py.kdict_get (PyStr c) (Ledger.category_totals es)
        = Some (PyFloat (Ledger.float_sum (Ledger.amounts_of c es))))
  /\ (forall c, ~ In c (map Ledger.category es) ->
        Py.kdict_get (PyStr c) (Ledger.category_totals es) = None)
  /\ (forall w : Ledger.expense -> Z,
        (forall e, In e es ->
           Ledger.amount e = Float64.of_Z (w e) /\ 0 <= w e) ->
        Ledger.zsum (map w es) < 2 ^ 53 ->
        Py.sum (map snd (Ledger.category_totals es))
        = fst (get_total_spent self)).
Proof.
  cbv zeta. split; [apply get_category_stats_typed|].
  split; [|split].
  - intros c Hin. rewrite category_totals_loop, kdict_get_typed,
      tget_totals_loop. cbn [Ledger.tget].
    apply mem_In in Hin. now rewrite Hin.
  - intros c Hnotin. rewrite category_totals_loop, kdict_get_typed,
      tget_totals_loop. cbn [Ledger.tget].
    replace (Ledger.mem c (map Ledger.category es)) with false; [reflexivity|].
    symmetry. apply not_true_is_false. intros H. now apply mem_In in H.
  - intros w Hw Hlt.
    assert (Hamount : forall e, In e es ->
              Ledger.amount e = Float64.of_Z (w e)) by (intros; now apply Hw).
    assert (Hpos : forall e, In e es -> 0 <= w e) by (intros; now apply Hw).
    assert (Hall : Forall (fun z => 0 <= z) (map w es)).
    { apply Forall_forall. intros z Hz. apply in_map_iff in Hz.
      destruct Hz as [e [<- He]]. now apply Hpos. }
    rewrite get_total_spent_typed. cbn [fst].
    rewrite (map_ext_in _ _ es Hamount), <- map_map with (g := Float64.of_Z).
    rewrite sum_value_whole by assumption.
    unfold Ledger.category_totals. rewrite map_map. cbn [snd].
    rewrite <- map_map with (g := PyFloat), sum_floats.
    rewrite map_ext with
      (g := fun c => Float64.of_Z (Ledger.whole_of w c es)).
    2:{ intros c. rewrite (amounts_of_whole w c es Hamount).
        apply float_sum_whole.
        - apply Forall_forall. intros z Hz. apply in_map_iff in Hz.
          destruct Hz as [e [<- He]]. apply filter_In in He. now apply Hpos.
        - pose proof (whole_of_bounds w c es Hpos) as Hb.
          unfold Ledger.whole_of in Hb. change Float64.prec with 53. lia. }
    rewrite <- map_map with (g := Float64.of_Z).
    rewrite sum_value_whole.
    + rewrite zsum_by_category.
      destruct es as [|e es]; reflexivity.
    + apply Forall_forall. intros z Hz. apply in_map_iff in Hz.
      destruct Hz as [c [<- _]]. apply (whole_of_bounds w c es Hpos).
    + now rewrite zsum_by_category.
Qed.

Lemma category_values_and_total_witness :
  let e1 := {| Ledger.amount := Float64.of_Z 50; Ledger.category := "Food";
               Ledger.date := "2024-01-15" |} in
  let e2 := {| Ledger.amount := Float64.of_Z 30;
               Ledger.category := "Transport";
               Ledger.date := "2024-01-16" |} in
  let es := [e1; e2; e1] in
  let w e := match Float64.to_Z_exact (Ledger.amount e) with
             | Some z => z
             | None => 0
             end in
  (forall e, In e es -> Ledger.amount e = Float64.of_Z (w e) /\ 0 <= w e)
  /\ Ledger.zsum (map w es) < 2 ^ 53
  /\ Py.sum (map snd (Ledger.category_totals es))
     = fst (get_total_spent (Ledger.tracker_of (writable Absent) Float64.zero es)).
Proof.
  intros e1 e2 es w.
  assert (Hw : forall e, In e es ->
                 Ledger.amount e = Float64.of_Z (w e) /\ 0 <= w e).
  { intros e [<-|[<-|[<-|[]]]]; split; vm_compute; congruence. }
  assert (Hlt : Ledger.zsum (map w es) < 2 ^ 53) by (vm_compute; reflexivity).
  split; [exact Hw|]. split; [exact Hlt|].
  destruct (category_values_and_total (writable Absent) Float64.zero es)
    as (_ & _ & _ & Hsum).
  exact (Hsum w Hw Hlt).
Defined.

(* ===================================================================== *)
(** ** Reading what was written *)
(* ===================================================================== *)

(** The model of the location takes the text that [json.dump] writes to
    be read back by [json.load] as the document it was written from; the
    text itself is not modelled.  With that, a location that can be read
    gives back, after a write that succeeded, the document written. *)
Lemma new_after_write (l : location) (doc : pyval) :
  holds l <> Unreadable ->
  has_long_int doc = false ->
  new (wrote l doc) = Returns {| data_file := wrote l doc; data := doc |}.
Proof.
  intros Hread Hlong.
  unfold new, __init__, _load_data, try_except, mbind, lift, set_data, wrote,
    read_after.
  cbn [data_file holds].
  destruct (holds l) as [| | |c]; try (now destruct Hread);
    cbn [exists_ size_positive andb json_load]; now rewrite Hlong.
Qed.

(** A location that can be written and not read, such as a file with the
    permission to write only, does not give back what was written to it:
    the write succeeds, and the construction, which cannot open the file,
    gives the default state. *)
Example write_only_location_reads_as_default :
  let write_only := {| holds := Unreadable; next_write := Writable |} in
  let doc :=
    PyDict [("budget", PyFloat (Float64.of_Z 100)); ("expenses", PyList [])] in
  set_budget (PyInt 100) {| data_file := write_only; data := default_data |}
  = (Returns (PyBool true), {| data_file := write_only; data := doc |})
  /\ new write_only
     = Returns {| data_file := write_only; data := default_data |}
  /\ doc <> default_data.
Proof. repeat split. discriminate. Qed.

(* ===================================================================== *)
(** ** C9: [validate_amount] *)
(* ===================================================================== *)

(** C9.  [validate_amount] never raises: on every text it returns
    [(True, value)] when the text reads as a number that is zero or more,
    and [(False, 0)] otherwise.  [validate_amount("0")] is [(True, 0.0)],
    while [add_expense] with the amount zero (the float that
    [validate_amount] returned, or the [int] 0) fails with
    [InvalidExpense] for every category, date and ledger, and changes
    nothing. *)
Theorem validate_amount_spec :
  (forall s,
     validate_amount s
     = Returns match PyStr.float_of_string s with
               | Some f => if Float64.leb Float64.zero f
                           then (true, PyFloat f) else (false, PyInt 0)
               | None => (false, PyInt 0)
               end)
  /\ validate_amount "0" = Returns (true, PyFloat Float64.zero)
  /\ (forall category date today self,
        add_expense (PyFloat Float64.zero) category date today self
        = (Raises InvalidExpense, self)
        /\ add_expense (PyInt 0) category date today self
           = (Raises InvalidExpense, self)).
Proof.
  split; [|split].
  - intros s. unfold validate_amount, rtry, Py.float.
    destruct (PyStr.float_of_string s) as [f|]; reflexivity.
  - reflexivity.
  - intros category date today self.
    split; rewrite add_expense_run; reflexivity.
Qed.

(* ===================================================================== *)
(** ** C10: the entries of [get_category_stats] come in first-seen order *)
(* ===================================================================== *)

(** C10.  On every ledger that the program builds, [get_category_stats]
    changes nothing and returns a mapping that depends on the expense
    sequence alone; its keys are the categories of the sequence, each
    once, in the order of their first occurrences. *)
Theorem get_category_stats_first_seen (location : location)
  (budget : Float64.float) (es : list Ledger.expense) :
  let categories := map Ledger.category es in
  get_category_stats (Ledger.tracker_of location budget es)
  = (Returns (Ledger.category_totals es),
     Ledger.tracker_of location budget es)
  /\ map fst (Ledger.category_totals es)
     = map PyStr (Ledger.first_seen categories)
  /\ NoDup (Ledger.first_seen categories)
  /\ (forall c, In c (Ledger.first_seen categories) <-> In c categories)
  /\ (forall before after,
        categories = before ++ after ->
        Ledger.first_seen categories
        = Ledger.first_seen before
          ++ filter (fun c => negb (Ledger.mem c before))
               (Ledger.first_seen after)).
Proof.
  cbv zeta. split; [apply get_category_stats_typed|].
  split; [unfold Ledger.category_totals; now rewrite map_map|].
  split; [apply first_seen_NoDup|].
  split; [intros c; apply first_seen_In|].
  intros before after ->. apply first_seen_app.
Qed.

Lemma get_category_stats_first_seen_witness :
  let e c := {| Ledger.amount := Float64.of_Z 10; Ledger.category := c;
                Ledger.date := "2024-01-15" |} in
  let es := [e "Food"; e "Transport"; e "Food"; e "Rent"] in
  map Ledger.category es = ["Food"; "Transport"] ++ ["Food"; "Rent"]
  /\ Ledger.first_seen (map Ledger.category es) = ["Food"; "Transport"; "Rent"]
  /\ map fst (Ledger.category_totals es)
     = [PyStr "Food"; PyStr "Transport"; PyStr "Rent"].
Proof.
  intros e es.
  destruct (get_category_stats_first_seen (writable Absent) Float64.zero es)
    as (_ & Hkeys & _ & _ & Happ).
  split; [reflexivity|].
  split; [exact (Happ ["Food"; "Transport"] ["Food"; "Rent"] eq_refl)|].
  rewrite Hkeys. reflexivity.
Defined.

(** The scenario of the specification: Food, Transport, and Food again. *)
Example get_category_stats_scenario :
  let fresh := {| data_file := writable Absent; data := default_data |} in
  let s1 := snd (add_expense (PyInt 50) "Food" (Some "2024-01-15")
                   "2024-06-01" fresh) in
  let s2 := snd (add_expense (PyInt 30) "Transport" (Some "2024-01-16")
                   "2024-06-01" s1) in
  let s3 := snd (add_expense (PyInt 20) "Food" (Some "2024-01-17")
                   "2024-06-01" s2) in
  fst (get_category_stats s3)
  = Returns [(PyStr "Food", PyFloat (Float64.of_Z 70));
             (PyStr "Transport", PyFloat (Float64.of_Z 30))].
Proof. reflexivity. Qed.

(* ===================================================================== *)
(** ** The scenario of the specification *)
(* ===================================================================== *)

(** A new ledger, a budget of 1000, 50 for Food on 15 January 2024 and 30
    for Transport the day after: the summary is 1000, 80 and 920, the
    categories are Food with 50 and Transport with 30, and the two days hold
    two expenses that sum to 80. *)
Example scenario :
  let run {A : Type} (m : method A) (self : tracker) := snd (m self) in
  let fresh := {| data_file := writable Absent; data := default_data |} in
  let s1 := run (set_budget (PyInt 1000)) fresh in
  let s2 := run (add_expense (PyInt 50) "Food" (Some "2024-01-15")
                   "2024-06-01") s1 in
  let s3 := run (add_expense (PyInt 30) "Transport" (Some "2024-01-16")
                   "2024-06-01") s2 in
  new (writable Absent) = Returns fresh
  /\ fst (get_financial_summary s3)
     = Returns (PyDict [("budget", PyFloat (Float64.of_Z 1000));
                        ("total_spent", PyFloat (Float64.of_Z 80));
                        ("remaining", PyFloat (Float64.of_Z 920))])
  /\ fst (get_category_stats s3)
     = Returns [(PyStr "Food", PyFloat (Float64.of_Z 50));
                (PyStr "Transport", PyFloat (Float64.of_Z 30))]
  /\ fst (get_period_stats "2024-01-15" "2024-01-16" s3)
     = Returns (PyDict [("total_spent", PyFloat (Float64.of_Z 80));
                        ("expense_count", PyInt 2)])
  /\ fst (get_period_stats "2024-02-01" "2024-01-01" s3)
     = Raises InvalidDateRange
  /\ validate_date "2024-01-32" = Returns false
  /\ new (data_file s3) = Returns s3.
Proof. cbv zeta. repeat split; vm_compute; reflexivity. Qed.

(* ===================================================================== *)
(** * Properties beyond the specification *)
(* ===================================================================== *)

(** ** The queries *)

Lemma get_category_stats_run (self : tracker) :
  get_category_stats self
  = (rbind (Py.getitem (data self) "expenses") (fun expenses =>
     rbind (Py.iter expenses) (fun items => category_loop [] items)),
     self).
Proof.
  unfold get_category_stats, mbind, data_getitem, lift.
  destruct (Py.getitem (data self) "expenses") as [l|]; simpl; [|reflexivity].
  destruct (Py.iter l); reflexivity.
Qed.

Lemma get_financial_summary_run (self : tracker) :
  get_financial_summary self
  = (rbind (fst (get_total_spent self)) (fun total_spent =>
     rbind (Py.getitem (data self) "budget") (fun budget =>
     rbind (Py.sub budget total_spent) (fun remaining =>
     Returns (PyDict [("budget", budget); ("total_spent", total_spent);
                      ("remaining", remaining)])))),
     self).
Proof.
  unfold get_financial_summary, mbind. rewrite get_total_spent_run. cbn [fst].
  destruct (rbind (Py.getitem (data self) "expenses") _) as [t|];
    [|reflexivity].
  unfold data_getitem, lift. cbn [rbind].
  destruct (Py.getitem (data self) "budget") as [b|]; [|reflexivity].
  cbn [rbind]. destruct (Py.sub b t); reflexivity.
Qed.

(** X1.  The four queries never change the ledger, neither the document
    nor the storage location, whatever the ledger holds and whether they
    return or raise. *)
Theorem queries_change_nothing (self : tracker)
  (start_date end_date : string) :
  snd (get_total_spent self) = self
  /\ snd (get_category_stats self) = self
  /\ snd (get_period_stats start_date end_date self) = self
  /\ snd (get_financial_summary self) = self.
Proof.
  rewrite get_total_spent_run, get_category_stats_run,
    get_period_stats_run, get_financial_summary_run.
  repeat split.
Qed.

Lemma get_financial_summary_typed (location : location) (budget : Float64.float)
  (es : list Ledger.expense) :
  get_financial_summary (Ledger.tracker_of location budget es)
  = (Returns (summary_of budget es), Ledger.tracker_of location budget es).
Proof.
  rewrite get_financial_summary_run, get_total_spent_typed. cbn [fst rbind].
  change (Py.getitem (data (Ledger.tracker_of location budget es)) "budget")
    with (Returns (A:=pyval) (PyFloat budget)).
  cbn [rbind]. unfold summary_of.
  destruct es as [|e es]; reflexivity.
Qed.

(** [get_period_stats] on a typed ledger, for any two texts: the filter
    compares the texts. *)
Lemma get_period_stats_typed (location : location) (budget : Float64.float)
  (es : list Ledger.expense) (start_date end_date : string) :
  get_period_stats start_date end_date (Ledger.tracker_of location budget es)
  = (if date_rejected (Some start_date) || date_rejected (Some end_date)
        || PyStr.gt start_date end_date
     then Raises InvalidDateRange
     else Returns
            (period_value
               (filter (fun e => PyStr.le start_date (Ledger.date e)
                                 && PyStr.le (Ledger.date e) end_date) es)),
     Ledger.tracker_of location budget es).
Proof.
  rewrite get_period_stats_run.
  destruct (date_rejected (Some start_date) || date_rejected (Some end_date)
            || PyStr.gt start_date end_date); [reflexivity|].
  change (Py.getitem (data (Ledger.tracker_of location budget es)) "expenses")
    with (Returns (A:=pyval) (PyList (map Ledger.expense_doc es))).
  cbn [rbind Py.iter]. rewrite period_filter_typed. cbn [rbind].
  rewrite sum_amounts_typed. cbn [rbind]. rewrite length_map. reflexivity.
Qed.

(** X2.  On every ledger that the program builds, [get_total_spent],
    [get_category_stats] and [get_financial_summary] return, whatever was
    recorded: the summary holds the budget, the total and the float
    difference of the two, which being over budget makes negative, not an
    error.  [get_period_stats] returns as well, unless it fails with
    [InvalidDateRange]; no other exception leaves a query. *)
Theorem queries_return_on_built_ledgers (self : tracker)
  (start_date end_date : string) :
  built self ->
  exists location budget es,
    self = Ledger.tracker_of location budget es
    /\ fst (get_total_spent self)
       = Returns (Ledger.sum_value (map Ledger.amount es))
    /\ fst (get_category_stats self) = Returns (Ledger.category_totals es)
    /\ fst (get_financial_summary self) = Returns (summary_of budget es)
    /\ (fst (get_period_stats start_date end_date self)
        = Raises InvalidDateRange
        \/ exists kept,
             fst (get_period_stats start_date end_date self)
             = Returns (period_value kept)
             /\ incl kept es).
Proof.
  intros Hbuilt.
  destruct (built_typed self Hbuilt) as (location & budget & es & ->).
  exists location, budget, es.
  rewrite get_total_spent_typed, get_category_stats_typed,
    get_financial_summary_typed, get_period_stats_typed.
  cbn [fst]. repeat split.
  destruct (date_rejected (Some start_date) || date_rejected (Some end_date)
            || PyStr.gt start_date end_date); [now left|].
  right. eexists. split; [reflexivity|]. apply incl_filter.
Qed.

Lemma queries_return_on_built_ledgers_witness :
  let fresh := {| data_file := writable Absent; data := default_data |} in
  let s1 := snd (set_budget (PyInt 10) fresh) in
  let s2 := snd (add_expense (PyInt 50) "Food" (Some "2024-01-15")
                   "2024-06-01" s1) in
  built s2
  /\ exists budget es,
       fst (get_financial_summary s2) = Returns (summary_of budget es).
Proof.
  intros fresh s1 s2.
  assert (Hb : built s2).
  { apply built_add_expense, built_set_budget.
    apply (built_new (writable Absent)); [discriminate | reflexivity]. }
  split; [exact Hb|].
  destruct (queries_return_on_built_ledgers s2 "2024-01-01" "2024-12-31" Hb)
    as (location & budget & es & _ & _ & _ & Hsum & _).
  exists budget, es. exact Hsum.
Defined.

(** ** How the calls compose *)

Lemma wrote_wrote (l : location) (doc doc' : pyval) :
  wrote (wrote l doc) doc' = wrote l doc'.
Proof. unfold wrote, read_after. cbn [holds next_write]. now destruct (holds l). Qed.

Lemma set_budget_success (budget : pyval) (self self' : tracker) (r : pyval) :
  set_budget budget self = (Returns r, self') ->
  exists f d,
    Py.float budget = Returns f
    /\ Float64.ltb f Float64.zero = false
    /\ data self = PyDict d
    /\ r = PyBool true
    /\ next_write (data_file self) = Writable
    /\ has_long_int (PyDict (Py.dict_set "budget" (PyFloat f) d)) = false
    /\ self' = let doc := PyDict (Py.dict_set "budget" (PyFloat f) d) in
               {| data_file := wrote (data_file self) doc; data := doc |}.
Proof.
  rewrite set_budget_run.
  destruct (Py.float budget) as [f|e].
  - destruct (Float64.ltb f Float64.zero) eqn:Hlt; [discriminate|].
    destruct (data self) as [| | | | | |d] eqn:Hd; try discriminate.
    cbv zeta. intros E. inversion E as [[Hr Hs]].
    apply after_write_returns in Hr. destruct Hr as [Hw ->].
    destruct (save_data_returns _ _ Hw) as (Hm & Hlong & Hrun).
    rewrite Hrun. exists f, d. now repeat split.
  - destruct (is_ValueError e || is_TypeError e); discriminate.
Qed.

(** X3.  After a call of [set_budget] that returns, the total spent is what
    it was, and [get_financial_summary] reports the new budget and, as the
    remaining amount, the new budget minus that total. *)
Theorem set_budget_then_summary (budget : pyval) (self self' : tracker)
  (r : pyval) :
  set_budget budget self = (Returns r, self') ->
  exists f,
    Py.float budget = Returns f
    /\ fst (get_total_spent self') = fst (get_total_spent self)
    /\ fst (get_category_stats self') = fst (get_category_stats self)
    /\ fst (get_financial_summary self')
       = rbind (fst (get_total_spent self)) (fun total_spent =>
         rbind (Py.sub (PyFloat f) total_spent) (fun remaining =>
         Returns (PyDict [("budget", PyFloat f);
                          ("total_spent", total_spent);
                          ("remaining", remaining)]))).
Proof.
  intros Hset.
  destruct (set_budget_success _ _ _ _ Hset)
    as (f & d & Hf & _ & Hd & _ & _ & _ & ->).
  exists f. split; [exact Hf|].
  assert (Hexp : Py.getitem (PyDict (Py.dict_set "budget" (PyFloat f) d))
                   "expenses" = Py.getitem (data self) "expenses").
  { rewrite Hd. simpl. now rewrite dict_get_set_other by discriminate. }
  cbv zeta.
  assert (Htot : forall l,
            fst (get_total_spent
                   {| data_file := l;
                      data := PyDict (Py.dict_set "budget" (PyFloat f) d) |})
            = fst (get_total_spent self)).
  { intros l. rewrite !get_total_spent_run. cbn [fst data]. now rewrite Hexp. }
  split; [apply Htot|]. split.
  - rewrite !get_category_stats_run. cbn [fst data]. now rewrite Hexp.
  - rewrite get_financial_summary_run. cbn [fst]. rewrite Htot.
    destruct (fst (get_total_spent self)) as [t|]; [|reflexivity].
    cbn [rbind data Py.getitem]. rewrite dict_get_set_same. reflexivity.
Qed.

Lemma set_budget_then_summary_witness :
  let fresh := {| data_file := writable Absent; data := default_data |} in
  let s1 := snd (add_expense (PyInt 80) "Food" None "2024-06-01" fresh) in
  let s2 := snd (set_budget (PyStr "1e3") s1) in
  set_budget (PyStr "1e3") s1 = (Returns (PyBool true), s2)
  /\ fst (get_financial_summary s2)
     = Returns (PyDict [("budget", PyFloat (Float64.of_Z 1000));
                        ("total_spent", PyFloat (Float64.of_Z 80));
                        ("remaining", PyFloat (Float64.of_Z 920))]).
Proof.
  intros fresh s1 s2. split; [reflexivity|].
  destruct (set_budget_then_summary (PyStr "1e3") s1 s2 (PyBool true) eq_refl)
    as (f & Hf & _ & _ & Hsum).
  rewrite Hsum. inversion Hf. reflexivity.
Defined.

Lemma dict_set_set (k : string) (v v' : pyval) (d : list (string * pyval)) :
  Py.dict_set k v' (Py.dict_set k v d) = Py.dict_set k v' d.
Proof.
  induction d as [|[k0 v0] d IH]; simpl.
  - now rewrite String.eqb_refl.
  - destruct (String.eqb k k0) eqn:E; simpl.
    + now rewrite String.eqb_refl.
    + now rewrite E, IH.
Qed.


(** X4.  The last budget wins: two calls of [set_budget] that return, one
    after the other, leave the ledger as the second one alone does. *)
Theorem set_budget_twice (b1 b2 : pyval) (self s1 s2 : tracker)
  (r1 r2 : pyval) :
  set_budget b1 self = (Returns r1, s1) ->
  set_budget b2 s1 = (Returns r2, s2) ->
  set_budget b2 self = (Returns r2, s2).
Proof.
  intros H1 H2.
  destruct (set_budget_success _ _ _ _ H1)
    as (f1 & d & _ & _ & Hd & _ & Hm & _ & ->).
  destruct (set_budget_success _ _ _ _ H2)
    as (f2 & d' & Hf2 & Hlt2 & Hd' & -> & _ & Hlong & ->).
  cbv zeta in Hd'. cbn [data] in Hd'. inversion Hd'; subst d'.
  rewrite dict_set_set in Hlong.
  rewrite set_budget_run, Hf2, Hlt2, Hd. cbv zeta.
  rewrite save_data_run. cbn [with_data data data_file fst snd].
  rewrite (json_dump_writable _ _ Hm Hlong). cbn [fst snd after_write].
  now rewrite dict_set_set, wrote_wrote.
Qed.

Lemma set_budget_twice_witness :
  let fresh := {| data_file := writable Absent; data := default_data |} in
  let s1 := snd (set_budget (PyInt 1000) fresh) in
  let s2 := snd (set_budget (PyInt 500) s1) in
  set_budget (PyInt 1000) fresh = (Returns (PyBool true), s1)
  /\ set_budget (PyInt 500) s1 = (Returns (PyBool true), s2)
  /\ set_budget (PyInt 500) fresh = (Returns (PyBool true), s2).
Proof.
  intros fresh s1 s2. split; [reflexivity|]. split; [reflexivity|].
  exact (set_budget_twice (PyInt 1000) (PyInt 500) fresh s1 s2 (PyBool true)
           (PyBool true) eq_refl eq_refl).
Defined.

Lemma add_expense_success_state (amount : pyval) (category : string)
  (date : option string) (today : string) (self self' : tracker) (r : pyval) :
  add_expense amount category date today self = (Returns r, self') ->
  exists f d l,
    Py.float amount = Returns f
    /\ expense_rejected amount category date = false
    /\ data self = PyDict d
    /\ Py.dict_get "expenses" d = Some (PyList l)
    /\ r = PyBool true
    /\ next_write (data_file self) = Writable
    /\ has_long_int
         (PyDict (Py.dict_set "expenses"
                    (PyList (l ++ [new_entry f category date today])) d))
       = false
    /\ self'
       = let doc' :=
           PyDict (Py.dict_set "expenses"
                     (PyList (l ++ [new_entry f category date today])) d) in
         {| data_file := wrote (data_file self) doc'; data := doc' |}.
Proof.
  intros H.
  assert (Hfst : fst (add_expense amount category date today self)
                 = Returns r) by now rewrite H.
  destruct (add_expense_success _ _ _ _ _ _ Hfst)
    as (f & d & l & Hf & Hrej & Hd & Hl & Hr & Hm & Hlong & Hs).
  exists f, d, l. repeat split; try assumption.
  rewrite H in Hs. exact Hs.
Qed.

(** The order matters on a document that cannot be written as it is: with
    a budget that is an [int] of 4301 digits, [set_budget] replaces it and
    [add_expense] then returns, while [add_expense] first fails at the
    write. *)
Example add_expense_first_fails_at_long_int :
  let self :=
    {| data_file := writable Absent;
       data := PyDict [("budget", PyInt (10 ^ int_max_str_digits));
                       ("expenses", PyList [])] |} in
  let s1 := snd (set_budget (PyInt 1) self) in
  fst (set_budget (PyInt 1) self) = Returns (PyBool true)
  /\ fst (add_expense (PyInt 50) "Food" None "2024-06-01" s1)
     = Returns (PyBool true)
  /\ fst (add_expense (PyInt 50) "Food" None "2024-06-01" self)
     = Raises InvalidExpense.
Proof. vm_compute. repeat split. Qed.



(** ** What a session keeps *)

Lemma set_budget_outcome (budget : pyval) (self : tracker) :
  snd (set_budget budget self) = self
  \/ exists f d location',
       data self = PyDict d
       /\ Float64.ltb f Float64.zero = false
       /\ snd (set_budget budget self)
          = {| data_file := location';
               data := PyDict (Py.dict_set "budget" (PyFloat f) d) |}.
Proof.
  rewrite set_budget_run.
  destruct (Py.float budget) as [f|e].
  - destruct (Float64.ltb f Float64.zero) eqn:Hlt; [now left|].
    destruct (data self) as [| | | | | |d] eqn:Hd; try (now left).
    right. exists f, d. cbv zeta. cbn [snd]. rewrite save_data_run.
    cbn [snd with_data data]. eexists. now repeat split.
  - destruct (is_ValueError e || is_TypeError e); now left.
Qed.

Lemma add_expense_outcome (amount : pyval) (category : string)
  (date : option string) (today : string) (self : tracker) :
  snd (add_expense amount category date today self) = self
  \/ exists f d l location',
       data self = PyDict d
       /\ Py.dict_get "expenses" d = Some (PyList l)
       /\ Float64.leb f Float64.zero = false
       /\ blank category = false
       /\ snd (add_expense amount category date today self)
          = {| data_file := location';
               data :=
                 PyDict (Py.dict_set "expenses"
                           (PyList (l ++ [new_entry f category date today]))
                           d) |}.
Proof.
  rewrite add_expense_run.
  destruct (Py.float amount) as [f|e].
  - destruct (Float64.leb f Float64.zero) eqn:Hle; [now left|].
    destruct (blank category) eqn:Hb; [now left|].
    destruct (date_rejected date); [now left|]. cbn [orb].
    destruct (data self) as [| | | | | |d] eqn:Hd; try (now left).
    cbn [Py.getitem].
    destruct (Py.dict_get "expenses" d) as [v|] eqn:Hl; [|now left].
    destruct v; try (now left).
    right. exists f, d, l. cbn [rbind Py.append]. cbv zeta. cbn [snd].
    rewrite save_data_run. cbn [snd with_data data]. eexists.
    now repeat split.
  - destruct (is_ValueError e); now left.
Qed.

Lemma new_run (location : location) :
  new location
  = (if exists_ (holds location) && size_positive (holds location)
     then match json_load (holds location) with
          | Returns doc => Returns {| data_file := location; data := doc |}
          | Raises e =>
              if is_JSONDecodeError e || is_IOError e
              then Returns {| data_file := location; data := default_data |}
              else Raises e
          end
     else Returns {| data_file := location; data := default_data |}).
Proof.
  unfold new, __init__, _load_data, try_except, mbind, lift, set_data.
  cbn [data_file].
  destruct (exists_ (holds location) && size_positive (holds location));
    [|reflexivity].
  destruct (json_load (holds location)) as [doc|e]; [reflexivity|].
  now destruct (is_JSONDecodeError e || is_IOError e).
Qed.

(** The construction does not depend on what the next write does. *)
Lemma new_at_medium (m : medium) (self : tracker) :
  new (data_file self) = Returns self ->
  new (data_file (at_medium m self)) = Returns (at_medium m self).
Proof.
  rewrite !new_run. unfold at_medium. cbn [data_file holds data].
  destruct (exists_ (holds (data_file self))
            && size_positive (holds (data_file self))).
  - destruct (json_load (holds (data_file self))) as [doc|e].
    + intros E. inversion E as [Hs]. rewrite <- Hs at 3. reflexivity.
    + destruct (is_JSONDecodeError e || is_IOError e); [|discriminate].
      intros E. inversion E as [Hs]. rewrite <- Hs at 3. reflexivity.
  - intros E. inversion E as [Hs]. rewrite <- Hs at 3. reflexivity.
Qed.

(** X6.  Nothing is held in memory only as long as no write fails: at
    every moment of a session on a location that can be read, in which each
    call returned or changed nothing, a ledger constructed anew on the
    storage location is the ledger of the session, with the same
    document. *)
Theorem session_is_persisted (self : tracker) :
  session self -> new (data_file self) = Returns self.
Proof.
  intros Hs.
  assert (H : new (data_file self) = Returns self
              /\ holds (data_file self) <> Unreadable).
  { induction Hs as [location self Hread Hnew
                    | m self _ [IH IHr]
                    | budget self _ [IH IHr] Hcall
                    | amount category date today self _ [IH IHr] Hcall].
    - assert (Hl : data_file self = location).
      { rewrite new_run in Hnew.
        destruct (exists_ (holds location) && size_positive (holds location));
          [|now inversion Hnew].
        destruct (json_load (holds location)) as [doc|e];
          [now inversion Hnew|].
        destruct (is_JSONDecodeError e || is_IOError e); now inversion Hnew. }
      rewrite Hl. now split.
    - split; [now apply new_at_medium | exact IHr].
    - destruct Hcall as [Hret|Hsame]; [|rewrite Hsame; now split].
      destruct (set_budget budget self) as [r self'] eqn:Hrun.
      cbn [fst snd] in *. subst r.
      destruct (set_budget_success _ _ _ _ Hrun)
        as (f & d & _ & _ & _ & _ & _ & Hlong & ->).
      cbv zeta. cbn [data_file]. split.
      + now apply new_after_write.
      + unfold wrote, read_after. cbn [holds].
        destruct (holds (data_file self)); try discriminate.
        now destruct IHr.
    - destruct Hcall as [Hret|Hsame]; [|rewrite Hsame; now split].
      destruct (add_expense amount category date today self)
        as [r self'] eqn:Hrun.
      cbn [fst snd] in *. subst r.
      destruct (add_expense_success_state _ _ _ _ _ _ _ Hrun)
        as (f & d & l & _ & _ & _ & _ & _ & _ & Hlong & ->).
      cbv zeta. cbn [data_file]. split.
      + now apply new_after_write.
      + unfold wrote, read_after. cbn [holds].
        destruct (holds (data_file self)); try discriminate.
        now destruct IHr. }
  exact (proj1 H).
Qed.

Lemma session_is_persisted_witness :
  let fresh := {| data_file := writable Empty; data := default_data |} in
  let s1 := snd (set_budget (PyInt 1000) fresh) in
  let s2 := snd (add_expense (PyInt 0) "Food" None "2024-06-01" s1) in
  let s3 := snd (add_expense (PyInt 50) "Food" None "2024-06-01" s2) in
  session s3 /\ new (data_file s3) = Returns s3.
Proof.
  intros fresh s1 s2 s3.
  assert (Hs : session s3).
  { apply session_add_expense; [|now left].
    apply session_add_expense; [|now right].
    apply session_set_budget; [|now left].
    apply (session_new (writable Empty)); [discriminate | reflexivity]. }
  split; [exact Hs | exact (session_is_persisted s3 Hs)].
Defined.

(** X7.  The expenses are only ever appended to: whatever calls of
    [set_budget] and [add_expense] are made, with whatever outcome, the
    expense sequence of a ledger is the beginning of the sequence of every
    later ledger. *)
Theorem expenses_only_grow (self self' : tracker) (l : list pyval) :
  later self self' ->
  Py.getitem (data self) "expenses" = Returns (PyList l) ->
  exists l',
    Py.getitem (data self') "expenses" = Returns (PyList (l ++ l')).
Proof.
  intros Hlater Hl.
  induction Hlater as [self
                      | m self self' _ IH
                      | budget self self' _ IH
                      | amount category date today self self' _ IH].
  - exists []. now rewrite app_nil_r.
  - exact (IH Hl).
  - destruct (IH Hl) as [l' Hl'].
    destruct (set_budget_outcome budget self')
      as [->|(f & d & location' & Hd & _ & ->)].
    + now exists l'.
    + exists l'. rewrite Hd in Hl'. cbn [data Py.getitem] in *.
      now rewrite dict_get_set_other by discriminate.
  - destruct (IH Hl) as [l' Hl'].
    destruct (add_expense_outcome amount category date today self')
      as [->|(f & d & l0 & location' & Hd & Hl0 & _ & _ & ->)].
    + now exists l'.
    + rewrite Hd in Hl'. cbn [Py.getitem] in Hl'. rewrite Hl0 in Hl'.
      inversion Hl'; subst l0.
      exists (l' ++ [new_entry f category date today]).
      cbn [data Py.getitem]. rewrite dict_get_set_same.
      now rewrite app_assoc.
Qed.

Lemma expenses_only_grow_witness :
  let fresh := {| data_file := writable Absent; data := default_data |} in
  let s1 := snd (add_expense (PyInt 50) "Food" None "2024-06-01" fresh) in
  let s2 := snd (set_budget (PyInt (-1)) s1) in
  let s3 := snd (add_expense (PyInt 30) "Rent" None "2024-06-02"
                   (at_medium Refuses s2)) in
  later s1 s3
  /\ fst (add_expense (PyInt 30) "Rent" None "2024-06-02"
            (at_medium Refuses s2)) = Raises OSError
  /\ exists l l',
       Py.getitem (data s1) "expenses" = Returns (PyList l)
       /\ Py.getitem (data s3) "expenses" = Returns (PyList (l ++ l')).
Proof.
  intros fresh s1 s2 s3.
  assert (Hl : later s1 s3).
  { apply later_add_expense, later_medium, later_set_budget, later_now. }
  split; [exact Hl|]. split; [reflexivity|].
  destruct (expenses_only_grow s1 s3 _ Hl eq_refl) as [l' Hl'].
  eexists _, l'. split; [reflexivity | exact Hl'].
Defined.

(** ** Trimming *)

Section Strip.

Variable sp : ascii -> bool.

Lemma lstrip_head (l : list ascii) :
  match PyStr.lstrip sp l with
  | c :: _ => sp c = false
  | [] => True
  end.
Proof.
  induction l as [|c l IH]; simpl; [exact I|].
  destruct (sp c) eqn:E; [exact IH | exact E].
Qed.

Lemma lstrip_fixed (l : list ascii) :
  match l with c :: _ => sp c = false | [] => True end ->
  PyStr.lstrip sp l = l.
Proof. destruct l as [|c l]; simpl; [reflexivity|]. now intros ->. Qed.

Lemma lstrip_suffix (l : list ascii) :
  exists p, l = p ++ PyStr.lstrip sp l /\ forallb sp p = true.
Proof.
  induction l as [|c l (p & Hp & Hall)]; simpl.
  - now exists [].
  - destruct (sp c) eqn:E.
    + exists (c :: p). simpl. rewrite E. split; [now f_equal | exact Hall].
    + now exists [].
Qed.

Lemma strip_chars_head (l : list ascii) :
  match PyStr.strip_chars sp l with
  | c :: _ => sp c = false
  | [] => True
  end.
Proof.
  unfold PyStr.strip_chars.
  set (a := PyStr.lstrip sp l).
  set (b := PyStr.lstrip sp (rev a)).
  destruct (lstrip_suffix (rev a)) as (p & Hp & _). fold b in Hp.
  assert (Ha : a = rev b ++ rev p).
  { rewrite <- (rev_involutive a), Hp, rev_app_distr. reflexivity. }
  pose proof (lstrip_head l) as Hhead. fold a in Hhead. rewrite Ha in Hhead.
  destruct (rev b) as [|c r]; [exact I | exact Hhead].
Qed.

Lemma strip_chars_last (l : list ascii) :
  match rev (PyStr.strip_chars sp l) with
  | c :: _ => sp c = false
  | [] => True
  end.
Proof. unfold PyStr.strip_chars. rewrite rev_involutive. apply lstrip_head. Qed.

(** Trimming a trimmed text changes nothing. *)
Lemma strip_chars_idempotent (l : list ascii) :
  PyStr.strip_chars sp (PyStr.strip_chars sp l) = PyStr.strip_chars sp l.
Proof.
  pose proof (strip_chars_head l) as Hh.
  pose proof (strip_chars_last l) as Hl.
  set (t := PyStr.strip_chars sp l) in *.
  unfold PyStr.strip_chars at 1.
  rewrite (lstrip_fixed t Hh), (lstrip_fixed (rev t) Hl).
  apply rev_involutive.
Qed.

(** What is trimmed away is white space, at both ends. *)
Lemma strip_chars_ends (l : list ascii) :
  exists before after,
    l = before ++ PyStr.strip_chars sp l ++ after
    /\ forallb sp before = true /\ forallb sp after = true.
Proof.
  unfold PyStr.strip_chars.
  destruct (lstrip_suffix l) as (p & Hp & Hall).
  destruct (lstrip_suffix (rev (PyStr.lstrip sp l))) as (q & Hq & Hallq).
  exists p, (rev q). split; [|split; [exact Hall|]].
  - rewrite Hp at 1. f_equal.
    rewrite <- (rev_involutive (PyStr.lstrip sp l)) at 1.
    rewrite Hq at 1. now rewrite rev_app_distr.
  - rewrite forallb_forall in *. intros x Hx. apply Hallq.
    now apply in_rev.
Qed.

End Strip.

Lemma strip_idempotent (s : string) :
  PyStr.strip (PyStr.strip s) = PyStr.strip s.
Proof.
  unfold PyStr.strip. rewrite list_ascii_of_string_of_list_ascii.
  now rewrite strip_chars_idempotent.
Qed.

Lemma is_empty_eq (s : string) : PyStr.is_empty s = true <-> s = EmptyString.
Proof. destruct s; simpl; split; congruence. Qed.

(** [strip] removes white space only, at the two ends of the text, leaves
    no white space at either end, and so changes nothing when it is applied
    again. *)
Lemma strip_spec (s : string) :
  (exists before after,
     list_ascii_of_string s
     = before ++ list_ascii_of_string (PyStr.strip s) ++ after
     /\ forallb PyStr.is_space before = true
     /\ forallb PyStr.is_space after = true)
  /\ match list_ascii_of_string (PyStr.strip s) with
     | c :: _ => PyStr.is_space c = false
     | [] => True
     end
  /\ match rev (list_ascii_of_string (PyStr.strip s)) with
     | c :: _ => PyStr.is_space c = false
     | [] => True
     end
  /\ PyStr.strip (PyStr.strip s) = PyStr.strip s.
Proof.
  split; [|split; [|split]].
  - unfold PyStr.strip. rewrite list_ascii_of_string_of_list_ascii.
    apply strip_chars_ends.
  - unfold PyStr.strip. rewrite list_ascii_of_string_of_list_ascii.
    apply strip_chars_head.
  - unfold PyStr.strip. rewrite list_ascii_of_string_of_list_ascii.
    apply strip_chars_last.
  - apply strip_idempotent.
Qed.

(** X8.  Every expense of a ledger that the program builds has an amount
    that is not zero or below and a category that is trimmed and not empty,
    and the budget is a float that is not below zero. *)
Theorem built_expenses_well_formed (self : tracker) :
  built self ->
  exists location budget es,
    self = Ledger.tracker_of location budget es
    /\ Float64.ltb budget Float64.zero = false
    /\ Forall well_formed es.
Proof.
  induction 1 as [location self Hno Hnew
                 | m self _ IH
                 | budget self _ IH | amount category date today self _ IH].
  - exists location, Float64.zero, [].
    split; [|split; [reflexivity | constructor]].
    exact (new_default location self Hno Hnew).
  - destruct IH as (location & b & es & -> & Hb & Hes).
    now exists {| holds := holds location; next_write := m |}, b, es.
  - destruct IH as (location & b & es & -> & Hb & Hes).
    rewrite set_budget_typed_run.
    destruct (Py.float budget) as [f|e]; [|now exists location, b, es].
    destruct (Float64.ltb f Float64.zero) eqn:Hlt;
      [now exists location, b, es|].
    cbn [snd]. now eexists _, f, es.
  - destruct IH as (location & b & es & -> & Hb & Hes).
    rewrite add_expense_typed_run.
    destruct (Py.float amount) as [f|e]; [|now exists location, b, es].
    destruct (Float64.leb f Float64.zero) eqn:Hle;
      [now exists location, b, es|].
    destruct (blank category) eqn:Hblank; [now exists location, b, es|].
    destruct (date_rejected date); [now exists location, b, es|].
    cbn [orb snd]. eexists _, b, _.
    split; [reflexivity|]. split; [exact Hb|].
    apply Forall_app. split; [exact Hes|]. constructor; [|constructor].
    unfold well_formed. cbn [Ledger.amount Ledger.category].
    split; [exact Hle|]. split; [apply strip_idempotent|].
    intros Hempty. unfold blank in Hblank. now rewrite Hempty in Hblank.
Qed.

Lemma built_expenses_well_formed_witness :
  let fresh := {| data_file := writable Absent; data := default_data |} in
  let s1 := snd (add_expense (PyStr "12.5") "  Food " None "2024-06-01"
                   fresh) in
  built s1
  /\ exists location budget es,
       s1 = Ledger.tracker_of location budget es /\ Forall well_formed es.
Proof.
  intros fresh s1.
  assert (Hb : built s1).
  { apply built_add_expense.
    apply (built_new (writable Absent)); [discriminate | reflexivity]. }
  split; [exact Hb|].
  destruct (built_expenses_well_formed s1 Hb)
    as (location & budget & es & Hs & _ & Hes).
  now exists location, budget, es.
Defined.

(** ** The validation helpers and the calls they guard *)

Lemma float_sign (f : Float64.float) :
  (Float64.leb Float64.zero f = true ->
   Float64.ltb f Float64.zero = false
   /\ Float64.leb f Float64.zero = is_zero f)
  /\ (Float64.leb Float64.zero f = false ->
      Float64.ltb f Float64.zero = negb (is_nan f)
      /\ Float64.leb f Float64.zero = negb (is_nan f)).
Proof.
  destruct f as [s|s| |s m e]; try destruct s; split; intros H;
    try discriminate; split; reflexivity.
Qed.

Lemma validate_amount_run (s : string) :
  validate_amount s
  = Returns match PyStr.float_of_string s with
            | Some f => if Float64.leb Float64.zero f
                        then (true, PyFloat f) else (false, PyInt 0)
            | None => (false, PyInt 0)
            end.
Proof.
  unfold validate_amount, rtry, Py.float.
  destruct (PyStr.float_of_string s); reflexivity.
Qed.

Lemma validate_date_run (s : string) :
  validate_date s = Returns (negb (date_rejected (Some s))).
Proof.
  unfold validate_date, rtry, strptime, date_rejected.
  destruct (PyStr.strptime s); reflexivity.
Qed.

Lemma validate_date_accepts (s : string) :
  validate_date s = Returns true -> date_rejected (Some s) = false.
Proof.
  rewrite validate_date_run. intros H.
  destruct (date_rejected (Some s)); [discriminate | reflexivity].
Qed.

(** X9.  The helpers are sufficient checks before the calls, as the menu
    uses them.  A value that [validate_amount] accepts passes the checks of
    [set_budget] on every ledger whose document is a [dict]: the call
    changes the budget and its outcome is that of the write, [True] when
    the write succeeds.  When the value is moreover not zero, the category
    is not blank and the date is omitted or accepted by [validate_date], it
    passes the checks of [add_expense] on every ledger that holds a list of
    expenses: the call appends the entry and its outcome is that of the
    write. *)
Theorem helpers_guard_the_calls (amount_str : string) (v : pyval) :
  validate_amount amount_str = Returns (true, v) ->
  exists f,
    v = PyFloat f
    /\ (forall self d,
          data self = PyDict d ->
          let changed :=
            with_data (PyDict (Py.dict_set "budget" (PyFloat f) d)) self in
          set_budget v self
          = (after_write ValueError_or_TypeError InvalidBudget
               (fst (_save_data changed)),
             snd (_save_data changed)))
    /\ (forall category date today self d l,
          Float64.leb f Float64.zero = false ->
          blank category = false ->
          match date with
          | Some text => validate_date text = Returns true
          | None => True
          end ->
          data self = PyDict d ->
          Py.dict_get "expenses" d = Some (PyList l) ->
          let changed :=
            with_data
              (PyDict (Py.dict_set "expenses"
                         (PyList (l ++ [new_entry f category date today])) d))
              self in
          add_expense v category date today self
          = (after_write is_ValueError InvalidExpense
               (fst (_save_data changed)),
             snd (_save_data changed))).
Proof.
  rewrite validate_amount_run.
  destruct (PyStr.float_of_string amount_str) as [f|]; [|discriminate].
  destruct (Float64.leb Float64.zero f) eqn:Hle; [|discriminate].
  intros E. inversion E. subst v. exists f. split; [reflexivity|].
  destruct (proj1 (float_sign f) Hle) as [Hlt _]. split.
  - intros self d Hd. rewrite set_budget_run. cbn [Py.float].
    now rewrite Hlt, Hd.
  - intros category date today self d l Hpos Hblank Hdate Hd Hl.
    rewrite add_expense_run. cbn [Py.float]. rewrite Hpos, Hblank.
    assert (Hrej : date_rejected date = false).
    { destruct date as [text|]; [|reflexivity].
      rewrite validate_date_run in Hdate. inversion Hdate.
      now destruct (date_rejected (Some text)). }
    rewrite Hrej, Hd. cbn [orb Py.getitem]. rewrite Hl. reflexivity.
Qed.

Lemma helpers_guard_the_calls_witness :
  let fresh := {| data_file := writable Absent; data := default_data |} in
  exists v,
    validate_amount " 12.50 " = Returns (true, v)
    /\ fst (set_budget v fresh) = Returns (PyBool true)
    /\ fst (add_expense v "Food" (Some "2024-02-29") "2024-06-01" fresh)
       = Returns (PyBool true).
Proof.
  intros fresh.
  assert (Hv : exists v, validate_amount " 12.50 " = Returns (true, v))
    by (eexists; vm_compute; reflexivity).
  destruct Hv as [v Hv]. exists v. split; [exact Hv|].
  destruct (helpers_guard_the_calls " 12.50 " v Hv) as (f & Hf & Hset & Hadd).
  split.
  - rewrite (Hset fresh [("budget", PyFloat Float64.zero);
                         ("expenses", PyList [])] eq_refl).
    reflexivity.
  - rewrite (Hadd "Food" (Some "2024-02-29") "2024-06-01" fresh
               [("budget", PyFloat Float64.zero); ("expenses", PyList [])] []);
      try reflexivity.
    subst v. vm_compute in Hv. inversion Hv. reflexivity.
Defined.

(** X10.  [validate_amount] and the calls judge an amount text alike,
    except at NaN and at zero.  Where the write of the changed document
    succeeds, [set_budget] returns on a text exactly when [validate_amount]
    accepts it or it reads as a NaN, and [add_expense] (with a category and
    a date it accepts) exactly when [validate_amount] accepts it and it
    does not read as a zero, or it reads as a NaN. *)
Theorem helpers_and_calls_differ (amount_str : string) (valid : bool)
  (v : pyval) (category : string) (date : option string) (today : string)
  (self : tracker) (d : list (string * pyval)) (l : list pyval) :
  validate_amount amount_str = Returns (valid, v) ->
  data self = PyDict d ->
  Py.dict_get "expenses" d = Some (PyList l) ->
  blank category = false ->
  date_rejected date = false ->
  (forall f,
     fst (_save_data
            (with_data (PyDict (Py.dict_set "budget" (PyFloat f) d)) self))
     = Returns tt) ->
  (forall f,
     fst (_save_data
            (with_data
               (PyDict (Py.dict_set "expenses"
                          (PyList (l ++ [new_entry f category date today]))
                          d)) self))
     = Returns tt) ->
  (fst (set_budget (PyStr amount_str) self) = Returns (PyBool true)
   <-> valid = true \/ reads_nan amount_str = true)
  /\ (fst (add_expense (PyStr amount_str) category date today self)
      = Returns (PyBool true)
      <-> (valid = true /\ reads_zero amount_str = false)
          \/ reads_nan amount_str = true).
Proof.
  rewrite validate_amount_run. intros Hv Hd Hl Hblank Hrej Hw1 Hw2.
  rewrite set_budget_run, add_expense_run. unfold reads_nan, reads_zero.
  cbn [Py.float]. rewrite Hd, Hblank, Hrej. cbn [Py.getitem]. rewrite Hl.
  cbv zeta.
  destruct (PyStr.float_of_string amount_str) as [f|].
  - rewrite Hw1. cbn [rbind Py.append]. rewrite Hw2. cbn [after_write].
    pose proof (float_sign f) as [Hpos Hneg].
    destruct (Float64.leb Float64.zero f) eqn:Hle; inversion Hv; subst.
    + destruct (Hpos eq_refl) as [-> ->]. cbn [fst orb].
      destruct (is_zero f) eqn:Hz; cbn [fst]; split; split; auto;
        try discriminate.
      * intros [[_ H]|H]; [discriminate|]. destruct f; discriminate.
    + destruct (Hneg eq_refl) as [-> ->].
      destruct (is_nan f); cbn [negb orb fst]; split; split;
        auto; try discriminate.
      * intros [H|H]; discriminate.
      * intros [[H _]|H]; discriminate.
  - inversion Hv; subst. cbn [is_ValueError orb fst].
    split; split; try discriminate.
    + intros [H|H]; discriminate.
    + intros [[H _]|H]; discriminate.
Qed.

Lemma helpers_and_calls_differ_witness :
  let fresh := {| data_file := writable Absent; data := default_data |} in
  validate_amount "nan" = Returns (false, PyInt 0)
  /\ fst (set_budget (PyStr "nan") fresh) = Returns (PyBool true)
  /\ fst (add_expense (PyStr "nan") "Food" None "2024-06-01" fresh)
     = Returns (PyBool true).
Proof.
  intros fresh.
  destruct (helpers_and_calls_differ "nan" false (PyInt 0) "Food" None
              "2024-06-01" fresh
              [("budget", PyFloat Float64.zero); ("expenses", PyList [])] []
              eq_refl eq_refl eq_refl eq_refl eq_refl
              (fun f => eq_refl) (fun f => eq_refl)) as [Hset Hadd].
  split; [reflexivity|].
  split; [apply Hset | apply Hadd]; right; reflexivity.
Defined.

(** ** Periods *)

Lemma compare_refl (s : string) : String.compare s s = Eq.
Proof.
  induction s as [|c s IH]; simpl; [reflexivity|].
  unfold Ascii.compare. now rewrite N.compare_refl.
Qed.

Lemma le_refl (s : string) : PyStr.le s s = true.
Proof. unfold PyStr.le. now rewrite compare_refl. Qed.

Lemma gt_irrefl (s : string) : PyStr.gt s s = false.
Proof. rewrite gt_not_le. now rewrite le_refl. Qed.

Lemma le_both_ways (a b : string) :
  PyStr.le a b && PyStr.le b a = String.eqb b a.
Proof.
  unfold PyStr.le. rewrite (String.compare_antisym b a).
  destruct (String.eqb_spec b a) as [->|Hne].
  - now rewrite compare_refl.
  - destruct (String.compare a b) eqn:E; try reflexivity.
    apply String.compare_eq_iff in E. congruence.
Qed.

(** X11.  A date that [validate_date] accepts is a period of one day:
    [get_period_stats] with that date as start and end does not fail with
    [InvalidDateRange] on any ledger, and on a typed ledger it returns the
    number and the sum of the expenses recorded with exactly that date
    text. *)
Theorem one_day_period (d : string) (location : location)
  (budget : Float64.float) (es : list Ledger.expense) (self : tracker) :
  validate_date d = Returns true ->
  fst (get_period_stats d d self) <> Raises InvalidDateRange
  /\ get_period_stats d d (Ledger.tracker_of location budget es)
     = (Returns (period_value (on_date d es)),
        Ledger.tracker_of location budget es).
Proof.
  intros Hd. apply validate_date_accepts in Hd. rename Hd into Hrej. split.
  - rewrite get_period_stats_run, Hrej, gt_irrefl. cbn [orb fst].
    intros E.
    destruct (Py.getitem (data self) "expenses") as [l|e] eqn:Hl; simpl in E.
    + destruct (Py.iter l) as [items|e] eqn:Hi; simpl in E.
      * destruct (period_filter d d items) as [kept|e] eqn:Hp; simpl in E.
        -- destruct (sum_amounts (PyInt 0) kept) as [t|e] eqn:Hs; simpl in E;
             [discriminate|].
           inversion E. subst e.
           now pose proof (sum_amounts_not_ValueError _ _ _ Hs).
        -- inversion E. subst e.
           now pose proof (period_filter_not_ValueError _ _ _ _ Hp).
      * inversion E. subst e. now pose proof (iter_not_ValueError _ _ Hi).
    + inversion E. subst e.
      now pose proof (getitem_not_ValueError _ _ _ Hl).
  - rewrite get_period_stats_typed, Hrej, gt_irrefl. cbn [orb].
    unfold on_date. do 3 f_equal. apply filter_ext.
    intros e. apply le_both_ways.
Qed.

Lemma one_day_period_witness :
  let fresh := {| data_file := writable Absent; data := default_data |} in
  validate_date "2024-02-29" = Returns true
  /\ fst (get_period_stats "2024-02-29" "2024-02-29" fresh)
     <> Raises InvalidDateRange.
Proof.
  intros fresh. split; [reflexivity|].
  exact (proj1 (one_day_period "2024-02-29" (writable Absent) Float64.zero [] fresh
                  eq_refl)).
Defined.

(** X12.  A period that holds the dates of all the expenses gives the
    totals of the ledger: on a typed ledger, when [validate_date] accepts
    both bounds, the start text is not above the end text and every expense
    date text lies between them, [get_period_stats] returns what
    [get_total_spent] returns and the number of all the expenses. *)
Theorem period_of_everything (location : location) (budget : Float64.float)
  (es : list Ledger.expense) (start_date end_date : string) :
  let self := Ledger.tracker_of location budget es in
  validate_date start_date = Returns true ->
  validate_date end_date = Returns true ->
  PyStr.gt start_date end_date = false ->
  (forall e, In e es ->
     PyStr.le start_date (Ledger.date e) = true
     /\ PyStr.le (Ledger.date e) end_date = true) ->
  exists total,
    fst (get_total_spent self) = Returns total
    /\ fst (get_period_stats start_date end_date self)
       = Returns (PyDict [("total_spent", total);
                          ("expense_count",
                           PyInt (Z.of_nat (List.length es)))]).
Proof.
  intros self. subst self. intros Hs He Hgt Hall.
  apply validate_date_accepts in Hs, He.
  rename Hs into Hs', He into He'.
  exists (Ledger.sum_value (map Ledger.amount es)).
  rewrite get_total_spent_typed, get_period_stats_typed, Hs', He', Hgt.
  cbn [orb fst]. split; [reflexivity|].
  replace (filter _ es) with es; [reflexivity|].
  symmetry. apply forallb_filter_id. apply forallb_forall.
  intros e Hin. destruct (Hall e Hin) as [-> ->]. reflexivity.
Qed.

Lemma period_of_everything_witness :
  let e1 := {| Ledger.amount := Float64.of_Z 50; Ledger.category := "Food";
               Ledger.date := "2024-01-15" |} in
  let e2 := {| Ledger.amount := Float64.of_Z 30; Ledger.category := "Rent";
               Ledger.date := "2024-03-01" |} in
  let self := Ledger.tracker_of (writable Absent) Float64.zero [e1; e2] in
  validate_date "2024-01-01" = Returns true
  /\ validate_date "2024-12-31" = Returns true
  /\ exists total,
       fst (get_total_spent self) = Returns total
       /\ fst (get_period_stats "2024-01-01" "2024-12-31" self)
          = Returns (PyDict [("total_spent", total);
                             ("expense_count", PyInt 2)]).
Proof.
  intros e1 e2 self. split; [reflexivity|]. split; [reflexivity|].
  apply (period_of_everything (writable Absent) Float64.zero [e1; e2]
           "2024-01-01" "2024-12-31"); try reflexivity.
  intros e [<-|[<-|[]]]; split; reflexivity.
Defined.

(** ** One more expense and the categories *)

Lemma totals_loop_app (es es' : list Ledger.expense) (acc : Ledger.entries) :
  Ledger.totals_loop acc (es ++ es')
  = Ledger.totals_loop (Ledger.totals_loop acc es) es'.
Proof.
  revert acc. induction es as [|e es IH]; intros acc; [reflexivity|].
  cbn [app Ledger.totals_loop]. apply IH.
Qed.

Lemma category_totals_snoc (es : list Ledger.expense) (e : Ledger.expense) :
  Ledger.category_totals (es ++ [e])
  = Py.kdict_set (PyStr (Ledger.category e))
      (PyFloat
         (Float64.add
            match Py.kdict_get (PyStr (Ledger.category e))
                    (Ledger.category_totals es) with
            | Some (PyFloat v) => v
            | _ => Float64.zero
            end
            (Ledger.amount e)))
      (Ledger.category_totals es).
Proof.
  rewrite !category_totals_loop, totals_loop_app. cbn [Ledger.totals_loop].
  rewrite kdict_get_typed, kdict_set_typed.
  destruct (Ledger.tget (Ledger.category e) (Ledger.totals_loop [] es));
    reflexivity.
Qed.

Lemma kdict_get_set_other (c c' : string) (v : pyval) (stats : Py.kdict) :
  c' <> c ->
  Py.kdict_get (PyStr c') (Py.kdict_set (PyStr c) v stats)
  = Py.kdict_get (PyStr c') stats.
Proof.
  intros Hne. induction stats as [|[k w] stats IH]; cbn [Py.kdict_set].
  - cbn [Py.kdict_get Py.key_eqb].
    destruct (String.eqb_spec c' c); [congruence | reflexivity].
  - destruct (Py.key_eqb (PyStr c) k) eqn:Ek; cbn [Py.kdict_get].
    + destruct k; try discriminate. cbn [Py.key_eqb] in *.
      apply String.eqb_eq in Ek. subst s.
      destruct (String.eqb_spec c' c); [congruence | reflexivity].
    + now rewrite IH.
Qed.

Lemma kdict_get_set_same (c : string) (v : pyval) (stats : Py.kdict) :
  Py.kdict_get (PyStr c) (Py.kdict_set (PyStr c) v stats) = Some v.
Proof.
  induction stats as [|[k w] stats IH]; cbn [Py.kdict_set].
  - cbn [Py.kdict_get Py.key_eqb]. now rewrite String.eqb_refl.
  - destruct (Py.key_eqb (PyStr c) k) eqn:Ek; cbn [Py.kdict_get];
      now rewrite Ek.
Qed.

(** X13.  Recording an expense changes the mapping of the categories as
    one more turn of its loop: on a typed ledger, after [add_expense]
    returns, [get_category_stats] gives under the trimmed category the
    former value (or zero) plus the amount, and under every other category
    what it gave before. *)
Theorem add_expense_then_category_stats (amount : pyval) (category : string)
  (date : option string) (today : string) (location : location)
  (budget : Float64.float) (es : list Ledger.expense) (self' : tracker)
  (r : pyval) :
  let self := Ledger.tracker_of location budget es in
  add_expense amount category date today self = (Returns r, self') ->
  exists f stats stats',
    Py.float amount = Returns f
    /\ fst (get_category_stats self) = Returns stats
    /\ fst (get_category_stats self') = Returns stats'
    /\ stats'
       = Py.kdict_set (PyStr (PyStr.strip category))
           (PyFloat
              (Float64.add
                 match Py.kdict_get (PyStr (PyStr.strip category)) stats with
                 | Some (PyFloat v) => v
                 | _ => Float64.zero
                 end f))
           stats
    /\ Py.kdict_get (PyStr (PyStr.strip category)) stats'
       = Some (PyFloat
                 (Float64.add
                    match Py.kdict_get (PyStr (PyStr.strip category)) stats
                    with
                    | Some (PyFloat v) => v
                    | _ => Float64.zero
                    end f))
    /\ (forall c, c <> PyStr.strip category ->
          Py.kdict_get (PyStr c) stats' = Py.kdict_get (PyStr c) stats).
Proof.
  intros self Hadd.
  destruct (add_expense_success_state _ _ _ _ _ _ _ Hadd)
    as (f & d & l & Hf & _ & Hd & Hl & _ & _ & _ & Hself').
  unfold self, Ledger.tracker_of, Ledger.doc in Hd. cbn [data] in Hd.
  inversion Hd; subst d. cbn in Hl. inversion Hl; subst l.
  set (e' := {| Ledger.amount := f;
                Ledger.category := PyStr.strip category;
                Ledger.date := match date with
                               | Some d => d
                               | None => today
                               end |}).
  assert (Hs : self'
               = Ledger.tracker_of
                   (wrote location (Ledger.doc budget (es ++ [e']))) budget
                   (es ++ [e'])).
  { rewrite Hself'. unfold self, Ledger.tracker_of, Ledger.doc.
    rewrite map_app. reflexivity. }
  exists f, (Ledger.category_totals es), (Ledger.category_totals (es ++ [e'])).
  split; [exact Hf|].
  split; [unfold self; now rewrite get_category_stats_typed|].
  split; [rewrite Hs; now rewrite get_category_stats_typed|].
  rewrite (category_totals_snoc es e'). cbn [Ledger.category Ledger.amount].
  split; [reflexivity|].
  split; [apply kdict_get_set_same|].
  intros c Hc. now apply kdict_get_set_other.
Qed.

Lemma add_expense_then_category_stats_witness :
  let fresh := {| data_file := writable Absent; data := default_data |} in
  add_expense (PyInt 50) " Food " None "2024-06-01" fresh
  = (Returns (PyBool true),
     snd (add_expense (PyInt 50) " Food " None "2024-06-01" fresh))
  /\ exists stats',
       fst (get_category_stats
              (snd (add_expense (PyInt 50) " Food " None "2024-06-01" fresh)))
       = Returns stats'
       /\ Py.kdict_get (PyStr "Food") stats'
          = Some (PyFloat (Float64.of_Z 50)).
Proof.
  intros fresh. split; [reflexivity|].
  destruct (add_expense_then_category_stats (PyInt 50) " Food " None
              "2024-06-01" (writable Absent) Float64.zero []
              (snd (add_expense (PyInt 50) " Food " None "2024-06-01" fresh))
              (PyBool true) eq_refl)
    as (f & stats & stats' & Hf & Hstats & Hstats' & _ & Hget & _).
  exists stats'. split; [exact Hstats'|].
  inversion Hf. subst f. inversion Hstats. subst stats. exact Hget.
Defined.

(** ** Documents of another shape *)

(** X14.  On a ledger whose document is not a [dict], as a location that
    holds another JSON value gives, [set_budget] fails with [InvalidBudget]
    whatever the budget, the queries raise [TypeError], and so does
    [add_expense] with arguments it accepts.  On a [dict] without the key
    [expenses], [get_total_spent], [get_category_stats] and [add_expense]
    with accepted arguments raise [KeyError].  None of these calls changes
    the ledger. *)
Theorem calls_on_other_shapes (self : tracker) (budget amount : pyval)
  (category : string) (date : option string) (today : string)
  (f f' : Float64.float) :
  Py.float budget = Returns f ->
  Py.float amount = Returns f' ->
  expense_rejected amount category date = false ->
  ((forall d, data self <> PyDict d) ->
   set_budget budget self = (Raises InvalidBudget, self)
   /\ add_expense amount category date today self = (Raises TypeError, self)
   /\ get_total_spent self = (Raises TypeError, self)
   /\ get_category_stats self = (Raises TypeError, self)
   /\ get_financial_summary self = (Raises TypeError, self))
  /\ (forall d, data self = PyDict d -> Py.dict_get "expenses" d = None ->
      add_expense amount category date today self = (Raises KeyError, self)
      /\ get_total_spent self = (Raises KeyError, self)
      /\ get_category_stats self = (Raises KeyError, self)
      /\ get_financial_summary self = (Raises KeyError, self)).
Proof.
  intros Hf Hf' Hrej. unfold expense_rejected in Hrej. rewrite Hf' in Hrej.
  rewrite set_budget_run, add_expense_run, get_total_spent_run,
    get_category_stats_run, get_financial_summary_run, get_total_spent_run,
    Hf, Hf', Hrej.
  split.
  - intros Hnot.
    destruct (data self) as [| | | | | |d]; try (now destruct (Hnot d));
      destruct (Float64.ltb f Float64.zero); repeat split.
    all: now destruct (Hnot d).
  - intros d Hd Hl. rewrite Hd. cbn [Py.getitem]. rewrite Hl.
    repeat split.
Qed.

Lemma calls_on_other_shapes_witness :
  let loaded := {| data_file := writable (Holds (Json (PyList []))); data := PyList [] |} in
  new (writable (Holds (Json (PyList [])))) = Returns loaded
  /\ set_budget (PyInt 1000) loaded = (Raises InvalidBudget, loaded)
  /\ get_total_spent loaded = (Raises TypeError, loaded).
Proof.
  intros loaded. split; [reflexivity|].
  destruct (calls_on_other_shapes loaded (PyInt 1000) (PyInt 50) "Food" None
              "2024-06-01" _ _ eq_refl eq_refl eq_refl) as [Hnot _].
  destruct Hnot as (Hset & _ & Htot & _); [discriminate|].
  split; [exact Hset | exact Htot].
Defined.

(* ===================================================================== *)
(** ** The menu *)
(* ===================================================================== *)

Lemma typed_expenses_no_long_int (es : list Ledger.expense) :
  existsb has_long_int (map Ledger.expense_doc es) = false.
Proof.
  induction es as [|e es IH]; [reflexivity|].
  cbn [map existsb]. rewrite IH. reflexivity.
Qed.

Lemma typed_no_long_int (budget : Float64.float) (es : list Ledger.expense) :
  has_long_int (Ledger.doc budget es) = false.
Proof.
  unfold Ledger.doc. cbn [has_long_int existsb snd orb].
  change (existsb has_long_int (map Ledger.expense_doc es) || false = false).
  now rewrite typed_expenses_no_long_int.
Qed.

(** The write of a typed document: the environment alone decides. *)
Lemma json_dump_typed (location : location) (budget : Float64.float)
  (es : list Ledger.expense) :
  json_dump (Ledger.doc budget es) location
  = match next_write location with
    | Writable => (Returns tt, wrote location (Ledger.doc budget es))
    | Refuses => (Raises OSError, location)
    | Breaks e rest =>
        (Raises e, {| holds := rest; next_write := next_write location |})
    end.
Proof.
  unfold json_dump, wrote. rewrite typed_no_long_int.
  now destruct (next_write location).
Qed.

Lemma set_budget_typed (v : pyval) (f : Float64.float) (location : location)
  (budget : Float64.float) (es : list Ledger.expense) :
  Py.float v = Returns f ->
  Float64.ltb f Float64.zero = false ->
  set_budget v (Ledger.tracker_of location budget es)
  = (after_write ValueError_or_TypeError InvalidBudget
       (fst (json_dump (Ledger.doc f es) location)),
     Ledger.tracker_of (snd (json_dump (Ledger.doc f es) location)) f es).
Proof.
  intros Hf Hlt. rewrite set_budget_typed_run, Hf, Hlt. reflexivity.
Qed.

Lemma add_expense_typed (v : pyval) (f : Float64.float) (category : string)
  (date : option string) (today : string) (location : location)
  (budget : Float64.float) (es : list Ledger.expense) :
  Py.float v = Returns f ->
  Float64.leb f Float64.zero = false ->
  blank category = false ->
  date_rejected date = false ->
  let e := {| Ledger.amount := f;
              Ledger.category := PyStr.strip category;
              Ledger.date := match date with
                             | Some d => d
                             | None => today
                             end |} in
  add_expense v category date today (Ledger.tracker_of location budget es)
  = (after_write is_ValueError InvalidExpense
       (fst (json_dump (Ledger.doc budget (es ++ [e])) location)),
     Ledger.tracker_of
       (snd (json_dump (Ledger.doc budget (es ++ [e])) location)) budget
       (es ++ [e])).
Proof.
  intros Hf Hle Hb Hd e. rewrite add_expense_typed_run, Hf, Hle, Hb, Hd.
  reflexivity.
Qed.

Lemma blank_strip (s : string) :
  PyStr.is_empty (PyStr.strip s) = false -> blank (PyStr.strip s) = false.
Proof.
  intros H. unfold blank. now rewrite strip_idempotent.
Qed.

Lemma print_categories_run (items : Py.kdict) (self : tracker)
  (inp : list string) (out : list output) :
  print_categories items {| ledger := self; stdin := inp; stdout := out |}
  = (Done tt,
     {| ledger := self; stdin := inp;
        stdout := out ++ map (fun item : pyval * pyval =>
                                Line [Shown (fst item); Text ": ";
                                      Shown (snd item)]) items |}).
Proof.
  revert out. induction items as [|[c a] items IH]; intros out.
  - cbn [print_categories pret map]. now rewrite app_nil_r.
  - cbn [print_categories pbind print ledger stdin stdout map fst snd].
    rewrite IH, <- app_assoc. reflexivity.
Qed.

Ltac flatten_output :=
  repeat first [rewrite <- app_assoc
               | progress cbn [app ledger stdin stdout]];
  try reflexivity.

(** [show_statistics] on a typed ledger, up to the period. *)
Lemma show_statistics_typed (today : string) (location : location)
  (budget : Float64.float) (es : list Ledger.expense) (inp : list string)
  (out : list output) :
  let self := Ledger.tracker_of location budget es in
  show_statistics today {| ledger := self; stdin := inp; stdout := out |}
  = let asked := out ++ report_lines budget es in
      match inp with
      | [] => (EOFError, {| ledger := self; stdin := []; stdout := asked |})
      | start_line :: inp' =>
          let start_date := PyStr.strip start_line in
          if PyStr.is_empty start_date
          then (Done tt,
                {| ledger := self; stdin := inp'; stdout := asked |})
          else if date_rejected (Some start_date)
          then (Done tt,
                {| ledger := self; stdin := inp';
                   stdout := asked
                             ++ [Line [Text "Invalid start date format!"]] |})
          else
            let asked' :=
              asked
              ++ [Prompt
                    "Enter end date (YYYY-MM-DD) or press Enter for today: "]
            in
            match inp' with
            | [] => (EOFError,
                     {| ledger := self; stdin := []; stdout := asked' |})
            | end_line :: inp'' =>
                let end_date :=
                  if PyStr.is_empty (PyStr.strip end_line) then today
                  else PyStr.strip end_line in
                (Done tt,
                 {| ledger := self; stdin := inp'';
                    stdout :=
                      asked'
                      ++ (if date_rejected (Some end_date)
                          then [Line [Text "Invalid end date format!"]]
                          else period_lines start_date end_date es) |})
            end
      end.
Proof.
  intros self.
  unfold show_statistics, pbind, call, print, eval, input, pret,
    try_except_as.
  cbn [ledger stdin stdout]. unfold self.
  rewrite get_financial_summary_typed.
  cbn [ledger stdin stdout].
  rewrite get_category_stats_typed.
  cbn [ledger stdin stdout summary_of Py.getitem Py.dict_get String.eqb
       Ascii.eqb Bool.eqb].
  unfold report_lines.
  destruct (Ledger.category_totals es) as [|item items] eqn:Hcat;
    [|rewrite print_categories_run];
    cbn [ledger stdin stdout];
    (destruct inp as [|start_line inp'];
     [flatten_output|]);
    cbn [ledger stdin stdout];
    (destruct (PyStr.is_empty (PyStr.strip start_line));
     [flatten_output|]);
    rewrite validate_date_run;
    (destruct (date_rejected (Some (PyStr.strip start_line))) eqn:Hstart;
     cbn [negb ledger stdin stdout];
     [flatten_output|]);
    (destruct inp' as [|end_line inp''];
     [flatten_output|]);
    cbn [ledger stdin stdout];
    rewrite validate_date_run;
    (destruct (date_rejected
                 (Some (if PyStr.is_empty (PyStr.strip end_line) then today
                        else PyStr.strip end_line))) eqn:Hend;
     cbn [negb ledger stdin stdout];
     [flatten_output|]);
    rewrite get_period_stats_typed, Hstart, Hend; cbn [orb];
    unfold period_lines;
    (destruct (PyStr.gt (PyStr.strip start_line)
                 (if PyStr.is_empty (PyStr.strip end_line) then today
                  else PyStr.strip end_line));
     cbn [ledger stdin stdout is_ValueError InvalidDateRange period_value
          Py.getitem Py.dict_get String.eqb Ascii.eqb Bool.eqb];
     flatten_output).
Qed.

Ltac run_menu :=
  unfold main_turn, pbind, call, print, eval, input, pret;
  cbn [ledger stdin stdout].

Lemma menu_expense_well_formed (f : Float64.float) (line d : string) :
  Float64.leb f Float64.zero = false ->
  PyStr.is_empty (PyStr.strip line) = false ->
  well_formed {| Ledger.amount := f;
                 Ledger.category := PyStr.strip (PyStr.strip line);
                 Ledger.date := d |}.
Proof.
  intros Hf Hc. unfold well_formed. cbn [Ledger.amount Ledger.category].
  rewrite !strip_idempotent. repeat split; [exact Hf|].
  intros E. apply is_empty_eq in E. congruence.
Qed.

Ltac quiet_turn :=
  split; [intros _; exact I | intros _; apply changed_nothing].

Ltac failed_turn :=
  split; [intros H; discriminate H | intros H; exact (False_ind _ H)].

Ltac at_write :=
  rewrite json_dump_typed;
  destruct (next_write _) as [| |e rest];
  cbn [fst snd after_write];
  try match goal with
      | |- context [if ?c e then _ else _] => destruct (c e)
      end;
  cbn [fst snd ledger stdin stdout].

(** A turn of the menu on a typed ledger: it ends with an exception only
    when the write fails, and a turn that ends without one leaves a ledger
    that the location holds. *)
Lemma main_turn_typed (today : string) (location : location)
  (budget : Float64.float) (es : list Ledger.expense) (inp : list string)
  (out : list output) :
  let w := {| ledger := Ledger.tracker_of location budget es;
              stdin := inp; stdout := out |} in
  (next_write location = Writable -> no_exception (fst (main_turn today w)))
  /\ (no_exception (fst (main_turn today w)) ->
      changed location budget es (ledger (snd (main_turn today w)))).
Proof.
  intros w. unfold w. run_menu.
  destruct inp as [|l0 inp]; [quiet_turn|].
  cbn [ledger stdin stdout].
  destruct (String.eqb (PyStr.strip l0) "1").
  { destruct inp as [|la inp]; [quiet_turn|].
    cbn [ledger stdin stdout]. rewrite validate_amount_run.
    destruct (PyStr.float_of_string (PyStr.strip la)) as [f|];
      [|quiet_turn].
    destruct (Float64.leb Float64.zero f) eqn:Hle; [|quiet_turn].
    cbn [ledger stdin stdout].
    rewrite (set_budget_typed (PyFloat f) f) by
      (try reflexivity; apply (proj1 (float_sign f) Hle)).
    at_write; [|failed_turn..].
    split; [intros _; exact I|intros _].
    apply changed_budget, (proj1 (float_sign f) Hle). }
  destruct (String.eqb (PyStr.strip l0) "2").
  { destruct inp as [|la inp]; [quiet_turn|].
    cbn [ledger stdin stdout]. rewrite validate_amount_run.
    destruct (PyStr.float_of_string (PyStr.strip la)) as [f|];
      [|quiet_turn].
    destruct (Float64.leb Float64.zero f) eqn:Hle; [|quiet_turn].
    cbn [le_zero ledger stdin stdout].
    destruct (Float64.leb f Float64.zero) eqn:Hpos; [quiet_turn|].
    destruct inp as [|lc inp]; [quiet_turn|].
    cbn [ledger stdin stdout].
    destruct (PyStr.is_empty (PyStr.strip lc)) eqn:Hc; [quiet_turn|].
    destruct inp as [|ld inp]; [quiet_turn|].
    cbn [ledger stdin stdout].
    destruct (PyStr.is_empty (PyStr.strip ld)) eqn:Hd.
    - cbn [ledger stdin stdout].
      rewrite (add_expense_typed (PyFloat f) f) by
        (try reflexivity; try assumption; now apply blank_strip).
      cbv zeta. at_write; [|failed_turn..].
      split; [intros _; exact I|intros _].
      now apply changed_expenses, menu_expense_well_formed.
    - rewrite validate_date_run.
      destruct (date_rejected (Some (PyStr.strip ld))) eqn:Hdate;
        cbn [negb ledger stdin stdout];
        rewrite (add_expense_typed (PyFloat f) f) by
          (try reflexivity; try assumption; now apply blank_strip);
        cbv zeta; (at_write; [|failed_turn..]);
        (split; [intros _; exact I|intros _]);
        now apply changed_expenses, menu_expense_well_formed. }
  destruct (String.eqb (PyStr.strip l0) "3").
  { rewrite show_statistics_typed. cbv zeta.
    destruct inp as [|ls inp]; [quiet_turn|].
    destruct (PyStr.is_empty (PyStr.strip ls)); [quiet_turn|].
    destruct (date_rejected (Some (PyStr.strip ls))); [quiet_turn|].
    destruct inp as [|le inp]; quiet_turn. }
  destruct (String.eqb (PyStr.strip l0) "4"); quiet_turn.
Qed.

Lemma changed_in_step (location : location) (budget : Float64.float)
  (es : list Ledger.expense) (self' : tracker) :
  in_step (Ledger.tracker_of location budget es) ->
  changed location budget es self' ->
  in_step self'.
Proof.
  intros Hin Hch. pose proof Hin as (_ & _ & Hread).
  change (holds location <> Unreadable) in Hread.
  assert (Hwrote : forall doc, holds (wrote location doc) <> Unreadable).
  { intros doc. unfold wrote, read_after. cbn [holds].
    destruct (holds location); congruence. }
  destruct Hch as [|f Hf|e He]; [exact Hin| |].
  - split; [now exists f, es|]. cbn [data_file]. split; [|apply Hwrote].
    apply new_after_write; [exact Hread | apply typed_no_long_int].
  - split; [now exists budget, (es ++ [e])|]. cbn [data_file].
    split; [|apply Hwrote].
    apply new_after_write; [exact Hread | apply typed_no_long_int].
Qed.

Lemma own_location_in_step (location : location) (self : tracker) :
  own_location location -> new location = Returns self -> in_step self.
Proof.
  intros Hown Hnew.
  assert (Hself : (exists b es, self = Ledger.tracker_of location b es)
                  /\ holds location <> Unreadable).
  { destruct Hown as [H|[H|[H|(b & es & H)]]].
    1-3: split; [|congruence]; exists Float64.zero, [];
         apply (new_default location self); [rewrite H; discriminate|exact Hnew].
    split; [|congruence]. exists b, es.
    exact (new_loaded _ _ _ H Hnew). }
  destruct Hself as [(b & es & ->) Hread]. cbn [data_file].
  split; [now exists b, es|]. split; [exact Hnew | exact Hread].
Qed.

Lemma at_medium_in_step (m : medium) (self : tracker) :
  in_step self -> in_step (at_medium m self).
Proof.
  intros ((b & es & Hself) & Hnew & Hread).
  split; [|split; [now apply new_at_medium | exact Hread]].
  exists b, es. rewrite Hself at 1. reflexivity.
Qed.

Lemma turns_in_step (w0 w : world) :
  turns w0 w -> in_step (ledger w0) -> in_step (ledger w).
Proof.
  intros Hturns Hin.
  induction Hturns as [w|m w w' _ IH|today w w' w'' _ IH Hturn];
    [exact Hin | apply at_medium_in_step, IH, Hin|].
  specialize (IH Hin). pose proof IH as ((b & es & Hself) & _).
  destruct w' as [self inp out]. cbn [ledger] in *.
  pose proof (main_turn_typed today (data_file self) b es inp out) as [_ Hch].
  cbv zeta in Hch. rewrite <- Hself, Hturn in Hch. cbn [fst snd] in Hch.
  specialize (Hch I). rewrite Hself in IH.
  exact (changed_in_step _ _ _ _ IH Hch).
Qed.

(** X15.  A turn of the menu on a typed ledger ends with an exception only
    when the write fails: when the next write succeeds ([next_write] is
    [Writable]), it never does, whatever the user types and however few
    lines are left.  A turn that
    ends without an exception leaves the ledger as it is, or with another
    budget that is not below zero, or with one more expense, whose amount
    is not zero or below and whose category is trimmed and not empty; the
    location then holds the changed ledger. *)
Theorem menu_turn_fails_only_at_the_write (today : string) (w : world)
  (location : location) (budget : Float64.float)
  (es : list Ledger.expense) :
  ledger w = Ledger.tracker_of location budget es ->
  (next_write location = Writable -> no_exception (fst (main_turn today w)))
  /\ (no_exception (fst (main_turn today w)) ->
      changed location budget es (ledger (snd (main_turn today w)))).
Proof.
  destruct w as [self inp out]. cbn [ledger]. intros ->.
  apply main_turn_typed.
Qed.

Lemma menu_turn_fails_only_at_the_write_witness :
  let typed := ["2"; "12.50"; " Food "; "tomorrow"] in
  let w := {| ledger := {| data_file := writable Absent;
                           data := default_data |};
              stdin := typed; stdout := [] |} in
  let full := {| holds := Absent; next_write := Refuses |} in
  let w' := {| ledger := {| data_file := full; data := default_data |};
               stdin := typed; stdout := [] |} in
  no_exception (fst (main_turn "2024-06-01" w))
  /\ changed (writable Absent) Float64.zero []
       (ledger (snd (main_turn "2024-06-01" w)))
  /\ fst (main_turn "2024-06-01" w') = Failed OSError.
Proof.
  intros typed w full w'.
  destruct (menu_turn_fails_only_at_the_write "2024-06-01" w
              (writable Absent) Float64.zero [] eq_refl) as [Hsafe Hch].
  split; [exact (Hsafe eq_refl)|].
  split; [exact (Hch (Hsafe eq_refl)) | reflexivity].
Defined.

(** X16.  A session at the menu stays in step with its location: started
    on a location that can be read and that holds nothing, nothing that is
    JSON, or a document that the program wrote, every turn that the loop
    reaches starts on a typed ledger that the location holds in full, and
    runs without an exception when the next write succeeds. *)
Theorem menu_session_stays_in_step (location : location) (self : tracker)
  (inp : list string) (out : list output) (w : world) (today : string) :
  own_location location ->
  new location = Returns self ->
  turns {| ledger := self; stdin := inp; stdout := out |} w ->
  (next_write (data_file (ledger w)) = Writable ->
   no_exception (fst (main_turn today w)))
  /\ (exists budget es,
        ledger w = Ledger.tracker_of (data_file (ledger w)) budget es)
  /\ new (data_file (ledger w)) = Returns (ledger w).
Proof.
  intros Hown Hnew Hturns.
  pose proof (own_location_in_step _ _ Hown Hnew) as Hin.
  pose proof (turns_in_step _ _ Hturns Hin)
    as ((b & es & Hself) & Hsaved & _).
  split; [|split; [now exists b, es | exact Hsaved]].
  destruct w as [self' inp' out']. cbn [ledger] in *. rewrite Hself.
  apply main_turn_typed.
Qed.

Lemma menu_session_stays_in_step_witness :
  let fresh := {| data_file := writable Absent; data := default_data |} in
  let w0 := {| ledger := fresh;
               stdin := ["1"; "1000"; "2"; "50"; "Food"; ""; "3"; "nonsense"];
               stdout := [] |} in
  let w2 := snd (main_turn "2024-06-02"
                   (snd (main_turn "2024-06-01" w0))) in
  stdin w2 = ["3"; "nonsense"]
  /\ no_exception (fst (main_turn "2024-06-02" w2))
  /\ new (data_file (ledger w2)) = Returns (ledger w2).
Proof.
  intros fresh w0 w2. split; [reflexivity|].
  assert (Hturns : turns w0 w2).
  { apply (turns_more "2024-06-02" w0 (snd (main_turn "2024-06-01" w0)) w2).
    - apply (turns_more "2024-06-01" w0 w0); [apply turns_none|].
      vm_compute. reflexivity.
    - vm_compute. reflexivity. }
  destruct (menu_session_stays_in_step (writable Absent) fresh _ _ w2
              "2024-06-02" (or_introl eq_refl) eq_refl Hturns)
    as (Hsafe & _ & Hsaved).
  split; [exact (Hsafe eq_refl) | exact Hsaved].
Defined.

Lemma validate_amount_true (s : string) (v : pyval) :
  validate_amount s = Returns (true, v) ->
  exists f, v = PyFloat f /\ Float64.ltb f Float64.zero = false.
Proof.
  rewrite validate_amount_run.
  destruct (PyStr.float_of_string s) as [f|]; [|discriminate].
  destruct (Float64.leb Float64.zero f) eqn:Hle; [|discriminate].
  intros E. inversion E. exists f. split; [reflexivity|].
  apply (proj1 (float_sign f) Hle).
Qed.

(** X17.  Choice 1 of the menu on a typed ledger.  A text that
    [validate_amount] accepts becomes the budget in memory and the expenses
    stay; when the write succeeds, as it does when [next_write] is
    [Writable], the location holds the new document and the turn prints
    the budget; when the write fails, the turn ends with the exception of
    [set_budget], with the budget changed in memory all the same.  Any
    other text changes nothing.  In every case the turn reads two lines. *)
Theorem menu_sets_budget (today : string) (location : location)
  (budget : Float64.float) (es : list Ledger.expense) (l0 la : string)
  (rest : list string) (out : list output) (valid : bool) (v : pyval) :
  let w := {| ledger := Ledger.tracker_of location budget es;
              stdin := l0 :: la :: rest; stdout := out |} in
  PyStr.strip l0 = "1" ->
  validate_amount (PyStr.strip la) = Returns (valid, v) ->
  (valid = true ->
   exists f,
     v = PyFloat f
     /\ (let written := json_dump (Ledger.doc f es) location in
         main_turn today w
         = match fst written with
           | Returns _ =>
               (Done true,
                {| ledger := Ledger.tracker_of (snd written) f es;
                   stdin := rest;
                   stdout := out ++ menu_lines
                             ++ [Prompt "Enter your budget: ";
                                 Line [Text "Budget set to: "; Shown v]] |})
           | Raises e =>
               (Failed (if ValueError_or_TypeError e then InvalidBudget
                        else e),
                {| ledger := Ledger.tracker_of (snd written) f es;
                   stdin := rest;
                   stdout := out ++ menu_lines
                             ++ [Prompt "Enter your budget: "] |})
           end)
     /\ (next_write location = Writable ->
         main_turn today w
         = (Done true,
            {| ledger :=
                 Ledger.tracker_of (wrote location (Ledger.doc f es)) f es;
               stdin := rest;
               stdout := out ++ menu_lines
                         ++ [Prompt "Enter your budget: ";
                             Line [Text "Budget set to: "; Shown v]] |})))
  /\ (valid = false ->
      main_turn today w
      = (Done true,
         {| ledger := Ledger.tracker_of location budget es;
            stdin := rest;
            stdout :=
              out ++ menu_lines
              ++ [Prompt "Enter your budget: ";
                  Line [Text
                          "Invalid amount! Please enter a positive number."]]
         |})).
Proof.
  intros w H0 Hv. unfold w. split; intros ->.
  - destruct (validate_amount_true _ _ Hv) as (f & -> & Hlt).
    exists f. split; [reflexivity|].
    assert (Hrun :
      let written := json_dump (Ledger.doc f es) location in
      main_turn today
        {| ledger := Ledger.tracker_of location budget es;
           stdin := l0 :: la :: rest; stdout := out |}
      = match fst written with
        | Returns _ =>
            (Done true,
             {| ledger := Ledger.tracker_of (snd written) f es;
                stdin := rest;
                stdout := out ++ menu_lines
                          ++ [Prompt "Enter your budget: ";
                              Line [Text "Budget set to: ";
                                    Shown (PyFloat f)]] |})
        | Raises e =>
            (Failed (if ValueError_or_TypeError e then InvalidBudget else e),
             {| ledger := Ledger.tracker_of (snd written) f es;
                stdin := rest;
                stdout := out ++ menu_lines
                          ++ [Prompt "Enter your budget: "] |})
        end).
    { cbv zeta. run_menu. rewrite H0. cbn [String.eqb Ascii.eqb Bool.eqb].
      cbn [ledger stdin stdout]. rewrite Hv. cbn [ledger stdin stdout].
      rewrite (set_budget_typed (PyFloat f) f) by (reflexivity || exact Hlt).
      destruct (json_dump (Ledger.doc f es) location) as [[u|e] l'];
        cbn [fst snd after_write];
        [|destruct (ValueError_or_TypeError e)];
        cbn [ledger stdin stdout]; unfold menu_lines; f_equal; f_equal;
        flatten_output. }
    split; [exact Hrun|].
    intros Hm. cbv zeta in Hrun. rewrite Hrun, json_dump_typed, Hm.
    reflexivity.
  - run_menu. rewrite H0. cbn [String.eqb Ascii.eqb Bool.eqb].
    cbn [ledger stdin stdout]. rewrite Hv. cbn [ledger stdin stdout].
    cbn [ledger stdin stdout]. unfold menu_lines. f_equal. f_equal.
    flatten_output.
Qed.

Lemma menu_sets_budget_witness :
  let fresh := {| data_file := writable Absent; data := default_data |} in
  let w := {| ledger := fresh; stdin := [" 1 "; "nan"; "4"]; stdout := [] |} in
  validate_amount "nan" = Returns (false, PyInt 0)
  /\ fst (main_turn "2024-06-01" w) = Done true
  /\ ledger (snd (main_turn "2024-06-01" w)) = fresh
  /\ stdin (snd (main_turn "2024-06-01" w)) = ["4"].
Proof.
  intros fresh w. split; [reflexivity|].
  destruct (menu_sets_budget "2024-06-01" (writable Absent) Float64.zero []
              " 1 " "nan" ["4"] [] false (PyInt 0) eq_refl eq_refl)
    as [_ Hno].
  specialize (Hno eq_refl). unfold w, fresh.
  change {| data_file := writable Absent; data := default_data |}
    with (Ledger.tracker_of (writable Absent) Float64.zero []).
  rewrite Hno. repeat split.
Defined.

(** X18.  Choice 2 of the menu on a typed ledger, with an amount that
    [validate_amount] accepts and that is above zero, and a category that
    is not blank: the expense is always appended in memory.  Its date is
    the typed one when [validate_date] accepts it; a blank date and a date
    that is not accepted both give the date of the day, the second with a
    warning.  When the write succeeds, as it does when [next_write] is
    [Writable], the location holds the new document and the turn prints
    its last line; when the write fails, the turn ends with the exception of
    [add_expense], with the expense in memory all the same. *)
Theorem menu_adds_expense (today : string) (location : location)
  (budget : Float64.float) (es : list Ledger.expense)
  (l0 la lc ld : string) (rest : list string) (out : list output)
  (f : Float64.float) (accepted : bool) :
  let w := {| ledger := Ledger.tracker_of location budget es;
              stdin := l0 :: la :: lc :: ld :: rest; stdout := out |} in
  let typed_today :=
    PyStr.is_empty (PyStr.strip ld) || negb accepted in
  let e := {| Ledger.amount := f;
              Ledger.category := PyStr.strip lc;
              Ledger.date := if typed_today then today
                             else PyStr.strip ld |} in
  let asked :=
    out ++ menu_lines
    ++ [Prompt "Enter amount spent: "; Prompt "Enter category: ";
        Prompt "Enter date (YYYY-MM-DD) or press Enter for today: "]
    ++ (if negb (PyStr.is_empty (PyStr.strip ld)) && negb accepted
        then [Line [Text "Invalid date format! Using today's date."]]
        else []) in
  let written := json_dump (Ledger.doc budget (es ++ [e])) location in
  PyStr.strip l0 = "2" ->
  validate_amount (PyStr.strip la) = Returns (true, PyFloat f) ->
  Float64.leb f Float64.zero = false ->
  PyStr.is_empty (PyStr.strip lc) = false ->
  validate_date (PyStr.strip ld) = Returns accepted ->
  main_turn today w
  = match fst written with
    | Returns _ =>
        (Done true,
         {| ledger := Ledger.tracker_of (snd written) budget (es ++ [e]);
            stdin := rest;
            stdout := asked ++ [Line [Text "Expense added successfully!"]] |})
    | Raises x =>
        (Failed (if is_ValueError x then InvalidExpense else x),
         {| ledger := Ledger.tracker_of (snd written) budget (es ++ [e]);
            stdin := rest; stdout := asked |})
    end
  /\ (next_write location = Writable ->
      main_turn today w
      = (Done true,
         {| ledger :=
              Ledger.tracker_of
                (wrote location (Ledger.doc budget (es ++ [e]))) budget
                (es ++ [e]);
            stdin := rest;
            stdout := asked ++ [Line [Text "Expense added successfully!"]]
         |})).
Proof.
  intros w typed_today e asked written H0 Hv Hpos Hc Hd.
  assert (Hrun :
    main_turn today w
    = match fst written with
      | Returns _ =>
          (Done true,
           {| ledger := Ledger.tracker_of (snd written) budget (es ++ [e]);
              stdin := rest;
              stdout := asked
                        ++ [Line [Text "Expense added successfully!"]] |})
      | Raises x =>
          (Failed (if is_ValueError x then InvalidExpense else x),
           {| ledger := Ledger.tracker_of (snd written) budget (es ++ [e]);
              stdin := rest; stdout := asked |})
      end).
  { unfold w, written, asked, e, typed_today.
    run_menu. rewrite H0. cbn [String.eqb Ascii.eqb Bool.eqb].
    cbn [ledger stdin stdout]. rewrite Hv.
    cbn [ledger stdin stdout le_zero]. rewrite Hpos.
    cbn [ledger stdin stdout]. rewrite Hc.
    cbn [ledger stdin stdout].
    pose proof (blank_strip lc Hc) as Hblank.
    destruct (PyStr.is_empty (PyStr.strip ld)) eqn:Hempty.
    - cbn [ledger stdin stdout orb andb negb].
      rewrite (add_expense_typed (PyFloat f) f) by
        (reflexivity || assumption).
      cbv zeta. rewrite strip_idempotent.
      match goal with
      | |- context [json_dump ?doc location] =>
          destruct (json_dump doc location) as [[u|x] l']
      end;
        cbn [fst snd after_write];
        [|destruct (is_ValueError x)];
        cbn [ledger stdin stdout]; unfold menu_lines; f_equal; f_equal;
        flatten_output.
    - assert (Hacc : accepted = negb (date_rejected (Some (PyStr.strip ld))))
        by (rewrite validate_date_run in Hd; congruence).
      subst accepted. clear Hd. rewrite validate_date_run.
      destruct (date_rejected (Some (PyStr.strip ld))) eqn:Hrej;
        cbn [ledger stdin stdout orb andb negb];
        rewrite (add_expense_typed (PyFloat f) f) by
          (reflexivity || assumption);
        cbv zeta; rewrite strip_idempotent;
        match goal with
        | |- context [json_dump ?doc location] =>
            destruct (json_dump doc location) as [[u|x] l']
        end;
        cbn [fst snd after_write];
        try destruct (is_ValueError x);
        cbn [ledger stdin stdout]; unfold menu_lines; f_equal; f_equal;
        flatten_output. }
  split; [exact Hrun|].
  intros Hm. rewrite Hrun. unfold written. rewrite json_dump_typed, Hm.
  reflexivity.
Qed.

Lemma menu_adds_expense_witness :
  let fresh := {| data_file := writable Absent; data := default_data |} in
  let w := {| ledger := fresh;
              stdin := ["2"; "12.50"; " Food "; "2024-02-30"; "4"];
              stdout := [] |} in
  validate_date "2024-02-30" = Returns false
  /\ exists f,
       ledger (snd (main_turn "2024-06-01" w))
       = let e := {| Ledger.amount := f; Ledger.category := "Food";
                     Ledger.date := "2024-06-01" |} in
         Ledger.tracker_of
           (writable (Holds (Json (Ledger.doc Float64.zero [e]))))
           Float64.zero [e].
Proof.
  intros fresh w. split; [reflexivity|].
  assert (Hv : exists f,
             validate_amount (PyStr.strip "12.50") = Returns (true, PyFloat f)
             /\ Float64.leb f Float64.zero = false)
    by (eexists; split; vm_compute; reflexivity).
  destruct Hv as (f & Hv & Hpos). exists f.
  pose proof (menu_adds_expense "2024-06-01" (writable Absent) Float64.zero []
                "2" "12.50" " Food " "2024-02-30" ["4"] [] f false eq_refl Hv
                Hpos eq_refl eq_refl) as [_ Hrun].
  specialize (Hrun eq_refl). unfold w, fresh.
  change {| data_file := writable Absent; data := default_data |}
    with (Ledger.tracker_of (writable Absent) Float64.zero []).
  rewrite Hrun. reflexivity.
Defined.

(** X19.  What choice 2 of the menu refuses, on any ledger.  An amount
    that [validate_amount] does not accept, or a zero, ends the turn after
    the amount, and a blank category ends it after the category: the ledger
    is as it was, and the lines typed for the rest of the expense are still
    to be read, by the next turn, as choices. *)
Theorem menu_refuses_expense (today : string) (self : tracker)
  (l0 la : string) (rest : list string) (out : list output) (valid : bool)
  (v : pyval) :
  PyStr.strip l0 = "2" ->
  validate_amount (PyStr.strip la) = Returns (valid, v) ->
  ((valid = false
    \/ exists f, v = PyFloat f /\ Float64.leb f Float64.zero = true) ->
   main_turn today
     {| ledger := self; stdin := l0 :: la :: rest; stdout := out |}
   = (Done true,
      {| ledger := self; stdin := rest;
         stdout :=
           out ++ menu_lines
           ++ [Prompt "Enter amount spent: ";
               Line [Text
                       "Invalid amount! Please enter a positive number."]]
      |}))
  /\ (forall f lc rest',
        valid = true ->
        v = PyFloat f ->
        Float64.leb f Float64.zero = false ->
        rest = lc :: rest' ->
        PyStr.is_empty (PyStr.strip lc) = true ->
        main_turn today
          {| ledger := self; stdin := l0 :: la :: rest; stdout := out |}
        = (Done true,
           {| ledger := self; stdin := rest';
              stdout :=
                out ++ menu_lines
                ++ [Prompt "Enter amount spent: "; Prompt "Enter category: ";
                    Line [Text "Category cannot be empty!"]] |})).
Proof.
  intros H0 Hv. split.
  - intros Hno. run_menu. rewrite H0. cbn [String.eqb Ascii.eqb Bool.eqb].
    cbn [ledger stdin stdout]. rewrite Hv. cbn [ledger stdin stdout].
    destruct Hno as [->|(f & -> & Hz)].
    + cbn [ledger stdin stdout]. unfold menu_lines. f_equal. f_equal.
      flatten_output.
    + destruct valid; cbn [le_zero]; rewrite ?Hz;
        cbn [ledger stdin stdout]; unfold menu_lines; f_equal; f_equal;
        flatten_output.
  - intros f lc rest' -> -> Hpos -> Hc. run_menu. rewrite H0.
    cbn [String.eqb Ascii.eqb Bool.eqb].
    cbn [ledger stdin stdout]. rewrite Hv.
    cbn [ledger stdin stdout le_zero]. rewrite Hpos.
    cbn [ledger stdin stdout]. rewrite Hc.
    cbn [ledger stdin stdout]. unfold menu_lines. f_equal. f_equal.
    flatten_output.
Qed.

Lemma menu_refuses_expense_witness :
  let fresh := {| data_file := writable Absent; data := default_data |} in
  main_turn "2024-06-01"
    {| ledger := fresh; stdin := ["2"; "0"; "Food"; "2024-01-15"];
       stdout := [] |}
  = (Done true,
     {| ledger := fresh; stdin := ["Food"; "2024-01-15"];
        stdout :=
          menu_lines
          ++ [Prompt "Enter amount spent: ";
              Line [Text "Invalid amount! Please enter a positive number."]]
     |}).
Proof.
  intros fresh.
  assert (Hv : exists f,
             validate_amount (PyStr.strip "0") = Returns (true, PyFloat f)
             /\ Float64.leb f Float64.zero = true)
    by (eexists; split; vm_compute; reflexivity).
  destruct Hv as (f & Hv & Hz).
  destruct (menu_refuses_expense "2024-06-01" fresh "2" "0"
              ["Food"; "2024-01-15"] [] true (PyFloat f) eq_refl Hv)
    as [Hno _].
  apply Hno. right. now exists f.
Defined.

(** X20.  [show_statistics] on a typed ledger never ends with an exception
    and never changes the ledger.  For a start and an end that
    [validate_date] accepts (a blank end is the date of the day), it writes
    the report and then the total and the count of the expenses whose date
    text lies between the two texts; when the start is above the end, it
    writes the error of [get_period_stats], whose text is
    [Invalid date format], though both dates are valid. *)
Theorem show_statistics_reports (today : string) (location : location)
  (budget : Float64.float) (es : list Ledger.expense) (inp : list string)
  (out : list output) :
  let self := Ledger.tracker_of location budget es in
  let w := {| ledger := self; stdin := inp; stdout := out |} in
  no_exception (fst (show_statistics today w))
  /\ ledger (snd (show_statistics today w)) = self
  /\ (forall start_line end_line rest,
        inp = start_line :: end_line :: rest ->
        let start_date := PyStr.strip start_line in
        let end_date :=
          if PyStr.is_empty (PyStr.strip end_line) then today
          else PyStr.strip end_line in
        PyStr.is_empty start_date = false ->
        validate_date start_date = Returns true ->
        validate_date end_date = Returns true ->
        show_statistics today w
        = (Done tt,
           {| ledger := self; stdin := rest;
              stdout :=
                out ++ report_lines budget es
                ++ [Prompt
                      "Enter end date (YYYY-MM-DD) or press Enter for today: "]
                ++ period_lines start_date end_date es |})).
Proof.
  intros self w. unfold w, self. rewrite show_statistics_typed. cbv zeta.
  split; [|split].
  - destruct inp as [|ls inp']; [exact I|].
    destruct (PyStr.is_empty (PyStr.strip ls)); [exact I|].
    destruct (date_rejected (Some (PyStr.strip ls))); [exact I|].
    destruct inp' as [|le inp'']; exact I.
  - destruct inp as [|ls inp']; [reflexivity|].
    destruct (PyStr.is_empty (PyStr.strip ls)); [reflexivity|].
    destruct (date_rejected (Some (PyStr.strip ls))); [reflexivity|].
    destruct inp' as [|le inp'']; reflexivity.
  - intros ls le rest -> Hne Hs He.
    apply validate_date_accepts in Hs, He. rewrite Hne, Hs, He.
    f_equal. f_equal. flatten_output.
Qed.

Lemma show_statistics_reports_witness :
  let e := {| Ledger.amount := Float64.of_Z 50; Ledger.category := "Food";
              Ledger.date := "2024-01-15" |} in
  let w := {| ledger := Ledger.tracker_of (writable Absent) Float64.zero [e];
              stdin := ["2024-02-01"; "2024-01-01"]; stdout := [] |} in
  validate_date "2024-02-01" = Returns true
  /\ validate_date "2024-01-01" = Returns true
  /\ show_statistics "2024-06-01" w
     = (Done tt,
        {| ledger := Ledger.tracker_of (writable Absent) Float64.zero [e];
           stdin := [];
           stdout :=
             report_lines Float64.zero [e]
             ++ [Prompt
                   "Enter end date (YYYY-MM-DD) or press Enter for today: ";
                 Line [Text "Error: "; Shown_exn InvalidDateRange]] |}).
Proof.
  intros e w. split; [reflexivity|]. split; [reflexivity|].
  destruct (show_statistics_reports "2024-06-01" (writable Absent) Float64.zero [e]
              ["2024-02-01"; "2024-01-01"] []) as (_ & _ & Hrun).
  exact (Hrun "2024-02-01" "2024-01-01" [] eq_refl eq_refl eq_refl eq_refl).
Defined.

(** X21.  The menu handles no exception.  On a ledger whose document is not
    a [dict], as a location that holds another JSON value gives, choice 1
    with an amount that [validate_amount] accepts ends the program with the
    error of [set_budget], and choice 3 with a [TypeError], before anything
    of the statistics is written. *)
Theorem menu_fails_on_other_shapes (today : string) (self : tracker)
  (l0 la : string) (rest : list string) (out : list output) (v : pyval) :
  (forall d, data self <> PyDict d) ->
  (PyStr.strip l0 = "1" ->
   validate_amount (PyStr.strip la) = Returns (true, v) ->
   main_turn today
     {| ledger := self; stdin := l0 :: la :: rest; stdout := out |}
   = (Failed InvalidBudget,
      {| ledger := self; stdin := rest;
         stdout := out ++ menu_lines ++ [Prompt "Enter your budget: "] |}))
  /\ (PyStr.strip l0 = "3" ->
      main_turn today
        {| ledger := self; stdin := l0 :: la :: rest; stdout := out |}
      = (Failed TypeError,
         {| ledger := self; stdin := la :: rest;
            stdout := out ++ menu_lines |})).
Proof.
  intros Hnot. split.
  - intros H0 Hv. destruct (validate_amount_true _ _ Hv) as (f & -> & Hlt).
    run_menu. rewrite H0. cbn [String.eqb Ascii.eqb Bool.eqb].
    cbn [ledger stdin stdout]. rewrite Hv. cbn [ledger stdin stdout].
    rewrite set_budget_run. cbn [Py.float]. rewrite Hlt.
    destruct (data self) as [| | | | | |d] eqn:Hd;
      try (now destruct (Hnot d));
      cbn [ledger stdin stdout]; unfold menu_lines; f_equal; f_equal;
      flatten_output.
  - intros H0. run_menu. rewrite H0. cbn [String.eqb Ascii.eqb Bool.eqb].
    cbn [ledger stdin stdout]. unfold show_statistics.
    unfold pbind, call. cbn [ledger stdin stdout].
    rewrite get_financial_summary_run, get_total_spent_run.
    destruct (data self) as [| | | | | |d] eqn:Hd;
      try (now destruct (Hnot d));
      cbn [ledger stdin stdout fst rbind Py.getitem];
      unfold menu_lines; f_equal; f_equal; flatten_output.
Qed.

Lemma menu_fails_on_other_shapes_witness :
  let loaded := {| data_file := writable (Holds (Json (PyList [])));
                   data := PyList [] |} in
  new (writable (Holds (Json (PyList [])))) = Returns loaded
  /\ fst (main_turn "2024-06-01"
            {| ledger := loaded; stdin := ["1"; "1000"]; stdout := [] |})
     = Failed InvalidBudget.
Proof.
  intros loaded. split; [reflexivity|].
  assert (Hv : exists v,
             validate_amount (PyStr.strip "1000") = Returns (true, v))
    by (eexists; vm_compute; reflexivity).
  destruct Hv as (v & Hv).
  assert (Hnot : forall d, data loaded <> PyDict d) by discriminate.
  destruct (menu_fails_on_other_shapes "2024-06-01" loaded "1" "1000" [] []
              v Hnot) as [Hset _].
  now rewrite (Hset eq_refl Hv).
Defined.

(** ** Where the menu changes the ledger *)

Section Frames.

Context {A B : Type}.

Lemma keeps_pret (a : A) : keeps_ledger (pret a).
Proof. intros w. reflexivity. Qed.

Lemma keeps_eval (r : result A) : keeps_ledger (eval r).
Proof. intros w. unfold eval. now destruct r. Qed.

Lemma keeps_call (m : method A) :
  (forall self, snd (m self) = self) -> keeps_ledger (call m).
Proof.
  intros Hm w. unfold call. specialize (Hm (ledger w)).
  destruct (m (ledger w)) as [[a|e] self]; cbn [snd ledger] in *; exact Hm.
Qed.

Lemma keeps_bind (m : program A) (k : A -> program B) :
  keeps_ledger m -> (forall a, keeps_ledger (k a)) ->
  keeps_ledger (pbind m k).
Proof.
  intros Hm Hk w. unfold pbind. specialize (Hm w).
  destruct (m w) as [[a|e|] w']; cbn [snd] in *; [|exact Hm | exact Hm].
  now rewrite Hk.
Qed.

Lemma keeps_try (body : program A) (classes : exn -> bool)
  (handler : exn -> program A) :
  keeps_ledger body -> (forall e, keeps_ledger (handler e)) ->
  keeps_ledger (try_except_as body classes handler).
Proof.
  intros Hb Hh w. unfold try_except_as. specialize (Hb w).
  destruct (body w) as [[a|e|] w']; cbn [snd] in *; try exact Hb.
  destruct (classes e); cbn [snd]; [|exact Hb]. now rewrite Hh.
Qed.

Lemma never_pret (a : A) : never_eof (pret a).
Proof. intros w. discriminate. Qed.

Lemma never_call (m : method A) : never_eof (call m).
Proof.
  intros w. unfold call.
  destruct (m (ledger w)) as [[a|e] self]; discriminate.
Qed.

Lemma never_bind (m : program A) (k : A -> program B) :
  never_eof m -> (forall a, never_eof (k a)) -> never_eof (pbind m k).
Proof.
  intros Hm Hk w. unfold pbind. specialize (Hm w).
  destruct (m w) as [[a|e|] w']; cbn [fst] in *;
    [apply Hk | discriminate | congruence].
Qed.

Lemma at_eof_of_keeps (m : program A) :
  keeps_ledger m -> keeps_ledger_at_eof m.
Proof. intros Hm w _. apply Hm. Qed.

Lemma at_eof_of_never (m : program A) :
  never_eof m -> keeps_ledger_at_eof m.
Proof. intros Hm w H. now destruct (Hm w). Qed.

Lemma at_eof_bind (m : program A) (k : A -> program B) :
  keeps_ledger m -> (forall a, keeps_ledger_at_eof (k a)) ->
  keeps_ledger_at_eof (pbind m k).
Proof.
  intros Hm Hk w. unfold pbind. specialize (Hm w).
  destruct (m w) as [[a|e|] w']; cbn [fst snd] in *;
    [|discriminate | intros _; exact Hm].
  intros H. now rewrite Hk.
Qed.

End Frames.

Lemma keeps_print (parts : list piece) : keeps_ledger (print parts).
Proof. intros w. reflexivity. Qed.

Lemma keeps_input (text : string) : keeps_ledger (input text).
Proof. intros w. unfold input. now destruct (stdin w). Qed.

Lemma never_print (parts : list piece) : never_eof (print parts).
Proof. intros w. discriminate. Qed.

Lemma keeps_print_categories (items : Py.kdict) :
  keeps_ledger (print_categories items).
Proof.
  induction items as [|[c a] items IH]; cbn [print_categories].
  - apply keeps_pret.
  - apply keeps_bind; [apply keeps_print | intros _; exact IH].
Qed.

Ltac keeps_step :=
  first
    [ apply keeps_pret | apply keeps_print | apply keeps_input
    | apply keeps_eval | apply keeps_print_categories
    | apply keeps_bind; [|intros ?]
    | apply keeps_try; [|intros ?]
    | match goal with
      | |- keeps_ledger (if ?c then _ else _) => destruct c
      | |- keeps_ledger (match ?x with _ => _ end) => destruct x
      end ].

Lemma show_statistics_keeps_ledger (today : string) :
  keeps_ledger (show_statistics today).
Proof.
  unfold show_statistics.
  apply keeps_bind;
    [apply keeps_call; intros self;
     now rewrite get_financial_summary_run|intros summary].
  apply keeps_bind;
    [apply keeps_call; intros self;
     now rewrite get_category_stats_run|intros categories].
  repeat keeps_step.
  apply keeps_call. intros self. now rewrite get_period_stats_run.
Qed.

Ltac never_step :=
  first
    [ apply never_pret | apply never_print | apply never_call
    | apply never_bind; [|intros ?] ].

Ltac at_eof_step :=
  first
    [ apply at_eof_bind;
      [first [apply keeps_print | apply keeps_input | apply keeps_eval
             | apply show_statistics_keeps_ledger]|intros ?]
    | apply at_eof_of_keeps;
      first [apply keeps_pret | apply keeps_print]
    | match goal with
      | |- keeps_ledger_at_eof (if ?c then _ else _) => destruct c
      | |- keeps_ledger_at_eof (let (_, _) := ?x in _) => destruct x
      end ].

Lemma main_turn_at_eof (today : string) :
  keeps_ledger_at_eof (main_turn today).
Proof.
  unfold main_turn. repeat at_eof_step.
  - apply at_eof_of_never. repeat never_step.
  - apply at_eof_bind; [repeat keeps_step | intros date].
    apply at_eof_of_never. repeat never_step.
Qed.

(** X22.  The menu changes the ledger only after the last question of a
    choice: a turn that the end of the input cuts short, at whatever
    question and on whatever ledger, leaves the tracker as it was, so an
    expense typed in part is not recorded.  [show_statistics] leaves the
    tracker as it was however it ends. *)
Theorem menu_changes_after_last_question (today : string) (w : world) :
  (fst (main_turn today w) = EOFError ->
   ledger (snd (main_turn today w)) = ledger w)
  /\ ledger (snd (show_statistics today w)) = ledger w.
Proof.
  split; [apply main_turn_at_eof | apply show_statistics_keeps_ledger].
Qed.

Lemma menu_changes_after_last_question_witness :
  let fresh := {| data_file := writable Absent; data := default_data |} in
  let w := {| ledger := fresh; stdin := ["2"; "50"; "Food"];
              stdout := [] |} in
  fst (main_turn "2024-06-01" w) = EOFError
  /\ ledger (snd (main_turn "2024-06-01" w)) = fresh.
Proof.
  intros fresh w. split; [reflexivity|].
  exact (proj1 (menu_changes_after_last_question "2024-06-01" w) eq_refl).
Defined.

(** ** Wider periods *)

Lemma compare_not_Gt_trans (a b c : string) :
  String.compare a b <> Gt -> String.compare b c <> Gt ->
  String.compare a c <> Gt.
Proof.
  revert b c. induction a as [|x xs IH]; intros b c.
  - destruct c; discriminate.
  - destruct b as [|y ys]; [now intros H|].
    destruct c as [|z zs]; [now intros _ H|].
    cbn [String.compare]. unfold Ascii.compare.
    destruct (N.compare_spec (N_of_ascii x) (N_of_ascii y)) as [Hxy|Hxy|Hxy],
      (N.compare_spec (N_of_ascii y) (N_of_ascii z)) as [Hyz|Hyz|Hyz],
      (N.compare_spec (N_of_ascii x) (N_of_ascii z)) as [Hxz|Hxz|Hxz];
      try congruence; try lia; try discriminate.
    apply IH.
Qed.

Lemma str_le_trans (a b c : string) :
  PyStr.le a b = true -> PyStr.le b c = true -> PyStr.le a c = true.
Proof.
  unfold PyStr.le. intros Hab Hbc.
  pose proof (compare_not_Gt_trans a b c) as H.
  destruct (String.compare a b); try discriminate;
    destruct (String.compare b c); try discriminate;
    destruct (String.compare a c); try reflexivity;
    now destruct H.
Qed.

Lemma filter_narrower {X : Type} (p q : X -> bool) (l : list X) :
  (forall x, p x = true -> q x = true) ->
  filter p l = filter p (filter q l)
  /\ (List.length (filter p l) <= List.length (filter q l))%nat.
Proof.
  intros Hpq. induction l as [|x l [IH1 IH2]]; [split; reflexivity|].
  cbn [filter]. destruct (p x) eqn:Hp.
  - rewrite (Hpq x Hp). cbn [filter List.length]. rewrite Hp.
    split; [now f_equal | lia].
  - destruct (q x); cbn [filter List.length]; rewrite ?Hp;
      split; try assumption; lia.
Qed.

(** X23.  A wider period holds more.  On a typed ledger, when
    [get_period_stats] returns for a start and an end, it returns as well
    for every start that is not above that start and every end that is not
    below that end, if [validate_date] accepts them; the expenses of the
    first period are those of the wider one that lie in it, so that the
    count does not fall. *)
Theorem wider_period_holds_more (location : location) (budget : Float64.float)
  (es : list Ledger.expense) (start_date end_date start' end' : string)
  (r : pyval) :
  let self := Ledger.tracker_of location budget es in
  let within (lo hi : string) (e : Ledger.expense) :=
    PyStr.le lo (Ledger.date e) && PyStr.le (Ledger.date e) hi in
  fst (get_period_stats start_date end_date self) = Returns r ->
  validate_date start' = Returns true ->
  validate_date end' = Returns true ->
  PyStr.le start' start_date = true ->
  PyStr.le end_date end' = true ->
  exists kept',
    fst (get_period_stats start' end' self) = Returns (period_value kept')
    /\ kept' = filter (within start' end') es
    /\ r = period_value (filter (within start_date end_date) kept')
    /\ (List.length (filter (within start_date end_date) kept')
        <= List.length kept')%nat.
Proof.
  intros self within Hr Hs' He' Hs He. unfold self in *.
  apply validate_date_accepts in Hs', He'.
  rewrite get_period_stats_typed in Hr. cbn [fst] in Hr.
  destruct (date_rejected (Some start_date)); [discriminate|].
  destruct (date_rejected (Some end_date)); [discriminate|].
  cbn [orb] in Hr. rewrite gt_not_le in Hr.
  destruct (PyStr.le start_date end_date) eqn:Hle; [|discriminate].
  cbn [negb] in Hr. inversion Hr as [Hr']. clear Hr.
  assert (Hwide : PyStr.gt start' end' = false).
  { rewrite gt_not_le.
    now rewrite (str_le_trans _ _ _ (str_le_trans _ _ _ Hs Hle) He). }
  exists (filter (within start' end') es).
  rewrite get_period_stats_typed, Hs', He', Hwide. cbn [orb fst].
  assert (Himp : forall e, within start_date end_date e = true ->
                           within start' end' e = true).
  { intros e. unfold within. rewrite !andb_true_iff. intros [H1 H2].
    split; [exact (str_le_trans _ _ _ Hs H1) | exact (str_le_trans _ _ _ H2 He)]. }
  destruct (filter_narrower _ _ es Himp) as [Heq Hlen].
  split; [reflexivity|]. split; [reflexivity|].
  split; [now rewrite <- Heq|].
  rewrite <- Heq. exact Hlen.
Qed.

Lemma wider_period_holds_more_witness :
  let e1 := {| Ledger.amount := Float64.of_Z 50; Ledger.category := "Food";
               Ledger.date := "2024-01-15" |} in
  let e2 := {| Ledger.amount := Float64.of_Z 30; Ledger.category := "Rent";
               Ledger.date := "2024-02-01" |} in
  let self := Ledger.tracker_of (writable Absent) Float64.zero [e1; e2] in
  fst (get_period_stats "2024-01-10" "2024-01-20" self)
  = Returns (period_value [e1])
  /\ fst (get_period_stats "2024-01-01" "2024-12-31" self)
     = Returns (period_value [e1; e2]).
Proof.
  intros e1 e2 self. split; [reflexivity|].
  destruct (wider_period_holds_more (writable Absent) Float64.zero [e1; e2]
              "2024-01-10" "2024-01-20" "2024-01-01" "2024-12-31"
              (period_value [e1]) eq_refl eq_refl eq_refl eq_refl eq_refl)
    as (kept' & Hwide & -> & _).
  exact Hwide.
Defined.
